(** * x402 paywall adapter: wallet-request interception and payment payloads

    A shallow embedding of the two adapter scripts of the repository,

      - [src/unnamed/part_000]: the adapter that also knows native coins
        (module [Adapter]), and
      - [src/src/x402_payment_service/static/paywall_adapter.js]: the
        ERC-20-only adapter (module [PaywallAdapter]),

    together with the properties that the specification states about
    the token amount formatter, the provider call interceptor and the
    network call interceptor, and with further properties of the
    balance read ([getBalance]), of the start of the scripts and of
    their refresh loop ([update], [init], the mutation observer).  The
    functions that rewrite the document ([replaceText], the display in
    [updateBalance]) are not embedded: the refresh loop is stated for
    any document and any [replaceText].

    Conventions.
      - JavaScript values are the inductive type [value]; strings are
        sequences of 16-bit code units ([utf16]), the texts that the
        scripts build from digits are [string]s; BigInts are [Z].
      - The page globals that the scripts share
        ([window.__x402_eip2612_permit], [window.__x402_eip2612_transfer],
        [window.__x402_nativePaymentData], [window.x402]) are fields of
        the record [world], which a small state-and-exception monad
        ([Page.M]) threads through the wrappers.  An [await] is a step of
        that monad: a rejected promise is a thrown exception.
      - What the scripts do not define is a parameter: [JSON.parse], the
        wallet provider behind [window.ethereum.request] and the network
        behind [window.fetch] are the fields of a [host], and every
        theorem holds for every host.
      - A call of a wrapper runs from its first step to its last; the
        page's event loop does not run another wrapper call in
        between. *)

From Stdlib Require Import ZArith List String Ascii Bool Lia.
Import ListNotations.

Local Open Scope string_scope.
Local Open Scope Z_scope.

(* ================================================================== *)
(** * Strings, as the scripts use them *)
(* ================================================================== *)

Module Str.

(** [c.repeat(n)] *)
Fixpoint repeat (c : ascii) (n : nat) : string :=
  match n with
  | O => ""
  | S k => String c (repeat c k)
  end.

(** [s.padStart(n, c)]: pads on the left, never truncates. *)
Definition padStart (n : nat) (c : ascii) (s : string) : string :=
  repeat c (n - String.length s) ++ s.

(** [s.slice(0, n)] *)
Fixpoint take (n : nat) (s : string) : string :=
  match n, s with
  | S k, String c r => String c (take k r)
  | _, _ => ""
  end.

(** [s.slice(n)] *)
Fixpoint drop (n : nat) (s : string) : string :=
  match n, s with
  | S k, String _ r => drop k r
  | _, _ => s
  end.

(** [s.replace(/0+$/, '')]: removes the longest suffix of ['0']. *)
Fixpoint strip_trailing_zeros (s : string) : string :=
  match s with
  | "" => ""
  | String c r =>
      let r' := strip_trailing_zeros r in
      if (Ascii.eqb c "0" && String.eqb r' "")%bool then "" else String c r'
  end.

(** A string is truthy when it is not empty. *)
Definition nonempty (s : string) : bool := negb (String.eqb s "").

(** The digit of value [d] in radices up to 16, lower case as
    [BigInt.prototype.toString] prints it. *)
Definition digit_char (d : Z) : ascii :=
  if d <? 10 then ascii_of_nat (48 + Z.to_nat d)
  else ascii_of_nat (87 + Z.to_nat d).

Fixpoint digits_fuel (fuel : nat) (radix n : Z) : string :=
  match fuel with
  | O => ""
  | S f =>
      if n <? radix then String (digit_char n) ""
      else digits_fuel f radix (n / radix)
           ++ String (digit_char (n mod radix)) ""
  end.

(** The digits of a non-negative integer, most significant first. *)
Definition digits (radix n : Z) : string :=
  digits_fuel (S (Z.to_nat (Z.log2 n))) radix n.

(** Value of one decimal digit character. *)
Definition digit_val (c : ascii) : Z := Z.of_nat (nat_of_ascii c) - 48.

Definition is_digit (c : ascii) : bool :=
  ((48 <=? nat_of_ascii c) && (nat_of_ascii c <=? 57))%nat.

Fixpoint all_digits (s : string) : bool :=
  match s with
  | "" => true
  | String c r => is_digit c && all_digits r
  end.

(** Horner evaluation of a string of decimal digits. *)
Fixpoint dec_value_from (acc : Z) (s : string) : Z :=
  match s with
  | "" => acc
  | String c r => dec_value_from (10 * acc + digit_val c) r
  end.

Definition dec_value (s : string) : Z := dec_value_from 0 s.

(** Splits at the first ['.']; the point itself is dropped. *)
Fixpoint split_point (s : string) : string * string :=
  match s with
  | "" => ("", "")
  | String c r =>
      if Ascii.eqb c "." then ("", r)
      else let (i, f) := split_point r in (String c i, f)
  end.

Fixpoint has_point (s : string) : bool :=
  match s with
  | "" => false
  | String c r => Ascii.eqb c "." || has_point r
  end.

End Str.

(* ================================================================== *)
(** * BigInt *)
(* ================================================================== *)

(** [n.toString(radix)] of a BigInt [n]. *)
Definition BigInt_toString (radix n : Z) : string :=
  if n <? 0 then "-" ++ Str.digits radix (- n) else Str.digits radix n.

(* ================================================================== *)
(** * The token amount formatter *)
(* ================================================================== *)

(** [formatAmount(atomic, decimals)], the same text in both scripts.
    [atomic] is the BigInt that [BigInt(atomic)] yields and [decimals]
    the count that both [BigInt(decimals)] and [padStart] receive.
    BigInt [/] and [%] truncate towards zero: [Z.quot] and [Z.rem]. *)
Definition formatAmount (atomic : Z) (decimals : nat) : string :=
  let d := 10 ^ Z.of_nat decimals in
  let n := atomic in
  let i := BigInt_toString 10 (Z.quot n d) in
  let f := Str.strip_trailing_zeros
             (Str.take 4
                (Str.padStart decimals "0" (BigInt_toString 10 (Z.rem n d)))) in
  if Str.nonempty f then i ++ "." ++ f else i.

(** Reading a formatted amount back, in the words of the round-trip
    property: integer part times [10^decimals] plus the fractional digits
    scaled to atomic units, that is the fraction [0.f] times
    [10^decimals], whole atomic units only. *)
Definition parseAmount (s : string) (decimals : nat) : Z :=
  let (i, f) := Str.split_point s in
  Str.dec_value i * 10 ^ Z.of_nat decimals
  + Str.dec_value f * 10 ^ Z.of_nat decimals
    / 10 ^ Z.of_nat (String.length f).

(** Powers of ten with a natural exponent. *)
Definition pow10 (k : nat) : Z := 10 ^ Z.of_nat k.

(* ================================================================== *)
(** * JavaScript strings *)
(* ================================================================== *)

(** A JavaScript string is a sequence of 16-bit code units.  The texts
    that the scripts build themselves (digits, hexadecimal words, base64)
    are [string]s of the Standard Library, whose characters are the code
    units below 256; [U16.lit] takes one to the JavaScript string with
    the same code units, and is inserted where a JavaScript string is
    expected. *)
Inductive utf16 : Type :=
| UEmpty
| UCons (u : N) (r : utf16).

Module U16.

Fixpoint lit (s : string) : utf16 :=
  match s with
  | "" => UEmpty
  | String c r => UCons (N_of_ascii c) (lit r)
  end.

(** [s + t] *)
Fixpoint app (s t : utf16) : utf16 :=
  match s with
  | UEmpty => t
  | UCons u r => UCons u (app r t)
  end.

(** [s.length] *)
Fixpoint length (s : utf16) : nat :=
  match s with
  | UEmpty => O
  | UCons _ r => S (length r)
  end.

(** [s.slice(0, n)] *)
Fixpoint take (n : nat) (s : utf16) : utf16 :=
  match n, s with
  | S k, UCons u r => UCons u (take k r)
  | _, _ => UEmpty
  end.

(** [s.slice(n)] *)
Fixpoint drop (n : nat) (s : utf16) : utf16 :=
  match n, s with
  | S k, UCons _ r => drop k r
  | _, _ => s
  end.

Fixpoint repeat (u : N) (n : nat) : utf16 :=
  match n with
  | O => UEmpty
  | S k => UCons u (repeat u k)
  end.

(** [s.padStart(n, c)]: pads on the left, never truncates. *)
Definition padStart (n : nat) (c : ascii) (s : utf16) : utf16 :=
  app (repeat (N_of_ascii c) (n - length s)) s.

(** [s === t] *)
Fixpoint eqb (s t : utf16) : bool :=
  match s, t with
  | UEmpty, UEmpty => true
  | UCons u r, UCons v q => N.eqb u v && eqb r q
  | _, _ => false
  end.

(** A string is truthy when it is not empty. *)
Definition nonempty (s : utf16) : bool :=
  match s with
  | UEmpty => false
  | UCons _ _ => true
  end.

(** [s[i]] *)
Fixpoint get (i : nat) (s : utf16) : option N :=
  match s, i with
  | UEmpty, _ => None
  | UCons u _, O => Some u
  | UCons _ r, S k => get k r
  end.

(** The string as a sequence of bytes, when every code unit is below
    256. *)
Fixpoint narrow (s : utf16) : option string :=
  match s with
  | UEmpty => Some ""
  | UCons u r =>
      if (u <? 256)%N then
        match narrow r with
        | Some t => Some (String (ascii_of_N u) t)
        | None => None
        end
      else None
  end.

End U16.

Coercion U16.lit : string >-> utf16.
Arguments U16.lit : simpl never.

Notation "s +++ t" := (U16.app s t) (at level 60, right associativity).

(** A string literal inside an object or array literal is a JavaScript
    string as well. *)
#[local] Arguments pair {A B} & _ _.
#[local] Arguments cons {A} & _ _.

(* ================================================================== *)
(** * JavaScript values *)
(* ================================================================== *)

(** Numbers.  [NInt z] is the integer-valued number [z] (a double: an
    integer of at most 53 significant bits, below [2^1024]).  A finite
    number that is not an integer is kept as the text that
    [Number.prototype.toString] prints for it. *)
Inductive number : Type :=
| NInt (z : Z)
| NFrac (repr : string)
| NNaN
| NInf (negative : bool).

(** The values that cross the adapter: JSON-like data, plus the native
    [Headers] collection that [fetch] accepts.  An object is a plain data
    object, the list of its own properties in enumeration order; the
    names and values of a [Headers] collection are byte strings. *)
#[warnings="-register-all"]
Inductive value : Type :=
| VUndef
| VNull
| VBool (b : bool)
| VNum (n : number)
| VStr (s : utf16)
| VArr (items : list value)
| VObj (props : list (utf16 * value))
| VHeaders (entries : list (string * string)).

Definition VInt (z : Z) : value := VNum (NInt z).

(** What a thrown exception or a rejected promise carries. *)
Inductive exn : Type :=
| TypeError
| RangeError
| SyntaxError
| InvalidCharacterError
| Rejected (reason : value).

Inductive outcome (A : Type) : Type :=
| Ok (a : A)
| Throw (e : exn).

Arguments Ok {A} a.
Arguments Throw {A} e.

Module JS.

(** ** Truthiness, [||], [===] *)

Definition truthy (v : value) : bool :=
  match v with
  | VUndef | VNull => false
  | VBool b => b
  | VNum (NInt z) => negb (z =? 0)
  | VNum (NFrac _) => true
  | VNum NNaN => false
  | VNum (NInf _) => true
  | VStr s => U16.nonempty s
  | VArr _ | VObj _ | VHeaders _ => true
  end.

(** [a || b] *)
Definition or (a b : value) : value := if truthy a then a else b.

(** [v === 'literal'] *)
Definition is_string (v : value) (lit : string) : bool :=
  match v with
  | VStr s => U16.eqb s lit
  | _ => false
  end.

(** [v === true] *)
Definition is_true (v : value) : bool :=
  match v with
  | VBool true => true
  | _ => false
  end.

Definition nullish (v : value) : bool :=
  match v with
  | VUndef | VNull => true
  | _ => false
  end.

(** ** Property access *)

Fixpoint assoc (k : utf16) (ps : list (utf16 * value)) : value :=
  match ps with
  | [] => VUndef
  | (k', v) :: r => if U16.eqb k' k then v else assoc k r
  end.

(** [o[k] = v] on the property list: an existing property keeps its
    place, a new one goes last. *)
Fixpoint assoc_set (k : utf16) (v : value) (ps : list (utf16 * value))
  : list (utf16 * value) :=
  match ps with
  | [] => [(k, v)]
  | (k', v') :: r =>
      if U16.eqb k' k then (k, v) :: r else (k', v') :: assoc_set k v r
  end.

(** [v.k] for a value that is neither [undefined] nor [null] and one of
    the data keys the scripts read ([method], [params], [headers],
    [X-PAYMENT], ...): none of them is a property of a primitive's,
    an array's or a [Headers] object's prototype. *)
Definition prop (v : value) (k : utf16) : value :=
  match v with
  | VObj ps => assoc k ps
  | _ => VUndef
  end.

(** [v[i]] for a value that is neither [undefined] nor [null]. *)
Definition index (v : value) (i : nat) : value :=
  match v with
  | VArr xs => nth i xs VUndef
  | VStr s => match U16.get i s with
              | Some u => VStr (UCons u UEmpty)
              | None => VUndef
              end
  | VObj ps => assoc (Str.digits 10 (Z.of_nat i)) ps
  | _ => VUndef
  end.

(** [v?.k] and [v?.[i]] *)
Definition opt_prop (v : value) (k : utf16) : value :=
  if nullish v then VUndef else prop v k.

Definition opt_index (v : value) (i : nat) : value :=
  if nullish v then VUndef else index v i.

(** ** Numbers and their text *)

(** The number nearest to a non-negative integer (ties to even), as
    the conversion of a mathematical value to a Number rounds it. *)
Definition to_number (z : Z) : number :=
  let bits := Z.log2 z + 1 in
  if bits <=? 53 then NInt z
  else
    let sh := bits - 53 in
    let q := Z.shiftr z sh in
    let rest := z - Z.shiftl q sh in
    let half := Z.shiftl 1 (sh - 1) in
    let q' := if (half <? rest) || ((rest =? half) && Z.odd q)
              then q + 1 else q in
    let r := Z.shiftl q' sh in
    if r <? 2 ^ 1024 then NInt r else NInf false.

Definition negate (n : number) : number :=
  match n with
  | NInt z => NInt (- z)
  | NInf b => NInf (negb b)
  | other => other
  end.

(** Whether the integer [c] is a decimal that denotes the positive
    double [x]: [c] lies no further from [x] than half the distance to
    the next double on its side, the half-way points included when the
    significand of [x] is even. *)
Definition rounds_to (x c : Z) : bool :=
  let bits := Z.log2 x + 1 in
  if bits <=? 53 then c =? x
  else
    let sh := bits - 53 in
    let m := Z.shiftr x sh in
    let high := 2 ^ sh in
    let low := if m =? 2 ^ 52 then 2 ^ (sh - 1) else 2 ^ sh in
    let d := 2 * (c - x) in
    if Z.even m then (- low <=? d) && (d <=? high)
    else (- low <? d) && (d <? high).

(** The multiple of [10^j] that denotes [x] and is nearest to it, if
    there is one (of two equally near, the one with the even digit). *)
Definition candidate (x j : Z) : option Z :=
  let P := 10 ^ j in
  let below := (x / P) * P in
  let above := below + P in
  match (0 <? below) && rounds_to x below, rounds_to x above with
  | true, true =>
      if x - below <? above - x then Some below
      else if above - x <? x - below then Some above
      else if Z.even (x / P) then Some below else Some above
  | true, false => Some below
  | false, true => Some above
  | false, false => None
  end.

Fixpoint shortest_fuel (fuel : nat) (x j best : Z) : Z :=
  match fuel with
  | O => best
  | S f =>
      match candidate x j with
      | Some c => shortest_fuel f x (j + 1) c
      | None => best
      end
  end.

(** The integer with the fewest significant digits that denotes the
    positive double [x]: the digits that [Number::toString] prints. *)
Definition shortest (x : Z) : Z :=
  shortest_fuel (S (Z.to_nat (Z.log2 x))) x 0 x.

(** [Number::toString] of a positive integer-valued number: all the
    digits up to 21 of them, exponent form beyond. *)
Definition integer_text (x : Z) : string :=
  let c := shortest x in
  let ds := Str.digits 10 c in
  if c <? 10 ^ 21 then ds
  else
    let e := Str.digits 10 (Z.of_nat (String.length ds) - 1) in
    match Str.strip_trailing_zeros ds with
    | String d "" => String d ("e+" ++ e)
    | String d r => String d ("." ++ r ++ "e+" ++ e)
    | "" => ds
    end.

Definition Number_toString (n : number) : string :=
  match n with
  | NInt z =>
      if z =? 0 then "0"
      else if z <? 0 then "-" ++ integer_text (- z)
      else integer_text z
  | NFrac r => r
  | NNaN => "NaN"
  | NInf false => "Infinity"
  | NInf true => "-Infinity"
  end.

(** ** [ToString] *)

(** [String(v)], which is also [v.toString()] for the values that have
    the method; an array prints its items joined by commas, with nothing
    for [undefined] and [null]. *)
Fixpoint ToString (v : value) : utf16 :=
  match v with
  | VUndef => "undefined"
  | VNull => "null"
  | VBool true => "true"
  | VBool false => "false"
  | VNum n => Number_toString n
  | VStr s => s
  | VArr xs =>
      (fix join (l : list value) : utf16 :=
         match l with
         | [] => UEmpty
         | x :: r =>
             let t := match x with
                      | VUndef | VNull => UEmpty
                      | _ => ToString x
                      end in
             match r with
             | [] => t
             | _ :: _ => t +++ "," +++ join r
             end
         end) xs
  | VObj _ => "[object Object]"
  | VHeaders _ => "[object Headers]"
  end.

(** ** Integer literals *)

(** White space that [trim] and the numeric parsers skip. *)
Definition is_space (u : N) : bool :=
  ((9 <=? u) && (u <=? 13) || (u =? 32) || (u =? 160) || (u =? 5760)
   || (8192 <=? u) && (u <=? 8202) || (u =? 8232) || (u =? 8233)
   || (u =? 8239) || (u =? 8287) || (u =? 12288) || (u =? 65279))%N.

Fixpoint trim_start (s : utf16) : utf16 :=
  match s with
  | UCons u r => if is_space u then trim_start r else s
  | UEmpty => UEmpty
  end.

Fixpoint trim_end (s : utf16) : utf16 :=
  match s with
  | UEmpty => UEmpty
  | UCons u r =>
      let r' := trim_end r in
      if is_space u && negb (U16.nonempty r') then UEmpty else UCons u r'
  end.

Definition trim (s : utf16) : utf16 := trim_end (trim_start s).

(** Value of a digit character in radices up to 16, either case. *)
Definition digit_of (u : N) : option Z :=
  if ((48 <=? u) && (u <=? 57))%N then Some (Z.of_N u - 48)
  else if ((97 <=? u) && (u <=? 102))%N then Some (Z.of_N u - 87)
  else if ((65 <=? u) && (u <=? 70))%N then Some (Z.of_N u - 55)
  else None.

Definition digit_in (radix : Z) (u : N) : option Z :=
  match digit_of u with
  | Some d => if d <? radix then Some d else None
  | None => None
  end.

(** All of [s] as digits of the radix, continuing from [acc]. *)
Fixpoint all_digits_in (radix acc : Z) (s : utf16) : option Z :=
  match s with
  | UEmpty => Some acc
  | UCons u r =>
      match digit_in radix u with
      | Some d => all_digits_in radix (radix * acc + d) r
      | None => None
      end
  end.

Definition integer_in (radix : Z) (s : utf16) : option Z :=
  match s with
  | UEmpty => None
  | _ => all_digits_in radix 0 s
  end.

(** The longest prefix of [s] made of digits of the radix: its value
    and whether it is non-empty. *)
Fixpoint digits_prefix (radix acc : Z) (seen : bool) (s : utf16)
  : Z * bool :=
  match s with
  | UEmpty => (acc, seen)
  | UCons u r =>
      match digit_in radix u with
      | Some d => digits_prefix radix (radix * acc + d) true r
      | None => (acc, seen)
      end
  end.

Fixpoint starts_with (p s : utf16) : bool :=
  match p, s with
  | UEmpty, _ => true
  | UCons a p', UCons b s' => N.eqb a b && starts_with p' s'
  | _, _ => false
  end.

(** [StringToBigInt]: optional white space around a signed decimal
    integer or an unsigned [0x], [0o], [0b] literal; the empty text is
    zero. *)
Definition StringToBigInt (s : utf16) : option Z :=
  let t := trim s in
  if negb (U16.nonempty t) then Some 0
  else if starts_with "0x" t || starts_with "0X" t
  then integer_in 16 (U16.drop 2 t)
  else if starts_with "0o" t || starts_with "0O" t
  then integer_in 8 (U16.drop 2 t)
  else if starts_with "0b" t || starts_with "0B" t
  then integer_in 2 (U16.drop 2 t)
  else if starts_with "-" t then option_map Z.opp (integer_in 10 (U16.drop 1 t))
  else if starts_with "+" t then integer_in 10 (U16.drop 1 t)
  else integer_in 10 t.

(** [BigInt(v)] *)
Definition BigInt (v : value) : outcome Z :=
  match v with
  | VUndef | VNull => Throw TypeError
  | VBool b => Ok (if b then 1 else 0)
  | VNum (NInt z) => Ok z
  | VNum _ => Throw RangeError
  | VStr _ | VArr _ =>
      match StringToBigInt (ToString v) with
      | Some z => Ok z
      | None => Throw SyntaxError
      end
  | VObj _ | VHeaders _ => Throw SyntaxError
  end.

(** [parseInt(v, 16)]: leading white space, a sign, an optional [0x],
    then as many hexadecimal digits as there are. *)
Definition parseInt16 (v : value) : number :=
  let s := trim_start (ToString v) in
  let neg := starts_with "-" s in
  let s1 := if starts_with "-" s || starts_with "+" s then U16.drop 1 s
            else s in
  let s2 := if starts_with "0x" s1 || starts_with "0X" s1 then U16.drop 2 s1
            else s1 in
  match digits_prefix 16 0 false s2 with
  | (z, true) => if neg then negate (to_number z) else to_number z
  | (_, false) => NNaN
  end.

(** ** [JSON.stringify] *)

Definition dquote : ascii := "034"%char.

Definition hex4 (n : Z) : string :=
  Str.padStart 4 "0" (Str.digits 16 n).

(** A code unit that is half of a surrogate pair. *)
Definition is_high (u : N) : bool := ((55296 <=? u) && (u <=? 56319))%N.
Definition is_low (u : N) : bool := ((56320 <=? u) && (u <=? 57343))%N.

Definition json_unicode (u : N) : utf16 := "\u" ++ hex4 (Z.of_N u).

Definition json_escape (u : N) : utf16 :=
  if (u =? 34)%N then String "\" (String dquote "")
  else if (u =? 92)%N then "\\"
  else if (u =? 8)%N then "\b"
  else if (u =? 9)%N then "\t"
  else if (u =? 10)%N then "\n"
  else if (u =? 12)%N then "\f"
  else if (u =? 13)%N then "\r"
  else if (u <? 32)%N then json_unicode u
  else UCons u UEmpty.

(** The characters of a string between the quotes: a surrogate pair is
    kept, a lone surrogate is escaped. *)
Fixpoint json_chars (s : utf16) : utf16 :=
  match s with
  | UEmpty => UEmpty
  | UCons u r =>
      if is_high u then
        match r with
        | UCons v r' =>
            if is_low v then UCons u (UCons v (json_chars r'))
            else json_unicode u +++ json_chars r
        | UEmpty => json_unicode u
        end
      else if is_low u then json_unicode u +++ json_chars r
      else json_escape u +++ json_chars r
  end.

Definition json_quote (s : utf16) : utf16 :=
  UCons 34 (json_chars s +++ UCons 34 UEmpty).

Definition json_number (n : number) : string :=
  match n with
  | NInt _ | NFrac _ => Number_toString n
  | NNaN | NInf _ => "null"
  end.

(** The JSON text of a value; [None] where [JSON.stringify] gives
    [undefined].  A property whose value has no text is left out, an
    array item without text prints as [null]. *)
Fixpoint json_text (v : value) : option utf16 :=
  match v with
  | VUndef => None
  | VNull => Some (U16.lit "null")
  | VBool true => Some (U16.lit "true")
  | VBool false => Some (U16.lit "false")
  | VNum n => Some (U16.lit (json_number n))
  | VStr s => Some (json_quote s)
  | VArr xs =>
      Some ("[" +++
            (fix items (l : list value) : utf16 :=
               match l with
               | [] => UEmpty
               | x :: r =>
                   let t := match json_text x with
                            | Some t => t
                            | None => U16.lit "null"
                            end in
                   match r with
                   | [] => t
                   | _ :: _ => t +++ "," +++ items r
                   end
               end) xs +++ "]")
  | VObj ps =>
      Some ("{" +++
            (fix members (first : bool) (l : list (utf16 * value)) : utf16 :=
               match l with
               | [] => UEmpty
               | (k, x) :: r =>
                   match json_text x with
                   | Some t =>
                       (if first then UEmpty else U16.lit ",")
                       +++ json_quote k +++ ":" +++ t +++ members false r
                   | None => members first r
                   end
               end) true ps +++ "}")
  | VHeaders _ => Some (U16.lit "{}")
  end.

Definition JSON_stringify (v : value) : value :=
  match json_text v with
  | Some s => VStr s
  | None => VUndef
  end.

(** ** [btoa] *)

Definition b64_char (n : Z) : ascii :=
  if n <? 26 then ascii_of_nat (65 + Z.to_nat n)
  else if n <? 52 then ascii_of_nat (71 + Z.to_nat n)
  else if n <? 62 then ascii_of_nat (Z.to_nat n - 4)
  else if n =? 62 then "+"%char
  else "/"%char.

Definition code (c : ascii) : Z := Z.of_nat (nat_of_ascii c).

Fixpoint base64 (s : string) : string :=
  match s with
  | "" => ""
  | String a "" =>
      let n := code a * 16 in
      String (b64_char (n / 64)) (String (b64_char (n mod 64)) "==")
  | String a (String b "") =>
      let n := code a * 1024 + code b * 4 in
      String (b64_char (n / 4096))
        (String (b64_char ((n / 64) mod 64))
           (String (b64_char (n mod 64)) "="))
  | String a (String b (String c r)) =>
      let n := code a * 65536 + code b * 256 + code c in
      String (b64_char (n / 262144))
        (String (b64_char ((n / 4096) mod 64))
           (String (b64_char ((n / 64) mod 64))
              (String (b64_char (n mod 64)) (base64 r))))
  end.

(** [btoa(v)]: the base64 text of the bytes of [String(v)]; a code unit
    above 255 is no byte, and [btoa] throws an [InvalidCharacterError]. *)
Definition btoa (v : value) : outcome string :=
  match U16.narrow (ToString v) with
  | Some bytes => Ok (base64 bytes)
  | None => Throw InvalidCharacterError
  end.

(** ** [Headers.prototype.set] *)

Definition lower (c : ascii) : ascii :=
  let n := nat_of_ascii c in
  if ((65 <=? n) && (n <=? 90))%nat then ascii_of_nat (n + 32) else c.

Fixpoint lowercase (s : string) : string :=
  match s with
  | "" => ""
  | String c r => String (lower c) (lowercase r)
  end.

Fixpoint headers_remove (name : string) (es : list (string * string))
  : list (string * string) :=
  match es with
  | [] => []
  | (k, v) :: r =>
      if String.eqb (lowercase k) name then headers_remove name r
      else (k, v) :: headers_remove name r
  end.

Fixpoint headers_set (name v : string) (es : list (string * string))
  : list (string * string) :=
  match es with
  | [] => [(name, v)]
  | (k, v') :: r =>
      if String.eqb (lowercase k) name then (name, v) :: headers_remove name r
      else (k, v') :: headers_set name v r
  end.

End JS.

(* ================================================================== *)
(** * The page: shared globals, the wallet provider, the network *)
(* ================================================================== *)

(** The token configuration object [TOKEN]; a property the page did not
    supply reads as [VUndef]. *)
Record token : Type := mkToken {
  symbol : value;
  address : value;
  decimals : value;
  name : value;
  version : value;
  native : value
}.

(** The page globals that the wrappers read and write, the clock, and a
    log of every call that reached the original provider entry point and
    the original [fetch]. *)
Record world : Type := mkWorld {
  eip2612_permit : value;      (* window.__x402_eip2612_permit *)
  eip2612_transfer : value;    (* window.__x402_eip2612_transfer *)
  nativePaymentData : value;   (* window.__x402_nativePaymentData *)
  x402 : value;                (* window.x402 *)
  clock : Z;                   (* Date.now(), in milliseconds *)
  requests : list value;       (* calls made to the original request *)
  fetches : list (list value)  (* calls made to the original fetch *)
}.

(** Everything outside the scripts.  The provider and the network answer
    a call as they please, knowing the calls they received before:
    [Ok v] is a promise fulfilled with [v], [Throw e] a rejection. *)
Record host : Type := mkHost {
  JSON_parse : utf16 -> option value;
  provider : list value -> value -> outcome value;
  network : list (list value) -> list value -> outcome value
}.

Module Page.

Definition M (A : Type) : Type := world -> outcome A * world.

Definition ret {A} (a : A) : M A := fun w => (Ok a, w).

Definition throw {A} (e : exn) : M A := fun w => (Throw e, w).

Definition bind {A B} (m : M A) (k : A -> M B) : M B :=
  fun w =>
    match m w with
    | (Ok a, w') => k a w'
    | (Throw e, w') => (Throw e, w')
    end.

(** [try { body } catch { handler }]; what the body did to the page
    before it threw stays done. *)
Definition try_catch {A} (body : M A) (handler : M A) : M A :=
  fun w =>
    match body w with
    | (Ok a, w') => (Ok a, w')
    | (Throw _, w') => handler w'
    end.

Definition lift {A} (o : outcome A) : M A := fun w => (o, w).

(** [v.k], which throws on [undefined] and [null]. *)
Definition get (v : value) (k : utf16) : M value :=
  if JS.nullish v then throw TypeError else ret (JS.prop v k).

Definition get_index (v : value) (i : nat) : M value :=
  if JS.nullish v then throw TypeError else ret (JS.index v i).

Definition Date_now : M Z := fun w => (Ok (clock w), w).

Definition read {A} (field : world -> A) : M A := fun w => (Ok (field w), w).

Definition set_permit (v : value) : M unit :=
  fun w => (Ok tt, mkWorld v (eip2612_transfer w) (nativePaymentData w)
                     (x402 w) (clock w) (requests w) (fetches w)).

Definition set_transfer (v : value) : M unit :=
  fun w => (Ok tt, mkWorld (eip2612_permit w) v (nativePaymentData w)
                     (x402 w) (clock w) (requests w) (fetches w)).

Definition set_nativePaymentData (v : value) : M unit :=
  fun w => (Ok tt, mkWorld (eip2612_permit w) (eip2612_transfer w) v
                     (x402 w) (clock w) (requests w) (fetches w)).

(** [await origRequest(args)] *)
Definition origRequest (H : host) (args : value) : M value :=
  fun w => (provider H (requests w) args,
            mkWorld (eip2612_permit w) (eip2612_transfer w)
              (nativePaymentData w) (x402 w) (clock w)
              (requests w ++ [args]) (fetches w)).

(** [origFetch.apply(this, args)] *)
Definition origFetch (H : host) (args : list value) : M value :=
  fun w => (network H (fetches w) args,
            mkWorld (eip2612_permit w) (eip2612_transfer w)
              (nativePaymentData w) (x402 w) (clock w)
              (requests w) (fetches w ++ [args])).

(** [JSON.parse(v)] *)
Definition parse (H : host) (v : value) : M value :=
  match JSON_parse H (JS.ToString v) with
  | Some data => ret data
  | None => throw SyntaxError
  end.

(** [window.x402?.paymentRequirements?.[0]] *)
Definition requirement (x : value) : value :=
  JS.opt_index (JS.opt_prop x "paymentRequirements") 0.

(** [v.toString()] *)
Definition toString (v : value) : M utf16 :=
  if JS.nullish v then throw TypeError else ret (JS.ToString v).

(** [o[k] = v] in strict mode, which refuses a primitive.  The object
    keeps its identity, so the updated value stands for the caller's
    object after the write.  (A new property on an array or on a
    [Headers] object is not a JSON property or a header and is not
    kept.) *)
Definition assign (o : value) (k : utf16) (v : value) : M value :=
  match o with
  | VObj ps => ret (VObj (JS.assoc_set k v ps))
  | VArr _ | VHeaders _ => ret o
  | _ => throw TypeError
  end.

(** [if (h instanceof Headers) { h.set(k, v) } else { h[k] = v }] *)
Definition put_header (h : value) (k : string) (v : string) : M value :=
  match h with
  | VHeaders es => ret (VHeaders (JS.headers_set (JS.lowercase k) v es))
  | _ => assign h k (VStr v)
  end.

(** The argument list with [args[1].headers] standing for the headers
    object after the write. *)
Definition with_headers (args : list value) (h : value) : list value :=
  match args with
  | a0 :: VObj init :: rest => a0 :: VObj (JS.assoc_set "headers" h init) :: rest
  | _ => args
  end.

End Page.

Declare Scope page_scope.
Delimit Scope page_scope with page.
Notation "x <- m ;; k" := (Page.bind m (fun x => k))
  (at level 61, m at next level, right associativity) : page_scope.
Notation "m ;;; k" := (Page.bind m (fun _ => k))
  (at level 61, right associativity) : page_scope.

(* ================================================================== *)
(** * [src/unnamed/part_000]: the adapter that knows native coins *)
(* ================================================================== *)

Module Adapter.

Import Page.
Local Open Scope page_scope.

(** The fallback of [window.__x402_token || { ... }]. *)
Definition default_token : value :=
  VObj [("symbol", VStr "TOKEN"); ("address", VStr "");
        ("decimals", VInt 18); ("name", VStr ""); ("version", VStr "1")].

Definition PERMIT_DEADLINE : Z := 3600.

Definition token_of (v : value) : token :=
  mkToken (JS.prop v "symbol") (JS.prop v "address") (JS.prop v "decimals")
    (JS.prop v "name") (JS.prop v "version") (JS.prop v "native").

(** [const IS_NATIVE = TOKEN.native === true] *)
Definition IS_NATIVE (TOKEN : token) : bool := JS.is_true (native TOKEN).

(** The top of the script: [None] when it returns before installing
    anything, otherwise [TOKEN] as the wrappers will read it. *)
Definition load (window_token window_x402 : value) : option token :=
  let TOKEN := token_of (JS.or window_token default_token) in
  if negb (IS_NATIVE TOKEN) && negb (JS.truthy (address TOKEN)) then None
  else
    let extra := JS.opt_prop (requirement window_x402) "extra" in
    if JS.truthy extra then
      Some (mkToken (symbol TOKEN) (address TOKEN) (decimals TOKEN)
              (JS.or (JS.or (name TOKEN) (JS.prop extra "name"))
                 (symbol TOKEN))
              (JS.or (JS.or (version TOKEN) (JS.prop extra "version"))
                 (VStr "1"))
              (native TOKEN))
    else Some TOKEN.

Definition field (n t : string) : value :=
  VObj [("name", VStr n); ("type", VStr t)].

(** The [types] member of the reshaped typed data. *)
Definition permit_types : value :=
  VObj [("EIP712Domain",
          VArr [field "name" "string"; field "version" "string";
                field "chainId" "uint256";
                field "verifyingContract" "address"]);
        ("Permit",
          VArr [field "owner" "address"; field "spender" "address";
                field "value" "uint256"; field "nonce" "uint256";
                field "deadline" "uint256"])].

(** [owner.slice(2).padStart(64, '0')]: only a string has both
    methods. *)
Definition address_word (owner : value) : M utf16 :=
  match owner with
  | VStr s => ret (U16.padStart 64 "0" (U16.drop 2 s))
  | _ => throw TypeError
  end.

Section Wrappers.

Variable H : host.
Variable TOKEN : token.

(** Lines 106-121: the native coin is paid by a transaction. *)
Definition native_payment (args data : value) : M (option value) :=
  params <- get args "params" ;;
  signer <- get_index params 0 ;;
  message <- get data "message" ;;
  let msg := JS.or message (VObj []) in
  n <- lift (JS.BigInt (JS.prop msg "value")) ;;
  let valueHex := "0x" ++ BigInt_toString 16 n in
  txHash <- origRequest H
              (VObj [("method", VStr "eth_sendTransaction");
                     ("params",
                       VArr [VObj [("from", signer);
                                   ("to", JS.prop msg "to");
                                   ("value", VStr valueHex)]])]) ;;
  amountWei <- toString (JS.prop msg "value") ;;
  set_nativePaymentData
    (VObj [("txHash", txHash); ("from", signer);
           ("to", JS.prop msg "to"); ("amountWei", VStr amountWei)]) ;;;
  ret (Some txHash).

(** Lines 122-166: an ERC-20 token is paid by a signed Permit. *)
Definition permit_signature (args data : value) : M (option value) :=
  d <- get data "domain" ;;
  let domain := JS.or d (VObj []) in
  m <- get data "message" ;;
  let msg := JS.or m (VObj []) in
  params <- get args "params" ;;
  owner <- get_index params 0 ;;
  now <- Date_now ;;
  let deadline := now / 1000 + PERMIT_DEADLINE in
  let permitDomain :=
    VObj [("name", JS.or (name TOKEN) (JS.prop domain "name"));
          ("version",
            JS.or (JS.or (version TOKEN) (JS.prop domain "version"))
              (VStr "1"));
          ("chainId", JS.prop domain "chainId");
          ("verifyingContract", address TOKEN)] in
  word <- address_word owner ;;
  let nonceData := "0x7ecebe00" +++ word in
  nonceHex <- origRequest H
                (VObj [("method", VStr "eth_call");
                       ("params",
                         VArr [VObj [("to", address TOKEN);
                                     ("data", VStr nonceData)];
                               VStr "latest"])]) ;;
  let nonce := VNum (JS.parseInt16 nonceHex) in
  let spender := JS.or (JS.prop msg "to") (JS.prop msg "recipient") in
  let permitMsg :=
    VObj [("owner", owner); ("spender", spender);
          ("value", JS.prop msg "value"); ("nonce", nonce);
          ("deadline", VStr (BigInt_toString 10 deadline))] in
  let newData :=
    VObj [("types", permit_types); ("primaryType", VStr "Permit");
          ("domain", permitDomain); ("message", permitMsg)] in
  sig <- origRequest H
           (VObj [("method", VStr "eth_signTypedData_v4");
                  ("params", VArr [owner; JS.JSON_stringify newData])]) ;;
  set_permit
    (VObj [("owner", owner); ("spender", spender);
           ("value", JS.prop msg "value"); ("nonce", nonce);
           ("deadline", VStr (BigInt_toString 10 deadline));
           ("signature", sig)]) ;;;
  set_transfer
    (VObj [("from", owner); ("to", spender);
           ("amount", JS.prop msg "value")]) ;;;
  ret (Some sig).

(** Lines 103-167, the body of the [try]: [Some v] when it returns
    [v], [None] when control leaves it at the bottom. *)
Definition intercept (args : value) : M (option value) :=
  params <- get args "params" ;;
  raw <- get_index params 1 ;;
  data <- parse H raw ;;
  if JS.is_string (JS.opt_prop data "primaryType")
       "TransferWithAuthorization"
  then
    if IS_NATIVE TOKEN then native_payment args data
    else permit_signature args data
  else ret None.

(** Lines 100-171: the function installed as
    [window.ethereum.request]. *)
Definition request (args : value) : M value :=
  method <- get args "method" ;;
  if JS.is_string method "eth_signTypedData_v4" then
    r <- try_catch (intercept args) (ret None) ;;
    match r with
    | Some v => ret v
    | None => origRequest H args
    end
  else origRequest H args.

(** [window.x402?.paymentRequirements?.[0]?.network || 'base-sepolia'] *)
Definition active_network (x : value) : value :=
  JS.or (JS.opt_prop (requirement x) "network") (VStr "base-sepolia").

(** Lines 177-198, the body of the [try]: the argument list as the
    original [fetch] will see it. *)
Definition substitute (args : list value) : M (list value) :=
  let h := JS.opt_prop (nth 1 args VUndef) "headers" in
  if JS.truthy h then
    let xpay := JS.or (JS.prop h "X-PAYMENT") (JS.prop h "x-payment") in
    if JS.truthy xpay then
      np <- read nativePaymentData ;;
      if IS_NATIVE TOKEN && JS.truthy np then
        x <- read x402 ;;
        let payload :=
          VObj [("x402Version", VInt 1); ("scheme", VStr "native");
                ("network", active_network x);
                ("payload",
                  VObj [("txHash", JS.prop np "txHash");
                        ("from", JS.prop np "from");
                        ("to", JS.prop np "to");
                        ("amountWei", JS.prop np "amountWei")])] in
        encoded <- lift (JS.btoa (JS.JSON_stringify payload)) ;;
        h' <- put_header h "X-PAYMENT" encoded ;;
        set_nativePaymentData VNull ;;;
        ret (with_headers args h')
      else
        permit <- read eip2612_permit ;;
        if JS.truthy permit then
          x <- read x402 ;;
          transfer <- read eip2612_transfer ;;
          let payload :=
            VObj [("x402Version", VInt 1); ("scheme", VStr "exact");
                  ("network", active_network x);
                  ("payload",
                    VObj [("permit", permit); ("transfer", transfer)])] in
          encoded <- lift (JS.btoa (JS.JSON_stringify payload)) ;;
          h' <- put_header h "X-PAYMENT" encoded ;;
          set_permit VUndef ;;;
          set_transfer VUndef ;;;
          ret (with_headers args h')
        else ret args
    else ret args
  else ret args.

(** Lines 175-201: the function installed as [window.fetch]. *)
Definition fetch (args : list value) : M value :=
  args' <- try_catch (substitute args) (ret args) ;;
  origFetch H args'.

End Wrappers.

End Adapter.

(* ================================================================== *)
(** * [static/paywall_adapter.js]: the ERC-20-only adapter *)
(* ================================================================== *)

Module PaywallAdapter.

Import Page.
Local Open Scope page_scope.

Definition default_token : value :=
  VObj [("symbol", VStr "TOKEN"); ("address", VStr "");
        ("decimals", VInt 18); ("name", VStr ""); ("version", VStr "1")].

Definition PERMIT_DEADLINE : Z := 3600.

Definition token_of (v : value) : token :=
  mkToken (JS.prop v "symbol") (JS.prop v "address") (JS.prop v "decimals")
    (JS.prop v "name") (JS.prop v "version") (JS.prop v "native").

(** Lines 3-13: [None] when the script returns before installing
    anything, otherwise [TOKEN] as the wrappers will read it. *)
Definition load (window_token window_x402 : value) : option token :=
  let TOKEN := token_of (JS.or window_token default_token) in
  if negb (JS.truthy (address TOKEN)) then None
  else
    let extra := JS.opt_prop (requirement window_x402) "extra" in
    if JS.truthy extra then
      Some (mkToken (symbol TOKEN) (address TOKEN) (decimals TOKEN)
              (if JS.truthy (JS.prop extra "name")
               then JS.prop extra "name" else name TOKEN)
              (if JS.truthy (JS.prop extra "version")
               then JS.prop extra "version" else version TOKEN)
              (native TOKEN))
    else Some TOKEN.

Definition field (n t : string) : value :=
  VObj [("name", VStr n); ("type", VStr t)].

Definition permit_types : value :=
  VObj [("EIP712Domain",
          VArr [field "name" "string"; field "version" "string";
                field "chainId" "uint256";
                field "verifyingContract" "address"]);
        ("Permit",
          VArr [field "owner" "address"; field "spender" "address";
                field "value" "uint256"; field "nonce" "uint256";
                field "deadline" "uint256"])].

Definition address_word (owner : value) : M utf16 :=
  match owner with
  | VStr s => ret (U16.padStart 64 "0" (U16.drop 2 s))
  | _ => throw TypeError
  end.

Section Wrappers.

Variable H : host.
Variable TOKEN : token.

(** Lines 96-139: every token is paid by a signed Permit. *)
Definition permit_signature (args data : value) : M (option value) :=
  d <- get data "domain" ;;
  let domain := JS.or d (VObj []) in
  m <- get data "message" ;;
  let msg := JS.or m (VObj []) in
  params <- get args "params" ;;
  owner <- get_index params 0 ;;
  now <- Date_now ;;
  let deadline := now / 1000 + PERMIT_DEADLINE in
  let permitDomain :=
    VObj [("name", JS.or (name TOKEN) (JS.prop domain "name"));
          ("version",
            JS.or (JS.or (version TOKEN) (JS.prop domain "version"))
              (VStr "1"));
          ("chainId", JS.prop domain "chainId");
          ("verifyingContract", address TOKEN)] in
  word <- address_word owner ;;
  let nonceData := "0x7ecebe00" +++ word in
  nonceHex <- origRequest H
                (VObj [("method", VStr "eth_call");
                       ("params",
                         VArr [VObj [("to", address TOKEN);
                                     ("data", VStr nonceData)];
                               VStr "latest"])]) ;;
  let nonce := VNum (JS.parseInt16 nonceHex) in
  let spender := JS.or (JS.prop msg "to") (JS.prop msg "recipient") in
  let permitMsg :=
    VObj [("owner", owner); ("spender", spender);
          ("value", JS.prop msg "value"); ("nonce", nonce);
          ("deadline", VStr (BigInt_toString 10 deadline))] in
  let newData :=
    VObj [("types", permit_types); ("primaryType", VStr "Permit");
          ("domain", permitDomain); ("message", permitMsg)] in
  sig <- origRequest H
           (VObj [("method", VStr "eth_signTypedData_v4");
                  ("params", VArr [owner; JS.JSON_stringify newData])]) ;;
  set_permit
    (VObj [("owner", owner); ("spender", spender);
           ("value", JS.prop msg "value"); ("nonce", nonce);
           ("deadline", VStr (BigInt_toString 10 deadline));
           ("signature", sig)]) ;;;
  set_transfer
    (VObj [("from", owner); ("to", spender);
           ("amount", JS.prop msg "value")]) ;;;
  ret (Some sig).

(** Lines 94-140, the body of the [try]. *)
Definition intercept (args : value) : M (option value) :=
  params <- get args "params" ;;
  raw <- get_index params 1 ;;
  data <- parse H raw ;;
  if JS.is_string (JS.opt_prop data "primaryType")
       "TransferWithAuthorization"
  then permit_signature args data
  else ret None.

(** Lines 91-144: the function installed as
    [window.ethereum.request]. *)
Definition request (args : value) : M value :=
  method <- get args "method" ;;
  if JS.is_string method "eth_signTypedData_v4" then
    r <- try_catch (intercept args) (ret None) ;;
    match r with
    | Some v => ret v
    | None => origRequest H args
    end
  else origRequest H args.

Definition active_network (x : value) : value :=
  JS.or (JS.opt_prop (requirement x) "network") (VStr "base-sepolia").

(** Lines 150-160, the body of the [try]. *)
Definition substitute (args : list value) : M (list value) :=
  permit <- read eip2612_permit ;;
  let h := JS.opt_prop (nth 1 args VUndef) "headers" in
  if JS.truthy permit && JS.truthy h then
    let xpay := JS.or (JS.prop h "X-PAYMENT") (JS.prop h "x-payment") in
    if JS.truthy xpay then
      x <- read x402 ;;
      transfer <- read eip2612_transfer ;;
      let payload :=
        VObj [("x402Version", VInt 1); ("scheme", VStr "exact");
              ("network", active_network x);
              ("payload",
                VObj [("permit", permit); ("transfer", transfer)])] in
      encoded <- lift (JS.btoa (JS.JSON_stringify payload)) ;;
      h' <- put_header h "X-PAYMENT" encoded ;;
      set_permit VUndef ;;;
      set_transfer VUndef ;;;
      ret (with_headers args h')
    else ret args
  else ret args.

(** Lines 148-163: the function installed as [window.fetch]. *)
Definition fetch (args : list value) : M value :=
  args' <- try_catch (substitute args) (ret args) ;;
  origFetch H args'.

End Wrappers.

End PaywallAdapter.

(* ================================================================== *)
(** * The vocabulary of the specification *)
(* ================================================================== *)

(** The definitions of this part follow the words of the specification:
    what counts as a transfer authorization, what the reshaped Permit, the
    stored artifacts and the payment payload look like, which states the
    page can reach.  The theorems compare them with the scripts. *)

(** The two scripts behind one name each. *)
Inductive script : Type :=
| NativeAware   (* src/unnamed/part_000 *)
| Erc20Only.    (* static/paywall_adapter.js *)

Definition request_of (s : script) : host -> token -> value -> Page.M value :=
  match s with
  | NativeAware => Adapter.request
  | Erc20Only => PaywallAdapter.request
  end.

Definition intercept_of (s : script)
  : host -> token -> value -> Page.M (option value) :=
  match s with
  | NativeAware => Adapter.intercept
  | Erc20Only => PaywallAdapter.intercept
  end.

Definition fetch_of (s : script)
  : host -> token -> list value -> Page.M value :=
  match s with
  | NativeAware => Adapter.fetch
  | Erc20Only => fun H _ => PaywallAdapter.fetch H
  end.

(** Whether the script treats the token as a native coin; the ERC-20-only
    script never does. *)
Definition native_mode (s : script) (TOKEN : token) : bool :=
  match s with
  | NativeAware => Adapter.IS_NATIVE TOKEN
  | Erc20Only => false
  end.

(** ** Provider calls *)

Definition sign_method : string := "eth_signTypedData_v4".
Definition transfer_type : string := "TransferWithAuthorization".

(** The typed-data payload of a call, when [args.params[1]] can be read
    and parsed. *)
Definition typed_data (H : host) (args : value) : option value :=
  if JS.nullish (JS.prop args "params") then None
  else JSON_parse H (JS.ToString (JS.index (JS.prop args "params") 1)).

(** A typed-data signing request whose payload has primary type
    [TransferWithAuthorization]. *)
Definition transfer_authorization (H : host) (args : value) : bool :=
  JS.is_string (JS.prop args "method") sign_method
  && match typed_data H args with
     | Some data => JS.is_string (JS.opt_prop data "primaryType") transfer_type
     | None => false
     end.

(** [args] is a transfer authorization whose parsed payload is [data]. *)
Definition authorizes (H : host) (args data : value) : Prop :=
  JS.nullish args = false
  /\ JS.is_string (JS.prop args "method") sign_method = true
  /\ typed_data H args = Some data
  /\ JS.is_string (JS.opt_prop data "primaryType") transfer_type = true.

(** The signer of a call: its first parameter. *)
Definition signer_of (args : value) : value :=
  JS.index (JS.prop args "params") 0.

Definition domain_of (data : value) : value :=
  JS.or (JS.prop data "domain") (VObj []).

Definition message_of (data : value) : value :=
  JS.or (JS.prop data "message") (VObj []).

(** The destination of a transfer authorization: [to], else
    [recipient]. *)
Definition destination_of (data : value) : value :=
  JS.or (JS.prop (message_of data) "to") (JS.prop (message_of data) "recipient").

Definition amount_of (data : value) : value :=
  JS.prop (message_of data) "value".

Definition call (method : string) (params : list value) : value :=
  VObj [("method", VStr method); ("params", VArr params)].

(** The read of [nonces(owner)] on the token contract. *)
Definition nonce_call (TOKEN : token) (owner : utf16) : value :=
  call "eth_call"
    [VObj [("to", address TOKEN);
           ("data",
            VStr ("0x7ecebe00" +++ U16.padStart 64 "0" (U16.drop 2 owner)))];
     VStr "latest"].

Definition typed_field (n t : string) : value :=
  VObj [("name", VStr n); ("type", VStr t)].

(** The Permit typed data of the specification: the two type lists in
    their fixed order, then primary type, domain and message. *)
Definition permit_typed_data (name version chainId verifyingContract
                              owner spender amount nonce deadline : value)
  : value :=
  VObj [("types",
          VObj [("EIP712Domain",
                  VArr [typed_field "name" "string";
                        typed_field "version" "string";
                        typed_field "chainId" "uint256";
                        typed_field "verifyingContract" "address"]);
                ("Permit",
                  VArr [typed_field "owner" "address";
                        typed_field "spender" "address";
                        typed_field "value" "uint256";
                        typed_field "nonce" "uint256";
                        typed_field "deadline" "uint256"])]);
        ("primaryType", VStr "Permit");
        ("domain",
          VObj [("name", name); ("version", version); ("chainId", chainId);
                ("verifyingContract", verifyingContract)]);
        ("message",
          VObj [("owner", owner); ("spender", spender); ("value", amount);
                ("nonce", nonce); ("deadline", deadline)])].

(** The 32-byte word in which a contract call returns the unsigned
    integer [n]. *)
Definition uint256_word (n : Z) : value :=
  VStr ("0x" ++ Str.padStart 64 "0" (Str.digits 16 n)).

(** The deadline of a permit signed at [now] milliseconds: an hour
    later, in seconds, as a decimal string. *)
Definition permit_deadline (now : Z) : value :=
  VStr (BigInt_toString 10 (now / 1000 + 3600)).

(** The reshaped typed data for a transfer authorization [data] signed by
    [owner] when the nonce read answered [nonceHex]. *)
Definition reshaped (TOKEN : token) (data : value) (owner : utf16)
                    (nonceHex : value) (now : Z) : value :=
  permit_typed_data
    (JS.or (name TOKEN) (JS.prop (domain_of data) "name"))
    (JS.or (JS.or (version TOKEN) (JS.prop (domain_of data) "version"))
       (VStr "1"))
    (JS.prop (domain_of data) "chainId")
    (address TOKEN)
    (VStr owner) (destination_of data) (amount_of data)
    (VNum (JS.parseInt16 nonceHex)) (permit_deadline now).

Definition permit_call (TOKEN : token) (data : value) (owner : utf16)
                       (nonceHex : value) (now : Z) : value :=
  call sign_method
    [VStr owner; JS.JSON_stringify (reshaped TOKEN data owner nonceHex now)].

(** PendingPermitArtifact and its transfer intent. *)
Definition permit_artifact (data : value) (owner : utf16)
                           (nonceHex : value) (now : Z) (sig : value) : value :=
  VObj [("owner", VStr owner); ("spender", destination_of data);
        ("value", amount_of data); ("nonce", VNum (JS.parseInt16 nonceHex));
        ("deadline", permit_deadline now); ("signature", sig)].

Definition transfer_intent (data : value) (owner : utf16) : value :=
  VObj [("from", VStr owner); ("to", destination_of data);
        ("amount", amount_of data)].

(** The value transfer of the native branch. *)
Definition send_call (from to : value) (amount : Z) : value :=
  call "eth_sendTransaction"
    [VObj [("from", from); ("to", to);
           ("value", VStr ("0x" ++ BigInt_toString 16 amount))]].

(** PendingNativePaymentArtifact *)
Definition native_artifact (txHash from to : value) (amountWei : utf16)
  : value :=
  VObj [("txHash", txHash); ("from", from); ("to", to);
        ("amountWei", VStr amountWei)].

(** ** The page state *)

Definition with_slots (permit transfer np : value) (w : world) : world :=
  mkWorld permit transfer np (x402 w) (clock w) (requests w) (fetches w).

Definition with_requests (log : list value) (w : world) : world :=
  mkWorld (eip2612_permit w) (eip2612_transfer w) (nativePaymentData w)
    (x402 w) (clock w) log (fetches w).

Definition with_page (descriptor : value) (now : Z) (w : world) : world :=
  mkWorld (eip2612_permit w) (eip2612_transfer w) (nativePaymentData w)
    descriptor now (requests w) (fetches w).

(** The three globals that hold a pending artifact. *)
Definition slots (w : world) : value * value * value :=
  (eip2612_permit w, eip2612_transfer w, nativePaymentData w).

(** The page before any interception: no artifact global exists yet. *)
Definition pristine (w : world) : Prop :=
  slots w = (VUndef, VUndef, VUndef).

(** The states of the page under any sequence of signing calls and
    outgoing requests, while time passes and the page updates its
    payment-requirements descriptor. *)
Inductive reachable (s : script) (H : host) (TOKEN : token) : world -> Prop :=
| reach_start w :
    pristine w -> reachable s H TOKEN w
| reach_request w args :
    reachable s H TOKEN w ->
    reachable s H TOKEN (snd (request_of s H TOKEN args w))
| reach_fetch w args :
    reachable s H TOKEN w ->
    reachable s H TOKEN (snd (fetch_of s H TOKEN args w))
| reach_page w descriptor now :
    reachable s H TOKEN w ->
    reachable s H TOKEN (with_page descriptor now w).

Definition permit_pending (w : world) : bool := JS.truthy (eip2612_permit w).
Definition native_pending (w : world) : bool := JS.truthy (nativePaymentData w).

(** ** Outgoing requests *)

(** [args[1]?.headers] *)
Definition headers_of (args : list value) : value :=
  JS.opt_prop (nth 1 args VUndef) "headers".

(** The test the scripts make on the headers: a truthy value under
    [X-PAYMENT] or, failing that, under [x-payment]. *)
Definition payment_slot (h : value) : bool :=
  JS.truthy h
  && JS.truthy (JS.or (JS.prop h "X-PAYMENT") (JS.prop h "x-payment")).

(** The names of the headers of a plain header map, in order. *)
Definition header_names (h : value) : list utf16 :=
  match h with
  | VObj ps => map fst ps
  | _ => []
  end.

(** The payload that travels in the payment header. *)
Definition payment_payload (scheme : string) (network payload : value) : value :=
  VObj [("x402Version", VInt 1); ("scheme", VStr scheme);
        ("network", network); ("payload", payload)].

(** The active requirement's network, [base-sepolia] when absent. *)
Definition network_of (descriptor : value) : value :=
  JS.or (JS.opt_prop (Page.requirement descriptor) "network")
    (VStr "base-sepolia").

Definition exact_header (w : world) : outcome string :=
  JS.btoa (JS.JSON_stringify
             (payment_payload "exact" (network_of (x402 w))
                (VObj [("permit", eip2612_permit w);
                       ("transfer", eip2612_transfer w)]))).

(** The payment header as the specification describes its detection: a
    key that is [x-payment] in any casing, in a plain header map or in a
    native [Headers] collection, with a non-empty value. *)
Fixpoint lower_case (s : utf16) : utf16 :=
  match s with
  | UEmpty => UEmpty
  | UCons u r =>
      UCons (if ((65 <=? u) && (u <=? 90))%N then (u + 32)%N else u)
        (lower_case r)
  end.

Definition payment_key (k : utf16) : bool :=
  U16.eqb (lower_case k) "x-payment".

Definition carries_payment_header (h : value) : bool :=
  match h with
  | VObj ps => existsb (fun kv => payment_key (fst kv) && JS.truthy (snd kv)) ps
  | VHeaders es =>
      existsb (fun kv : string * string =>
                 payment_key (fst kv) && Str.nonempty (snd kv)) es
  | _ => false
  end.

(** An artifact that the outgoing-request wrapper of the script would
    consume. *)
Definition artifact_pending (s : script) (TOKEN : token) (w : world) : bool :=
  (native_mode s TOKEN && native_pending w) || permit_pending w.

Definition native_header (w : world) : outcome string :=
  let np := nativePaymentData w in
  JS.btoa (JS.JSON_stringify
             (payment_payload "native" (network_of (x402 w))
                (VObj [("txHash", JS.prop np "txHash");
                       ("from", JS.prop np "from");
                       ("to", JS.prop np "to");
                       ("amountWei", JS.prop np "amountWei")]))).

(** The header value that the pending artifact encodes to, the native
    one first. *)
Definition pending_header (s : script) (TOKEN : token) (w : world)
  : outcome string :=
  if native_mode s TOKEN && native_pending w then native_header w
  else exact_header w.

(** The page once the pending artifact is consumed. *)
Definition consume (s : script) (TOKEN : token) (w : world) : world :=
  if native_mode s TOKEN && native_pending w
  then with_slots (eip2612_permit w) (eip2612_transfer w) VNull w
  else with_slots VUndef VUndef (nativePaymentData w) w.

(** An outgoing request with the value of its [X-PAYMENT] header set and
    nothing else changed. *)
Definition with_payment (args : list value) (encoded : string) : list value :=
  match args with
  | input :: VObj init :: rest =>
      match JS.assoc "headers" init with
      | VObj hs =>
          input
          :: VObj (JS.assoc_set "headers"
                     (VObj (JS.assoc_set "X-PAYMENT" (VStr encoded) hs)) init)
          :: rest
      | _ => args
      end
  | _ => args
  end.

(** A signing call that the wrapper of the script converts and whose
    conversion succeeds with [answer], leaving the page as [w']. *)
Definition converts (s : script) (H : host) (TOKEN : token)
                    (args : value) (w : world) (answer : value) (w' : world)
  : Prop :=
  JS.nullish args = false
  /\ JS.is_string (JS.prop args "method") sign_method = true
  /\ intercept_of s H TOKEN args w = (Ok (Some answer), w').

(** The page with every trace of a pending artifact erased. *)
Definition erase (w : world) : world := with_slots VUndef VUndef VUndef w.

(* ================================================================== *)
(** * The worked examples of the specification *)
(* ================================================================== *)

Module Example.

(** The JSON text of a value. *)
Definition text_of (v : value) : utf16 := JS.ToString (JS.JSON_stringify v).

(** A parser that knows the texts of the listed values and nothing
    else. *)
Definition parse_table (table : list value) (s : utf16) : option value :=
  find (fun v => U16.eqb (text_of v) s) table.

(** The typed data of the ERC-20 conversion example. *)
Definition usdc_transfer : value :=
  VObj [("primaryType", VStr "TransferWithAuthorization");
        ("domain", VObj [("name", VStr "USDC"); ("chainId", VInt 84532)]);
        ("message", VObj [("to", VStr "0xSpender");
                          ("value", VStr "1000000")])].

(** The typed data of the native conversion example. *)
Definition eth_transfer : value :=
  VObj [("primaryType", VStr "TransferWithAuthorization");
        ("message", VObj [("to", VStr "0xRecipient");
                          ("value", VStr "2000000000000000000")])].

Definition sign_request (owner : string) (data : value) : value :=
  call sign_method [VStr owner; VStr (text_of data)].

Definition nonce_5 : value :=
  VStr "0x0000000000000000000000000000000000000000000000000000000000000005".

(** A wallet that reads nonce 5, signs and sends whatever it is asked
    to, and knows one account. *)
Definition wallet (log : list value) (args : value) : outcome value :=
  let m := JS.prop args "method" in
  if JS.is_string m "eth_call" then Ok nonce_5
  else if JS.is_string m "eth_signTypedData_v4" then Ok (VStr "0xSignature")
  else if JS.is_string m "eth_sendTransaction" then Ok (VStr "0xTxHash")
  else Ok (VArr [VStr "0xOwner"]).

(** The same wallet on a node whose contract reads fail. *)
Definition failing_wallet (log : list value) (args : value) : outcome value :=
  if JS.is_string (JS.prop args "method") "eth_call"
  then Throw (Rejected (VStr "execution reverted"))
  else wallet log args.

Definition server (log : list (list value)) (args : list value)
  : outcome value :=
  Ok (VObj [("status", VInt 200)]).

Definition page : host :=
  mkHost (parse_table [usdc_transfer; eth_transfer]) wallet server.

Definition failing_page : host :=
  mkHost (parse_table [usdc_transfer; eth_transfer]) failing_wallet server.

Definition usdc : token :=
  mkToken (VStr "USDC") (VStr "0xToken") (VInt 6) (VStr "") (VStr "2") VUndef.

Definition eth : token :=
  mkToken (VStr "ETH") (VStr "") (VInt 18) (VStr "Ether") (VStr "1")
    (VBool true).

Definition descriptor : value :=
  VObj [("paymentRequirements", VArr [VObj [("network", VStr "base")]])].

(** A fresh page at some instant. *)
Definition start : world :=
  mkWorld VUndef VUndef VUndef descriptor 1700000000123 [] [].

(** The page after the wallet signed the example's permit. *)
Definition signed (s : script) : world :=
  snd (request_of s page usdc (sign_request "0xOwner" usdc_transfer) start).

(** The page after a second signing call, by another account. *)
Definition signed_twice (s : script) : world :=
  snd (request_of s page usdc (sign_request "0xOther" usdc_transfer)
         (signed s)).

(** An outgoing request that carries the payment header placeholder. *)
Definition paid_request (key : string) : list value :=
  [VStr "https://example.org/premium";
   VObj [("method", VStr "GET");
         ("headers", VObj [("Accept", VStr "text/html");
                           (key, VStr "placeholder")])]].

(** The same request with a native [Headers] collection. *)
Definition paid_request_native_headers : list value :=
  [VStr "https://example.org/premium";
   VObj [("headers", VHeaders [("x-payment", "placeholder")])]].

(** The configuration and descriptor on which the two scripts merge the
    token name differently. *)
Definition named_token : value :=
  VObj [("symbol", VStr "TKN"); ("address", VStr "0xToken");
        ("decimals", VInt 6); ("name", VStr "Configured");
        ("version", VStr "1")].

Definition named_descriptor : value :=
  VObj [("paymentRequirements",
          VArr [VObj [("network", VStr "base");
                      ("extra", VObj [("name", VStr "Advertised");
                                      ("version", VStr "2")])]])].

(** [TOKEN] after each script has loaded on that page. *)
Definition configured : token :=
  mkToken (VStr "TKN") (VStr "0xToken") (VInt 6) (VStr "Configured")
    (VStr "1") VUndef.

Definition advertised : token :=
  mkToken (VStr "TKN") (VStr "0xToken") (VInt 6) (VStr "Advertised")
    (VStr "2") VUndef.

(** A configuration on a page whose descriptor has no [extra]. *)
Definition usdc_token : value :=
  VObj [("symbol", VStr "USDC"); ("address", VStr "0xToken");
        ("decimals", VInt 6); ("name", VStr ""); ("version", VStr "2")].

(** A token contract on which the owner's nonce is [2^53 + 1], an
    integer that is not a Number. *)
Definition large_nonce : Z := 9007199254740993.

Definition large_nonce_wallet (log : list value) (args : value)
  : outcome value :=
  if JS.is_string (JS.prop args "method") "eth_call"
  then Ok (uint256_word large_nonce)
  else wallet log args.

Definition large_nonce_page : host :=
  mkHost (parse_table [usdc_transfer; eth_transfer]) large_nonce_wallet server.



(** The header text when the encoding succeeded. *)
Definition encoded_text (header : outcome string) : string :=
  match header with
  | Ok encoded => encoded
  | Throw _ => ""
  end.

End Example.

(* ================================================================== *)
(** * The shape of a printed amount *)
(* ================================================================== *)

(** Whether the last character is ['0']. *)
Fixpoint ends_in_zero (s : string) : bool :=
  match s with
  | "" => false
  | String c "" => Ascii.eqb c "0"
  | String _ r => ends_in_zero r
  end.

(** Whether a ['0'] stands in front of further characters. *)
Definition leading_zero (s : string) : bool :=
  match s with
  | String c (String _ _) => Ascii.eqb c "0"
  | _ => false
  end.

(* ================================================================== *)
(** * The balance read *)
(* ================================================================== *)

Module Display.

(** [v?.length] *)
Definition length_of (v : value) : value :=
  match v with
  | VArr xs => VInt (Z.of_nat (List.length xs))
  | VStr s => VInt (Z.of_nat (U16.length s))
  | VObj ps => JS.assoc "length" ps
  | _ => VUndef
  end.

(** [formatAmount(atomic, decimals)] on the values its callers pass:
    [BigInt(10) ** BigInt(decimals)] comes first and refuses a negative
    exponent, [BigInt(atomic)] second; [padStart] then receives the same
    count that [BigInt(decimals)] produced. *)
Definition formatAmount_call (atomic decimals : value) : outcome string :=
  match JS.BigInt decimals with
  | Throw e => Throw e
  | Ok k =>
      if k <? 0 then Throw RangeError
      else match JS.BigInt atomic with
           | Throw e => Throw e
           | Ok n => Ok (formatAmount n (Z.to_nat k))
           end
  end.

(** The selector of [balanceOf(address)] followed by the account as a
    32-byte word. *)
Definition balance_data (word : utf16) : utf16 := "0x70a08231" +++ word.

End Display.

(** [getBalance] of [src/unnamed/part_000], lines 24-37.  [ethereum] is
    [window.ethereum.request] as the page has it when the function runs:
    [None] without a provider, otherwise the wrapper that the script
    installed or, for a provider that arrived later, its own entry
    point. *)
Module AdapterBalance.

Import Page.
Local Open Scope page_scope.

Section Read.

Variable TOKEN : token.
Variable ethereum : option (value -> M value).

Definition getBalance : M value :=
  match ethereum with
  | None => ret VNull
  | Some request =>
      try_catch
        (accounts <- request (VObj [("method", VStr "eth_accounts")]) ;;
         if negb (JS.truthy (Display.length_of accounts)) then ret VNull
         else if Adapter.IS_NATIVE TOKEN then
           account <- get_index accounts 0 ;;
           result <- request
                       (VObj [("method", VStr "eth_getBalance");
                              ("params", VArr [account; VStr "latest"])]) ;;
           text <- lift (Display.formatAmount_call result (decimals TOKEN)) ;;
           ret (VStr text)
         else
           account <- get_index accounts 0 ;;
           word <- Adapter.address_word account ;;
           let data := Display.balance_data word in
           result <- request
                       (VObj [("method", VStr "eth_call");
                              ("params",
                                VArr [VObj [("to", address TOKEN);
                                            ("data", VStr data)];
                                      VStr "latest"])]) ;;
           text <- lift (Display.formatAmount_call result (decimals TOKEN)) ;;
           ret (VStr text))
        (ret VNull)
  end.

End Read.

End AdapterBalance.

(** [getBalance] of [static/paywall_adapter.js], lines 23-32. *)
Module PaywallBalance.

Import Page.
Local Open Scope page_scope.

Section Read.

Variable TOKEN : token.
Variable ethereum : option (value -> M value).

Definition getBalance : M value :=
  match ethereum with
  | None => ret VNull
  | Some request =>
      try_catch
        (accounts <- request (VObj [("method", VStr "eth_accounts")]) ;;
         if negb (JS.truthy (Display.length_of accounts)) then ret VNull
         else
           account <- get_index accounts 0 ;;
           word <- PaywallAdapter.address_word account ;;
           let data := Display.balance_data word in
           result <- request
                       (VObj [("method", VStr "eth_call");
                              ("params",
                                VArr [VObj [("to", address TOKEN);
                                            ("data", VStr data)];
                                      VStr "latest"])]) ;;
           text <- lift (Display.formatAmount_call result (decimals TOKEN)) ;;
           ret (VStr text))
        (ret VNull)
  end.

End Read.

End PaywallBalance.

Definition getBalance_of (s : script)
  : token -> option (value -> Page.M value) -> Page.M value :=
  match s with
  | NativeAware => AdapterBalance.getBalance
  | Erc20Only => PaywallBalance.getBalance
  end.

(** The read of the signer's balance that the script makes. *)
Definition accounts_call : value := VObj [("method", VStr "eth_accounts")].

Definition balance_call (s : script) (TOKEN : token) (account : utf16)
  : value :=
  if native_mode s TOKEN
  then call "eth_getBalance" [VStr account; VStr "latest"]
  else call "eth_call"
         [VObj [("to", address TOKEN);
                ("data",
                 VStr ("0x70a08231"
                       +++ U16.padStart 64 "0" (U16.drop 2 account)))];
          VStr "latest"].

(** The methods that a balance read may ask of the provider. *)
Definition read_only (args : value) : bool :=
  JS.is_string (JS.prop args "method") "eth_accounts"
  || JS.is_string (JS.prop args "method") "eth_getBalance"
  || JS.is_string (JS.prop args "method") "eth_call".

(** The answer to [eth_accounts] names no account: the call failed, or
    what it returned has no truthy [length]. *)
Definition no_account (answer : outcome value) : bool :=
  match answer with
  | Ok accounts => negb (JS.truthy (Display.length_of accounts))
  | Throw _ => true
  end.

(** The top of either script. *)
Definition load_of (s : script) : value -> value -> option token :=
  match s with
  | NativeAware => Adapter.load
  | Erc20Only => PaywallAdapter.load
  end.

(* ================================================================== *)
(** * The refresh loop and the start of the script *)
(* ================================================================== *)

(** Lines 72-96 of [src/unnamed/part_000] and lines 63-87 of
    [static/paywall_adapter.js], the same text in both: the three
    variables [processing], [debounce] and [ready], [update], [init], the
    start on [DOMContentLoaded] and the mutation observer.  The document
    is any type and [replaceText] any function on it that may throw; the
    balance display, which touches none of the three variables, is a
    timer callback without effect here. *)
Module Refresh.

(** The functions that the script hands to [setTimeout]. *)
Inductive callback : Type :=
| Update
| UpdateBalance.

Record timer : Type := mkTimer {
  timer_id : nat;
  timer_callback : callback;
  timer_delay : Z
}.

(** A mutation record: [x.type] and [x.addedNodes.length]. *)
Record mutation : Type := mkMutation {
  mutation_type : string;
  addedNodes : nat
}.

Section Loop.

Variable document : Type.
Variable replaceText : document -> outcome unit * document.

Record state : Type := mkState {
  processing : bool;
  debounce : option nat;      (* null, or the last timer id stored *)
  ready : bool;
  timers : list timer;        (* the timers that are pending *)
  next_id : nat;              (* the id that setTimeout gives next *)
  listening : bool;           (* init waits for DOMContentLoaded *)
  observing : bool;           (* the mutation observer is registered *)
  page : document
}.

Definition initial (d : document) : state :=
  mkState false None false [] 1 false false d.

Definition set_processing (b : bool) (st : state) : state :=
  mkState b (debounce st) (ready st) (timers st) (next_id st)
    (listening st) (observing st) (page st).

Definition set_page (d : document) (st : state) : state :=
  mkState (processing st) (debounce st) (ready st) (timers st) (next_id st)
    (listening st) (observing st) d.

Definition set_ready (b : bool) (st : state) : state :=
  mkState (processing st) (debounce st) b (timers st) (next_id st)
    (listening st) (observing st) (page st).

Definition set_debounce (h : option nat) (st : state) : state :=
  mkState (processing st) h (ready st) (timers st) (next_id st)
    (listening st) (observing st) (page st).

Definition set_timers (ts : list timer) (st : state) : state :=
  mkState (processing st) (debounce st) (ready st) ts (next_id st)
    (listening st) (observing st) (page st).

Definition set_listening (b : bool) (st : state) : state :=
  mkState (processing st) (debounce st) (ready st) (timers st) (next_id st)
    b (observing st) (page st).

Definition set_observing (b : bool) (st : state) : state :=
  mkState (processing st) (debounce st) (ready st) (timers st) (next_id st)
    (listening st) b (page st).

(** [setTimeout(f, delay)]: the timer pending under a fresh id.  Ids
    grow by one and are never handed out twice, as in the browsers. *)
Definition setTimeout (f : callback) (delay : Z) (st : state) : nat * state :=
  (next_id st,
   mkState (processing st) (debounce st) (ready st)
     (timers st ++ [mkTimer (next_id st) f delay]) (S (next_id st))
     (listening st) (observing st) (page st)).

(** [clearTimeout(h)]: nothing happens for [null] or for an id that is
    not pending. *)
Definition clearTimeout (h : option nat) (st : state) : state :=
  match h with
  | None => st
  | Some i =>
      set_timers (filter (fun t => negb (Nat.eqb (timer_id t) i)) (timers st)) st
  end.

(** [update]: the [finally] resets [processing] whether [replaceText]
    returns or throws, and what it throws goes on to the caller. *)
Definition update (st : state) : outcome unit * state :=
  if processing st then (Ok tt, st)
  else
    let st1 := set_processing true st in
    match replaceText (page st1) with
    | (Ok _, d) => (Ok tt, set_processing false (set_page d st1))
    | (Throw e, d) => (Throw e, set_processing false (set_page d st1))
    end.

Definition init (st : state) : outcome unit * state :=
  match update st with
  | (Ok _, st1) =>
      let st2 := set_ready true st1 in
      (Ok tt, snd (setTimeout UpdateBalance 1000 st2))
  | (Throw e, st1) => (Throw e, st1)
  end.

(** [m.some(x => x.type === 'childList' && x.addedNodes.length)] *)
Definition adds_nodes (m : list mutation) : bool :=
  existsb (fun x => String.eqb (mutation_type x) "childList"
                    && negb (Nat.eqb (addedNodes x) 0)) m.

(** The callback of the mutation observer. *)
Definition observer (m : list mutation) (st : state) : state :=
  if negb (ready st) || processing st then st
  else if adds_nodes m then
    let st1 := clearTimeout (debounce st) st in
    let (i, st2) := setTimeout Update 150 st1 in
    set_debounce (Some i) st2
  else st.

(** Lines 86-96: [init] at once, or on [DOMContentLoaded] while the
    document is loading; then the observer on [document.body], which
    [observe] refuses when there is no body yet. *)
Definition start (loading body : bool) (st : state) : outcome unit * state :=
  let r := if loading then (Ok tt, set_listening true st) else init st in
  match r with
  | (Ok _, st1) =>
      if body then (Ok tt, set_observing true st1) else (Throw TypeError, st1)
  | (Throw e, st1) => (Throw e, st1)
  end.

(** What the event loop delivers afterwards.  An exception in a
    listener or a timer callback is reported and the loop goes on. *)
Inductive event : Type :=
| DOMContentLoaded
| Mutations (m : list mutation)
| Timeout (i : nat)
| Edited (d : document).   (* anyone else changes the document *)

Definition handle (ev : event) (st : state) : state :=
  match ev with
  | DOMContentLoaded =>
      if listening st then snd (init (set_listening false st)) else st
  | Mutations m => if observing st then observer m st else st
  | Timeout i =>
      match find (fun t => Nat.eqb (timer_id t) i) (timers st) with
      | Some t =>
          let st1 := clearTimeout (Some i) st in
          match timer_callback t with
          | Update => snd (update st1)
          | UpdateBalance => st1
          end
      | None => st
      end
  | Edited d => set_page d st
  end.

Definition run (evs : list event) (st : state) : state :=
  fold_left (fun s ev => handle ev s) evs st.

(** The timers that will call [f]. *)
Definition calls (f : callback) (t : timer) : bool :=
  match timer_callback t, f with
  | Update, Update | UpdateBalance, UpdateBalance => true
  | _, _ => false
  end.

Definition pending (f : callback) (st : state) : list timer :=
  filter (calls f) (timers st).

Definition ids (st : state) : list nat := map timer_id (timers st).

(** What holds of the loop between any two events: [replaceText] is not
    running; nothing is scheduled before [init] has run, and [init] still
    waits only while [ready] is unset; the pending [update] timers are
    the timers that [debounce] names; timer ids are fresh and distinct;
    the balance display is scheduled at most once. *)
Definition steady (st : state) : Prop :=
  processing st = false
  /\ (ready st = false -> timers st = [])
  /\ (listening st = true -> ready st = false)
  /\ (forall t, In t (timers st) ->
                 (timer_callback t = Update
                  <-> debounce st = Some (timer_id t)))
  /\ (forall i, debounce st = Some i -> (i < next_id st)%nat)
  /\ NoDup (ids st)
  /\ (forall t, In t (timers st) -> (timer_id t < next_id st)%nat)
  /\ (List.length (pending UpdateBalance st) <= 1)%nat.

(** The whole script, as far as installing goes: the token check of
    lines 3-8, the start above, the provider wrapper when there is a
    provider (lines 98-100), the fetch wrapper (line 174, an assignment
    to [window.fetch], which the platform defines writable).  An
    exception anywhere ends the script at that point. *)
Record installation : Type := mkInstallation {
  request_wrapped : bool;
  fetch_wrapped : bool
}.

(** What [window.ethereum.request = ...] does in strict mode: the
    property takes the wrapper; or the write is dropped without an error
    (a setter that keeps its own function); or it throws (a property
    that is not writable, a frozen object, a primitive). *)
Inductive assignment : Type :=
| Stored
| Dropped
| Refused.

(** [window.ethereum] as line 98 finds it: falsy, or a value whose
    [request] is or is not a function that [bind] can be called on. *)
Inductive provider_object : Type :=
| NoProvider
| Provider (request_is_function : bool) (write : assignment).

(** Lines 98-100: [Ok] with whether the wrapper is in place. *)
Definition wrap_request (ethereum : provider_object) : outcome bool :=
  match ethereum with
  | NoProvider => Ok false
  | Provider false _ => Throw TypeError
  | Provider true Stored => Ok true
  | Provider true Dropped => Ok false
  | Provider true Refused => Throw TypeError
  end.

Definition main (loaded : option token) (loading body : bool)
                (ethereum : provider_object) (st : state)
  : installation * state :=
  match loaded with
  | None => (mkInstallation false false, st)
  | Some _ =>
      match start loading body st with
      | (Ok _, st1) =>
          match wrap_request ethereum with
          | Ok wrapped => (mkInstallation wrapped true, st1)
          | Throw _ => (mkInstallation false false, st1)
          end
      | (Throw _, st1) => (mkInstallation false false, st1)
      end
  end.

End Loop.

Arguments mkState {document}.
Arguments processing {document}.
Arguments debounce {document}.
Arguments ready {document}.
Arguments timers {document}.
Arguments next_id {document}.
Arguments listening {document}.
Arguments observing {document}.
Arguments page {document}.
Arguments initial {document}.
Arguments set_processing {document}.
Arguments set_page {document}.
Arguments set_ready {document}.
Arguments set_debounce {document}.
Arguments set_timers {document}.
Arguments set_listening {document}.
Arguments set_observing {document}.
Arguments setTimeout {document}.
Arguments clearTimeout {document}.
Arguments update {document}.
Arguments init {document}.
Arguments observer {document}.
Arguments start {document}.
Arguments DOMContentLoaded {document}.
Arguments Mutations {document}.
Arguments Timeout {document}.
Arguments Edited {document}.
Arguments handle {document}.
Arguments run {document}.
Arguments pending {document}.
Arguments ids {document}.
Arguments steady {document}.
Arguments main {document}.

End Refresh.

(* ================================================================== *)
(** * Sample pages for the balance read and the refresh loop *)
(* ================================================================== *)

Module Sample.

(** A wallet whose one account holds one and a half units, of the coin
    and of the token. *)
Definition holder (log : list value) (args : value) : outcome value :=
  let m := JS.prop args "method" in
  if JS.is_string m "eth_accounts" then Ok (VArr [VStr "0xOwner"])
  else if JS.is_string m "eth_getBalance" then Ok (VStr "0x14d1120d7b160000")
  else if JS.is_string m "eth_call" then Ok (VStr "0x16e360")
  else Throw (Rejected (VStr "unsupported")).

(** A wallet that is locked: it names no account. *)
Definition locked (log : list value) (args : value) : outcome value :=
  if JS.is_string (JS.prop args "method") "eth_accounts" then Ok (VArr [])
  else holder log args.

(** A node on which the token address has no code: the call returns no
    data. *)
Definition codeless (log : list value) (args : value) : outcome value :=
  if JS.is_string (JS.prop args "method") "eth_call" then Ok (VStr "0x")
  else holder log args.

Definition holder_page : host :=
  mkHost (Example.parse_table []) holder Example.server.

Definition locked_page : host :=
  mkHost (Example.parse_table []) locked Example.server.

Definition codeless_page : host :=
  mkHost (Example.parse_table []) codeless Example.server.

End Sample.

Module Pages.

(** A document that counts how often [replaceText] ran on it. *)
Definition counting (d : nat) : outcome unit * nat := (Ok tt, S d).

(** A mutation batch that adds a node, and one that only changes
    attributes. *)
Definition added : list Refresh.mutation :=
  [Refresh.mkMutation "attributes" 0; Refresh.mkMutation "childList" 2].

(** The page once the script has run on the loaded document. *)
Definition loaded : Refresh.state nat :=
  snd (Refresh.start counting false true (Refresh.initial 0%nat)).

End Pages.
Example formatAmount_ex1 : formatAmount 1234567 6 = "1.2345".
Proof. reflexivity. Qed.
Example formatAmount_ex2 : formatAmount 1000000 6 = "1".
Proof. reflexivity. Qed.
Example formatAmount_ex3 : formatAmount 2000000000000000000 18 = "2".
Proof. reflexivity. Qed.
Example formatAmount_ex4 : formatAmount 1050000 6 = "1.05".
Proof. reflexivity. Qed.
Example formatAmount_ex5 : formatAmount 7 0 = "7".
Proof. reflexivity. Qed.
Example formatAmount_ex6 : formatAmount 12 6 = "0".
Proof. reflexivity. Qed.
Example formatAmount_ex7 : formatAmount 123 2 = "1.23".
Proof. reflexivity. Qed.
Example parseAmount_ex1 : parseAmount "1.2345" 6 = 1234500.
Proof. reflexivity. Qed.

(* ================================================================== *)
(** * Decimal strings *)
(* ================================================================== *)

Section DecimalStrings.

Import Str.

Lemma pow10_pos k : 0 < pow10 k.
Proof. unfold pow10. apply Z.pow_pos_nonneg; lia. Qed.

Lemma pow10_0 : pow10 0 = 1.
Proof. reflexivity. Qed.

Lemma pow10_S k : pow10 (S k) = 10 * pow10 k.
Proof.
  unfold pow10. rewrite Nat2Z.inj_succ, Z.pow_succ_r by lia. reflexivity.
Qed.

Lemma pow10_add a b : pow10 (a + b) = pow10 a * pow10 b.
Proof.
  unfold pow10. rewrite Nat2Z.inj_add, Z.pow_add_r by lia. reflexivity.
Qed.

Lemma length_app (s t : string) :
  String.length (s ++ t) = (String.length s + String.length t)%nat.
Proof. induction s as [|c s IH]; simpl; [reflexivity | now rewrite IH]. Qed.

Lemma length_repeat c n : String.length (repeat c n) = n.
Proof. induction n as [|n IH]; simpl; [reflexivity | now rewrite IH]. Qed.

Lemma digit_char_dec d :
  0 <= d < 10 -> digit_val (digit_char d) = d /\ is_digit (digit_char d) = true.
Proof.
  intros H.
  assert (E : d = 0 \/ d = 1 \/ d = 2 \/ d = 3 \/ d = 4 \/ d = 5 \/ d = 6
              \/ d = 7 \/ d = 8 \/ d = 9) by lia.
  repeat (destruct E as [E | E]; [subst d; split; reflexivity |]).
  subst d; split; reflexivity.
Qed.

Lemma is_digit_val c : is_digit c = true -> 0 <= digit_val c < 10.
Proof.
  unfold is_digit, digit_val. intros H.
  apply andb_true_iff in H as [H1 H2].
  apply Nat.leb_le in H1. apply Nat.leb_le in H2. lia.
Qed.

Lemma dec_value_from_app acc s t :
  dec_value_from acc (s ++ t) = dec_value_from (dec_value_from acc s) t.
Proof.
  revert acc. induction s as [|c s IH]; intros acc; simpl; [reflexivity|].
  apply IH.
Qed.

Lemma dec_value_from_shift acc s :
  dec_value_from acc s = acc * pow10 (String.length s) + dec_value s.
Proof.
  unfold dec_value. revert acc.
  induction s as [|c s IH]; intros acc; cbn [dec_value_from String.length].
  - rewrite pow10_0. lia.
  - rewrite IH, (IH (10 * 0 + digit_val c)), pow10_S. ring.
Qed.

Lemma dec_value_cons c s :
  dec_value (String c s) = digit_val c * pow10 (String.length s) + dec_value s.
Proof.
  unfold dec_value at 1. cbn [dec_value_from].
  rewrite dec_value_from_shift. ring.
Qed.

Lemma dec_value_app s t :
  dec_value (s ++ t) = dec_value s * pow10 (String.length t) + dec_value t.
Proof.
  unfold dec_value at 1. rewrite dec_value_from_app.
  now rewrite dec_value_from_shift.
Qed.

Lemma all_digits_app s t :
  all_digits (s ++ t) = all_digits s && all_digits t.
Proof.
  induction s as [|c s IH]; simpl; [reflexivity|].
  now rewrite IH, andb_assoc.
Qed.

Lemma dec_value_bound s :
  all_digits s = true -> 0 <= dec_value s < pow10 (String.length s).
Proof.
  induction s as [|c s IH]; intros H.
  - cbn. lia.
  - simpl in H. apply andb_true_iff in H as [Hc Hs].
    specialize (IH Hs). apply is_digit_val in Hc.
    rewrite dec_value_cons. simpl String.length. rewrite pow10_S.
    pose proof (pow10_pos (String.length s)). nia.
Qed.

(** ** Rendering *)

Lemma log2_div_lt n radix :
  2 <= radix -> radix <= n -> Z.log2 (n / radix) < Z.log2 n.
Proof.
  intros Hr Hn.
  assert (Hm : 1 <= n / radix).
  { apply Z.div_le_lower_bound; lia. }
  assert (H2 : 2 * (n / radix) <= n).
  { pose proof (Z.mul_div_le n radix ltac:(lia)). nia. }
  apply Z.log2_le_mono in H2.
  rewrite Z.log2_double in H2 by lia. lia.
Qed.

Lemma digits_fuel_dec fuel n :
  0 <= n -> Z.log2 n < Z.of_nat fuel ->
  dec_value (digits_fuel fuel 10 n) = n
  /\ all_digits (digits_fuel fuel 10 n) = true
  /\ (forall d, (1 <= d)%nat -> n < pow10 d ->
                (String.length (digits_fuel fuel 10 n) <= d)%nat).
Proof.
  revert n. induction fuel as [|fuel IH]; intros n Hn Hf.
  - pose proof (Z.log2_nonneg n). lia.
  - simpl. destruct (Z.ltb_spec n 10) as [Hlt | Hge].
    + destruct (digit_char_dec n ltac:(lia)) as [Hv Hd].
      repeat split.
      * unfold dec_value. simpl. lia.
      * simpl. now rewrite Hd.
      * intros d Hd1 _. simpl. lia.
    + assert (Hq : 0 <= n / 10) by (apply Z.div_pos; lia).
      pose proof (log2_div_lt n 10 ltac:(lia) Hge) as Hlog.
      destruct (IH (n / 10) Hq ltac:(lia)) as (Hv & Hd & Hl).
      pose proof (Z.mod_pos_bound n 10 ltac:(lia)) as Hm.
      destruct (digit_char_dec (n mod 10) Hm) as [Hv' Hd'].
      repeat split.
      * rewrite dec_value_app, Hv. simpl String.length.
        rewrite pow10_S, pow10_0. unfold dec_value. simpl. rewrite Hv'.
        pose proof (Z.div_mod n 10 ltac:(lia)). lia.
      * rewrite all_digits_app, Hd. simpl. now rewrite Hd'.
      * intros d Hd1 Hb. rewrite length_app. simpl String.length.
        destruct d as [|d]; [lia|].
        destruct d as [|d].
        { rewrite pow10_S, pow10_0 in Hb. lia. }
        assert (n / 10 < pow10 (S d)).
        { rewrite pow10_S in Hb. apply Z.div_lt_upper_bound; lia. }
        specialize (Hl (S d) ltac:(lia) H). lia.
Qed.

Lemma digits_dec n :
  0 <= n ->
  dec_value (digits 10 n) = n
  /\ all_digits (digits 10 n) = true
  /\ (forall d, (1 <= d)%nat -> n < pow10 d ->
                (String.length (digits 10 n) <= d)%nat).
Proof.
  intros Hn. unfold digits. apply digits_fuel_dec; [assumption|].
  pose proof (Z.log2_nonneg n). lia.
Qed.

Lemma BigInt_toString_nonneg radix n :
  0 <= n -> BigInt_toString radix n = digits radix n.
Proof.
  intros Hn. unfold BigInt_toString.
  destruct (Z.ltb_spec n 0); [lia | reflexivity].
Qed.

End DecimalStrings.

(* ================================================================== *)
(** * The token amount formatter: what it prints *)
(* ================================================================== *)

Section Formatter.

Import Str.

Lemma all_digits_repeat_zero n : all_digits (repeat "0" n) = true.
Proof. induction n as [|n IH]; simpl; [reflexivity | exact IH]. Qed.

Lemma dec_value_repeat_zero n : dec_value (repeat "0" n) = 0.
Proof.
  induction n as [|n IH]; [reflexivity|].
  simpl repeat. rewrite dec_value_cons, IH. reflexivity.
Qed.

(** The zero-padded remainder: digits only, the same value, and exactly
    [d] characters as soon as [d] is positive. *)
Lemma padStart_digits d r :
  0 <= r < pow10 d ->
  let pad := padStart d "0" (digits 10 r) in
  all_digits pad = true
  /\ dec_value pad = r
  /\ ((0 < d)%nat -> String.length pad = d).
Proof.
  intros Hr pad. subst pad. unfold padStart.
  destruct (digits_dec r ltac:(lia)) as (Hv & Hd & Hl).
  repeat split.
  - now rewrite all_digits_app, all_digits_repeat_zero, Hd.
  - rewrite dec_value_app, dec_value_repeat_zero, Hv. lia.
  - intros Hpos. rewrite length_app, length_repeat.
    specialize (Hl d ltac:(lia) ltac:(lia)). lia.
Qed.

Lemma take_drop n s : take n s ++ drop n s = s.
Proof.
  revert s. induction n as [|n IH]; intros [|c s]; simpl; try reflexivity.
  now rewrite IH.
Qed.

Lemma length_take n s : String.length (take n s) = Nat.min n (String.length s).
Proof.
  revert s. induction n as [|n IH]; intros [|c s]; simpl; try reflexivity.
  now rewrite IH.
Qed.

Lemma length_drop n s : String.length (drop n s) = (String.length s - n)%nat.
Proof.
  revert s. induction n as [|n IH]; intros [|c s]; simpl; try reflexivity.
  apply IH.
Qed.

Lemma take_all n s : (String.length s <= n)%nat -> take n s = s.
Proof.
  revert s. induction n as [|n IH]; intros [|c s] H; simpl in *;
    try reflexivity; try lia.
  rewrite IH by lia. reflexivity.
Qed.

Lemma all_digits_take n s : all_digits s = true -> all_digits (take n s) = true.
Proof.
  revert s. induction n as [|n IH]; intros [|c s] H; simpl in *;
    try reflexivity.
  apply andb_true_iff in H as [Hc Hs]. now rewrite Hc, IH.
Qed.

Lemma all_digits_drop n s : all_digits s = true -> all_digits (drop n s) = true.
Proof.
  revert s. induction n as [|n IH]; intros [|c s] H; simpl in *;
    try reflexivity; try assumption.
  apply andb_true_iff in H as [Hc Hs]. now apply IH.
Qed.

(** The first [k] digits of a digit string carry the quotient of its
    value by the weight of the digits cut off. *)
Lemma dec_value_take k s :
  all_digits s = true ->
  dec_value (take k s) = dec_value s / pow10 (String.length s - k).
Proof.
  intros Hs.
  pose proof (dec_value_app (take k s) (drop k s)) as E.
  rewrite take_drop, length_drop in E.
  pose proof (dec_value_bound (drop k s) (all_digits_drop k s Hs)) as B.
  rewrite length_drop in B.
  pose proof (pow10_pos (String.length s - k)) as P.
  rewrite E. symmetry.
  rewrite Z.add_comm, Z.div_add by lia.
  rewrite Z.div_small by lia. reflexivity.
Qed.

Lemma strip_trailing_zeros_spec s :
  all_digits s = true ->
  let f := strip_trailing_zeros s in
  all_digits f = true
  /\ (String.length f <= String.length s)%nat
  /\ dec_value f * pow10 (String.length s - String.length f) = dec_value s.
Proof.
  induction s as [|c s IH]; intros Hs; cbn zeta.
  - repeat split; cbn; lia.
  - simpl in Hs. apply andb_true_iff in Hs as [Hc Hs].
    destruct (IH Hs) as (Hd & Hl & Hv). clear IH.
    simpl strip_trailing_zeros.
    destruct (Ascii.eqb c "0" && String.eqb (strip_trailing_zeros s) "")%bool
      eqn:E.
    + apply andb_true_iff in E as [Ec Er].
      apply Ascii.eqb_eq in Ec. apply String.eqb_eq in Er.
      rewrite Er in Hv. subst c.
      repeat split; [simpl; lia|].
      rewrite dec_value_cons.
      change (dec_value "") with 0 in *. change (digit_val "0") with 0. lia.
    + repeat split.
      * simpl. now rewrite Hc, Hd.
      * simpl. lia.
      * rewrite !dec_value_cons. simpl String.length.
        replace (S (String.length s) - S (String.length (strip_trailing_zeros s)))%nat
          with (String.length s - String.length (strip_trailing_zeros s))%nat
          by lia.
        rewrite <- Hv.
        replace (String.length s)
          with (String.length (strip_trailing_zeros s)
                + (String.length s - String.length (strip_trailing_zeros s)))%nat
          at 2 by lia.
        rewrite pow10_add. ring.
Qed.

Lemma all_digits_no_point s : all_digits s = true -> has_point s = false.
Proof.
  induction s as [|c s IH]; intros H; simpl in *; [reflexivity|].
  apply andb_true_iff in H as [Hc Hs]. rewrite (IH Hs), orb_false_r.
  destruct (Ascii.eqb_spec c "."); [subst c; discriminate Hc | reflexivity].
Qed.

Lemma has_point_app s t : has_point (s ++ t) = has_point s || has_point t.
Proof.
  induction s as [|c s IH]; simpl; [reflexivity|].
  now rewrite IH, orb_assoc.
Qed.

Lemma split_point_no_point s : has_point s = false -> split_point s = (s, "").
Proof.
  induction s as [|c s IH]; intros H; simpl in *; [reflexivity|].
  apply orb_false_iff in H as [Hc Hs]. rewrite Hc, (IH Hs). reflexivity.
Qed.

Lemma split_point_app i f :
  has_point i = false -> split_point (i ++ "." ++ f) = (i, f).
Proof.
  induction i as [|c i IH]; intros H; simpl in *; [reflexivity|].
  apply orb_false_iff in H as [Hc Hi]. rewrite Hc, (IH Hi). reflexivity.
Qed.

Lemma nonempty_false s : nonempty s = false -> s = "".
Proof.
  unfold nonempty. intros H. apply negb_false_iff in H.
  now apply String.eqb_eq.
Qed.

(** The shape of the output for a non-negative amount. *)
Lemma formatAmount_nonneg a d :
  0 <= a ->
  formatAmount a d =
    let i := digits 10 (a / pow10 d) in
    let f := strip_trailing_zeros
               (take 4 (padStart d "0" (digits 10 (a mod pow10 d)))) in
    if nonempty f then i ++ "." ++ f else i.
Proof.
  intros Ha. unfold formatAmount. fold (pow10 d).
  pose proof (pow10_pos d) as P.
  rewrite Z.quot_div_nonneg, Z.rem_mod_nonneg by lia.
  rewrite (BigInt_toString_nonneg 10 (a / pow10 d))
    by (apply Z.div_pos; lia).
  rewrite (BigInt_toString_nonneg 10 (a mod pow10 d))
    by (apply Z.mod_pos_bound; lia).
  reflexivity.
Qed.

End Formatter.

Section FormatterClaims.

Import Str.

(** The fractional digits that the formatter prints, scaled back to
    atomic units, are the remainder without its digits beyond the fourth
    fractional place. *)
Lemma fraction_scaled d r :
  0 <= r < pow10 d ->
  let f := strip_trailing_zeros
             (take 4 (padStart d "0" (digits 10 r))) in
  all_digits f = true
  /\ dec_value f * pow10 (d - String.length f) = r - r mod pow10 (d - 4).
Proof.
  intros Hr.
  destruct d as [|d].
  - assert (r = 0) by (rewrite pow10_0 in Hr; lia). subst r.
    split; reflexivity.
  - intros f.
    destruct (padStart_digits (S d) r Hr) as (Hd & Hv & Hl).
    set (pad := padStart (S d) "0" (digits 10 r)) in *.
    pose proof (all_digits_take 4 pad Hd) as Ht.
    destruct (strip_trailing_zeros_spec (take 4 pad) Ht) as (Hfd & Hfl & Hfv).
    fold f in Hfd, Hfl, Hfv. split; [exact Hfd|].
    specialize (Hl ltac:(lia)).
    rewrite length_take, Hl in Hfl, Hfv.
    rewrite (dec_value_take 4 pad Hd), Hv, Hl in Hfv.
    set (P4 := pow10 (S d - 4)) in *.
    assert (HP4 : 0 < P4) by apply pow10_pos.
    replace (S d - String.length f)%nat
      with ((Nat.min 4 (S d) - String.length f) + (S d - 4))%nat by lia.
    rewrite pow10_add, Z.mul_assoc, Hfv. fold P4.
    pose proof (Z.div_mod r P4 ltac:(lia)). lia.
Qed.

Lemma fraction_length d r :
  0 <= r < pow10 d ->
  (String.length
     (strip_trailing_zeros (take 4 (padStart d "0" (digits 10 r)))) <= d)%nat.
Proof.
  intros Hr. destruct d as [|d].
  - assert (r = 0) by (rewrite pow10_0 in Hr; lia). subst r. cbn. lia.
  - destruct (padStart_digits (S d) r Hr) as (Hd & _ & Hl).
    specialize (Hl ltac:(lia)).
    destruct (strip_trailing_zeros_spec _ (all_digits_take 4 _ Hd))
      as (_ & Hs & _).
    rewrite length_take, Hl in Hs. lia.
Qed.

Lemma mod_pow10_mod a d :
  (a mod pow10 d) mod pow10 (d - 4) = a mod pow10 (d - 4).
Proof.
  pose proof (pow10_pos d) as Pd. pose proof (pow10_pos (d - 4)) as P4.
  assert (E : pow10 d = pow10 (Nat.min 4 d) * pow10 (d - 4)).
  { rewrite <- pow10_add. f_equal. lia. }
  rewrite (Z.mod_eq a (pow10 d)) by lia.
  replace (a - pow10 d * (a / pow10 d))
    with (a + (- (a / pow10 d) * pow10 (Nat.min 4 d)) * pow10 (d - 4))
    by (rewrite E; ring).
  apply Z.mod_add. lia.
Qed.

(** What reading the output back gives, for every decimal count. *)
Lemma parseAmount_formatAmount a d :
  0 <= a ->
  parseAmount (formatAmount a d) d = a - a mod pow10 (d - 4).
Proof.
  intros Ha. rewrite formatAmount_nonneg by assumption. cbn zeta.
  pose proof (pow10_pos d) as Pd.
  pose proof (Z.mod_pos_bound a (pow10 d) Pd) as Hr.
  destruct (fraction_scaled d (a mod pow10 d) Hr) as (Hfd & Hfv).
  set (f := strip_trailing_zeros
              (take 4 (padStart d "0" (digits 10 (a mod pow10 d))))) in *.
  destruct (digits_dec (a / pow10 d) ltac:(apply Z.div_pos; lia))
    as (Hiv & Hid & _).
  set (i := digits 10 (a / pow10 d)) in *.
  pose proof (all_digits_no_point i Hid) as Hip.
  assert (Hsplit : split_point (if nonempty f then i ++ "." ++ f else i)
                   = (i, f)).
  { destruct (nonempty f) eqn:E.
    - now apply split_point_app.
    - apply nonempty_false in E. rewrite E. now apply split_point_no_point. }
  pose proof (fraction_length d (a mod pow10 d) Hr) as Hfl. fold f in Hfl.
  unfold parseAmount. rewrite Hsplit. fold (pow10 d).
  fold (pow10 (String.length f)).
  replace (dec_value f * pow10 d / pow10 (String.length f))
    with (dec_value f * pow10 (d - String.length f)).
  2:{ replace d with ((d - String.length f) + String.length f)%nat at 2
        by lia.
      rewrite pow10_add, Z.mul_assoc, Z.div_mul; [reflexivity|].
      pose proof (pow10_pos (String.length f)). lia. }
  rewrite Hfv, Hiv, mod_pow10_mod.
  pose proof (Z.div_mod a (pow10 d) ltac:(lia)). lia.
Qed.



(** C8. For a non-negative amount [a] and a decimal count [d] between 0
    and 36, reading the formatter's output back (integer part times
    [10^d] plus the fractional digits scaled to atomic units) never
    exceeds [a]; it falls short of [a] by less than [10^(d-4)] when
    [d > 4] and is exactly [a] when [d <= 4]. *)
Theorem formatAmount_round_trip (a : Z) (d : nat) :
  0 <= a -> (d <= 36)%nat ->
  let p := parseAmount (formatAmount a d) d in
  p <= a
  /\ ((4 < d)%nat -> a - p < 10 ^ Z.of_nat (d - 4))
  /\ ((d <= 4)%nat -> p = a).
Proof.
  intros Ha _ p. subst p. rewrite parseAmount_formatAmount by assumption.
  pose proof (pow10_pos (d - 4)) as P4.
  pose proof (Z.mod_pos_bound a (pow10 (d - 4)) P4) as Hm.
  repeat split.
  - lia.
  - intros _. fold (pow10 (d - 4)). lia.
  - intros Hd. replace (d - 4)%nat with O in * by lia.
    rewrite pow10_0, Z.mod_1_r. lia.
Qed.

Lemma formatAmount_round_trip_witness :
  0 <= 1234567 /\ (18 <= 36)%nat /\
  let p := parseAmount (formatAmount 1234567 18) 18 in
  p <= 1234567
  /\ ((4 < 18)%nat -> 1234567 - p < 10 ^ Z.of_nat (18 - 4))
  /\ ((18 <= 4)%nat -> p = 1234567).
Proof.
  split; [lia | split; [lia |]].
  apply (formatAmount_round_trip 1234567 18); lia.
Defined.

(** Fractional digits beyond the decimal count are scaled down with the
    rest: they fall below one atomic unit. *)
Example parseAmount_scales :
  parseAmount "0.1234567" 6 = 123456
  /\ parseAmount "12.5" 6 = 12500000
  /\ parseAmount "7" 6 = 7000000
  /\ parseAmount (formatAmount 1234567891 6) 6 = 1234567800.
Proof. repeat split; vm_compute; reflexivity. Qed.


End FormatterClaims.

(* ================================================================== *)
(** * The provider call interceptor *)
(* ================================================================== *)

Ltac page_unfold :=
  unfold Page.bind, Page.try_catch, Page.toString, Page.get, Page.get_index,
    Page.parse, Page.put_header, Page.assign, Page.lift, Page.Date_now,
    Page.read, Page.set_permit, Page.set_transfer,
    Page.set_nativePaymentData, Page.origRequest, Page.origFetch,
    Page.ret, Page.throw in *.

Ltac page_simpl :=
  cbn beta iota zeta
      delta [requests fetches clock x402 eip2612_permit eip2612_transfer
             nativePaymentData fst snd] in *.

(** Case analysis on whatever the next step of a run depends on. *)
Ltac break_inner x :=
  lazymatch x with
  | context [match ?y with _ => _ end] => break_inner y
  | _ => destruct x eqn:?
  end.

Ltac page_break :=
  repeat (page_simpl;
          match goal with
          | |- context [match ?x with _ => _ end] => break_inner x
          end);
  page_simpl.

Section ProviderInterceptor.

Variable H : host.
Variable TOKEN : token.

(** The body of the [try] on a call that is not a transfer
    authorization: it throws or falls out at the bottom, and touches
    nothing. *)
Lemma intercept_not_matching s args w :
  JS.is_string (JS.prop args "method") sign_method = true ->
  transfer_authorization H args = false ->
  JS.nullish args = false ->
  exists r, intercept_of s H TOKEN args w = (r, w)
            /\ (forall v, r <> Ok (Some v)).
Proof.
  intros Hm Hna Hargs.
  unfold transfer_authorization in Hna. rewrite Hm in Hna. simpl in Hna.
  unfold typed_data, transfer_type in Hna.
  destruct s; unfold intercept_of, Adapter.intercept, PaywallAdapter.intercept;
    page_unfold; rewrite Hargs;
    destruct (JS.nullish (JS.prop args "params")) eqn:Hp;
    try (eexists; split; [reflexivity | discriminate]);
    destruct (JSON_parse H _) as [data|];
    try (eexists; split; [reflexivity | discriminate]);
    rewrite Hna; eexists; split; try reflexivity; discriminate.
Qed.

(** C3, as the scripts have it. A provider call with an argument
    object (neither [undefined] nor [null]) whose method is not
    [eth_signTypedData_v4], or whose typed-data payload does not have
    primary type [TransferWithAuthorization], is answered exactly as the
    original entry point answers it: the same single call with the same
    arguments reaches the original, its result or its error is what
    the caller gets, and the page is left as the original leaves it. *)
Theorem pass_through (s : script) (args : value) (w : world) :
  JS.nullish args = false ->
  transfer_authorization H args = false ->
  request_of s H TOKEN args w = Page.origRequest H args w.
Proof.
  intros Hargs Hna.
  destruct (JS.is_string (JS.prop args "method") sign_method) eqn:Hm.
  - destruct (intercept_not_matching s args w Hm Hna Hargs) as (r & Hr & Hno).
    destruct s; unfold request_of, intercept_of in *;
      unfold Adapter.request, PaywallAdapter.request;
      unfold Page.bind at 1; unfold Page.get; rewrite Hargs;
      unfold Page.ret at 1; fold sign_method; rewrite Hm;
      unfold Page.bind, Page.try_catch; rewrite Hr;
      destruct r as [[v|]|e]; try reflexivity;
      exfalso; apply (Hno v); reflexivity.
  - destruct s; unfold request_of, Adapter.request, PaywallAdapter.request;
      unfold Page.bind, Page.get; rewrite Hargs; unfold Page.ret;
      fold sign_method; rewrite Hm; reflexivity.
Qed.

(** A call without a request object never reaches the provider: reading
    [args.method] throws before the wrapper forwards anything. *)
Lemma request_without_arguments s args w :
  JS.nullish args = true ->
  request_of s H TOKEN args w = (Throw TypeError, w).
Proof.
  intros Ha.
  destruct s; unfold request_of, Adapter.request, PaywallAdapter.request;
    unfold Page.bind, Page.get; rewrite Ha; reflexivity.
Qed.

(** ** The ERC-20 branch *)

Lemma permit_signature_same :
  Adapter.permit_signature = PaywallAdapter.permit_signature.
Proof. reflexivity. Qed.

(** A run of the ERC-20 branch never leaves the [try] at the bottom,
    never touches the native slot, the descriptor, the clock or the
    fetch log, only ever adds calls to the request log, and leaves the
    permit slot alone unless it returns a signature. *)
Lemma permit_signature_frame args data w r w' :
  Adapter.permit_signature H TOKEN args data w = (r, w') ->
  nativePaymentData w' = nativePaymentData w
  /\ x402 w' = x402 w /\ clock w' = clock w /\ fetches w' = fetches w
  /\ r <> Ok None
  /\ (forall e, r = Throw e -> slots w' = slots w).
Proof.
  unfold Adapter.permit_signature, Adapter.address_word. page_unfold.
  page_break; intros E; inversion E; subst; clear E; unfold slots;
    page_simpl; repeat split; try reflexivity; try discriminate.
Qed.

Lemma authorizes_inv args data :
  authorizes H args data ->
  JS.nullish args = false
  /\ JS.is_string (JS.prop args "method") "eth_signTypedData_v4" = true
  /\ JS.nullish (JS.prop args "params") = false
  /\ JSON_parse H (JS.ToString (JS.index (JS.prop args "params") 1))
     = Some data
  /\ JS.is_string (JS.opt_prop data "primaryType")
       "TransferWithAuthorization" = true
  /\ JS.nullish data = false.
Proof.
  intros (Ha & Hm & Ht & Hp). unfold typed_data in Ht.
  destruct (JS.nullish (JS.prop args "params")) eqn:Hn; [discriminate|].
  repeat split; try assumption.
  destruct data; try reflexivity; discriminate Hp.
Qed.

(** The ERC-20 branch when the signer is a string and both provider
    calls are answered. *)
Lemma permit_signature_run args data owner nonceHex sig w :
  JS.nullish args = false ->
  JS.nullish (JS.prop args "params") = false ->
  JS.nullish data = false ->
  signer_of args = VStr owner ->
  provider H (requests w) (nonce_call TOKEN owner) = Ok nonceHex ->
  provider H (requests w ++ [nonce_call TOKEN owner])
    (permit_call TOKEN data owner nonceHex (clock w)) = Ok sig ->
  Adapter.permit_signature H TOKEN args data w =
    (Ok (Some sig),
     with_requests
       (requests w ++ [nonce_call TOKEN owner;
                       permit_call TOKEN data owner nonceHex (clock w)])
       (with_slots (permit_artifact data owner nonceHex (clock w) sig)
          (transfer_intent data owner) (nativePaymentData w) w)).
Proof.
  intros Ha Hp Hd Ho Hn Hs.
  unfold signer_of in Ho.
  unfold Adapter.permit_signature, Adapter.address_word. page_unfold.
  rewrite Hd, Ha. page_simpl. rewrite Hp. page_simpl. rewrite Ho.
  page_simpl.
  unfold with_requests, with_slots, permit_artifact, transfer_intent.
  unfold permit_call, reshaped, permit_typed_data, permit_deadline,
    nonce_call, call, sign_method, typed_field, destination_of, amount_of,
    message_of, domain_of in *.
  unfold Adapter.permit_types, Adapter.field, Adapter.PERMIT_DEADLINE.
  rewrite Hn. page_simpl. rewrite Hs. page_simpl.
  rewrite <- app_assoc. reflexivity.
Qed.

(** ** The native branch *)

Lemma native_payment_frame args data w r w' :
  Adapter.native_payment H args data w = (r, w') ->
  eip2612_permit w' = eip2612_permit w
  /\ eip2612_transfer w' = eip2612_transfer w
  /\ x402 w' = x402 w /\ clock w' = clock w /\ fetches w' = fetches w
  /\ r <> Ok None
  /\ (forall e, r = Throw e -> slots w' = slots w).
Proof.
  unfold Adapter.native_payment. page_unfold.
  page_break; intros E; inversion E; subst; clear E; unfold slots;
    page_simpl; repeat split; try reflexivity; try discriminate.
Qed.

(** The native branch when the amount converts to a BigInt and the
    transaction is accepted. *)
Lemma native_payment_run args data amount n txHash w :
  JS.nullish args = false ->
  JS.nullish (JS.prop args "params") = false ->
  JS.nullish data = false ->
  amount_of data = VStr amount ->
  JS.StringToBigInt amount = Some n ->
  provider H (requests w)
    (send_call (signer_of args) (JS.prop (message_of data) "to") n)
    = Ok txHash ->
  Adapter.native_payment H args data w =
    (Ok (Some txHash),
     with_requests
       (requests w ++ [send_call (signer_of args)
                         (JS.prop (message_of data) "to") n])
       (with_slots (eip2612_permit w) (eip2612_transfer w)
          (native_artifact txHash (signer_of args)
             (JS.prop (message_of data) "to") amount) w)).
Proof.
  intros Ha Hp Hd Hv Hn Hs.
  unfold amount_of, message_of in Hv.
  unfold Adapter.native_payment. page_unfold.
  rewrite Ha. page_simpl. rewrite Hp. page_simpl. rewrite Hd. page_simpl.
  rewrite Hv. unfold JS.BigInt. cbn [JS.ToString]. rewrite Hn. page_simpl.
  unfold with_requests, with_slots, native_artifact.
  unfold send_call, call, signer_of, message_of in *.
  rewrite Hs. page_simpl. reflexivity.
Qed.

(** ** The body of the [try] *)

Lemma intercept_frame s args w r w' :
  intercept_of s H TOKEN args w = (r, w') ->
  x402 w' = x402 w /\ clock w' = clock w /\ fetches w' = fetches w
  /\ (forall e, r = Throw e -> slots w' = slots w)
  /\ (r = Ok None -> w' = w)
  /\ (native_mode s TOKEN = false ->
      nativePaymentData w' = nativePaymentData w)
  /\ (native_mode s TOKEN = true ->
      eip2612_permit w' = eip2612_permit w
      /\ eip2612_transfer w' = eip2612_transfer w).
Proof.
  destruct s; unfold intercept_of, native_mode, Adapter.intercept,
    PaywallAdapter.intercept; rewrite <- ?permit_signature_same;
    page_unfold; page_break; intros E;
    try (inversion E; subst; clear E; unfold slots; page_simpl;
         repeat split; try reflexivity; try discriminate; fail).
  - apply native_payment_frame in E.
    destruct E as (E1 & E2 & E3 & E4 & E5 & E6 & E7).
    repeat split; try assumption;
      solve [ intros; discriminate | intros; contradiction
            | intros; assumption ].
  - apply permit_signature_frame in E.
    destruct E as (E1 & E2 & E3 & E4 & E5 & E6).
    repeat split; try assumption;
      solve [ intros; discriminate | intros; contradiction
            | intros; assumption ].
  - apply permit_signature_frame in E.
    destruct E as (E1 & E2 & E3 & E4 & E5 & E6).
    repeat split; try assumption;
      solve [ intros; discriminate | intros; contradiction
            | intros; assumption ].
Qed.

(** The wrapper in terms of the body of its [try]. *)
Lemma request_sign s args w :
  JS.nullish args = false ->
  JS.is_string (JS.prop args "method") sign_method = true ->
  request_of s H TOKEN args w =
    match intercept_of s H TOKEN args w with
    | (Ok (Some v), w') => (Ok v, w')
    | (_, w') => Page.origRequest H args w'
    end.
Proof.
  intros Ha Hm. unfold sign_method in Hm.
  destruct s; unfold request_of, intercept_of, Adapter.request,
    PaywallAdapter.request;
    unfold Page.bind at 1; unfold Page.get; rewrite Ha;
    unfold Page.ret at 1; rewrite Hm;
    unfold Page.bind, Page.try_catch;
    match goal with
    | |- context [?f H TOKEN args w] => destruct (f H TOKEN args w) as [[[v|]|e] w']
    end; reflexivity.
Qed.

(** C4. On a typed-data signing call, whatever exception the
    interception raises (while reading and parsing the payload, in the
    nonce read, while reshaping, or in the signing or sending step) is
    caught: no artifact is stored, nothing of it reaches the caller, and
    the caller's own unmodified request goes to the original entry
    point, whose answer is the answer of the call. *)
Theorem fail_open (s : script) (args : value) (w w1 : world) (e : exn) :
  JS.nullish args = false ->
  JS.is_string (JS.prop args "method") sign_method = true ->
  intercept_of s H TOKEN args w = (Throw e, w1) ->
  request_of s H TOKEN args w = Page.origRequest H args w1
  /\ slots w1 = slots w.
Proof.
  intros Ha Hm Hi. split.
  - rewrite (request_sign s args w Ha Hm), Hi. reflexivity.
  - destruct (intercept_frame s args w _ _ Hi) as (_ & _ & _ & Hs & _).
    now apply (Hs e).
Qed.

(** A nonce read that the provider rejects is such an exception. *)
Lemma nonce_read_rejected s args data owner reason w :
  authorizes H args data ->
  native_mode s TOKEN = false ->
  signer_of args = VStr owner ->
  provider H (requests w) (nonce_call TOKEN owner) = Throw reason ->
  intercept_of s H TOKEN args w =
    (Throw reason, with_requests (requests w ++ [nonce_call TOKEN owner]) w).
Proof.
  intros Hauth Hn Ho Hr.
  destruct (authorizes_inv args data Hauth) as (Ha & Hm & Hp & Hj & Ht & Hd).
  unfold signer_of in Ho.
  assert (E : Adapter.permit_signature H TOKEN args data w =
              (Throw reason,
               with_requests (requests w ++ [nonce_call TOKEN owner]) w)).
  { unfold Adapter.permit_signature, Adapter.address_word. page_unfold.
    rewrite Hd, Ha. page_simpl. rewrite Hp. page_simpl. rewrite Ho.
    page_simpl. unfold nonce_call, call in Hr. rewrite Hr. reflexivity. }
  destruct s; unfold intercept_of, native_mode in *;
    unfold Adapter.intercept, PaywallAdapter.intercept;
    rewrite <- ?permit_signature_same;
    unfold Page.bind, Page.get, Page.get_index, Page.parse;
    rewrite Ha; unfold Page.ret at 1; rewrite Hp; unfold Page.ret at 1;
    rewrite Hj; unfold Page.ret at 1; rewrite Ht, ?Hn; exact E.
Qed.

(** So is a signing call that the provider rejects, for instance when
    the user declines to sign the Permit. *)
Lemma signature_rejected s args data owner nonceHex reason w :
  authorizes H args data ->
  native_mode s TOKEN = false ->
  signer_of args = VStr owner ->
  provider H (requests w) (nonce_call TOKEN owner) = Ok nonceHex ->
  provider H (requests w ++ [nonce_call TOKEN owner])
    (permit_call TOKEN data owner nonceHex (clock w)) = Throw reason ->
  intercept_of s H TOKEN args w =
    (Throw reason,
     with_requests
       (requests w ++ [nonce_call TOKEN owner;
                       permit_call TOKEN data owner nonceHex (clock w)]) w).
Proof.
  intros Hauth Hn Ho Hr Hs.
  destruct (authorizes_inv args data Hauth) as (Ha & Hm & Hp & Hj & Ht & Hd).
  unfold signer_of in Ho.
  assert (E : Adapter.permit_signature H TOKEN args data w =
              (Throw reason,
               with_requests
                 (requests w ++ [nonce_call TOKEN owner;
                                 permit_call TOKEN data owner nonceHex
                                   (clock w)]) w)).
  { unfold Adapter.permit_signature, Adapter.address_word. page_unfold.
    rewrite Hd, Ha. page_simpl. rewrite Hp. page_simpl. rewrite Ho.
    page_simpl.
    unfold with_requests.
    unfold permit_call, reshaped, permit_typed_data, permit_deadline,
      nonce_call, call, sign_method, typed_field, destination_of, amount_of,
      message_of, domain_of in *.
    unfold Adapter.permit_types, Adapter.field, Adapter.PERMIT_DEADLINE.
    rewrite Hr. page_simpl. rewrite Hs. page_simpl.
    rewrite <- app_assoc. reflexivity. }
  destruct s; unfold intercept_of, native_mode in *;
    unfold Adapter.intercept, PaywallAdapter.intercept;
    rewrite <- ?permit_signature_same;
    unfold Page.bind, Page.get, Page.get_index, Page.parse;
    rewrite Ha; unfold Page.ret at 1; rewrite Hp; unfold Page.ret at 1;
    rewrite Hj; unfold Page.ret at 1; rewrite Ht, ?Hn; exact E.
Qed.

(** And so is a payload that [JSON.parse] refuses. *)
Lemma unparseable_payload s args w :
  JS.nullish args = false ->
  typed_data H args = None ->
  exists e, intercept_of s H TOKEN args w = (Throw e, w).
Proof.
  intros Ha Ht. unfold typed_data in Ht.
  destruct s; unfold intercept_of, Adapter.intercept, PaywallAdapter.intercept;
    page_unfold; rewrite Ha;
    destruct (JS.nullish (JS.prop args "params"));
    try (eexists; reflexivity); rewrite Ht; eexists; reflexivity.
Qed.

(** The ERC-20 conversion seen from the caller. *)
Lemma request_permit_run (s : script) (args data : value) (owner : utf16)
                         (nonceHex sig : value) (w : world) :
  authorizes H args data ->
  native_mode s TOKEN = false ->
  signer_of args = VStr owner ->
  provider H (requests w) (nonce_call TOKEN owner) = Ok nonceHex ->
  provider H (requests w ++ [nonce_call TOKEN owner])
    (permit_call TOKEN data owner nonceHex (clock w)) = Ok sig ->
  request_of s H TOKEN args w =
    (Ok sig,
     with_requests
       (requests w ++ [nonce_call TOKEN owner;
                       permit_call TOKEN data owner nonceHex (clock w)])
       (with_slots (permit_artifact data owner nonceHex (clock w) sig)
          (transfer_intent data owner) (nativePaymentData w) w)).
Proof.
  intros Hauth Hn Ho Hr Hs.
  destruct (authorizes_inv args data Hauth) as (Ha & Hm & Hp & Hj & Ht & Hd).
  rewrite (request_sign s args w Ha Hm).
  pose proof (permit_signature_run args data owner nonceHex sig w
                Ha Hp Hd Ho Hr Hs) as E.
  assert (Ei : intercept_of s H TOKEN args w =
               Adapter.permit_signature H TOKEN args data w).
  { destruct s; unfold intercept_of, native_mode in *;
      unfold Adapter.intercept, PaywallAdapter.intercept;
      rewrite <- ?permit_signature_same;
      unfold Page.bind, Page.get, Page.get_index, Page.parse;
      rewrite Ha; unfold Page.ret at 1; rewrite Hp; unfold Page.ret at 1;
      rewrite Hj; unfold Page.ret at 1; rewrite Ht, ?Hn; reflexivity. }
  rewrite Ei, E. reflexivity.
Qed.

End ProviderInterceptor.

Section IntegerLiterals.

Import Str.

Lemma is_digit_code c :
  is_digit c = true -> (48 <= nat_of_ascii c <= 57)%nat.
Proof.
  unfold is_digit. intros Hc. apply andb_true_iff in Hc as [H1 H2].
  apply Nat.leb_le in H1. apply Nat.leb_le in H2. lia.
Qed.

Lemma is_digit_unit c :
  is_digit c = true -> (48 <= N_of_ascii c <= 57)%N.
Proof.
  intros Hc. apply is_digit_code in Hc. unfold nat_of_ascii in Hc. lia.
Qed.

Lemma is_digit_not_space c :
  is_digit c = true -> JS.is_space (N_of_ascii c) = false.
Proof.
  intros Hc. apply is_digit_unit in Hc. unfold JS.is_space.
  repeat match goal with
         | |- context [(?x <=? ?y)%N] => destruct (N.leb_spec x y); try lia
         | |- context [(?x =? ?y)%N] => destruct (N.eqb_spec x y); try lia
         end; reflexivity.
Qed.

Lemma lit_cons c s : U16.lit (String c s) = UCons (N_of_ascii c) (U16.lit s).
Proof. reflexivity. Qed.

Lemma lit_app s t : U16.lit (s ++ t) = U16.lit s +++ U16.lit t.
Proof.
  induction s as [|c s IH]; [reflexivity|].
  cbn [String.append]. rewrite !lit_cons, IH. reflexivity.
Qed.

Lemma lit_nonempty s : U16.nonempty (U16.lit s) = nonempty s.
Proof. destruct s; reflexivity. Qed.

Lemma lit_length s : U16.length (U16.lit s) = String.length s.
Proof.
  induction s as [|c s IH]; [reflexivity|].
  rewrite lit_cons. cbn. now rewrite IH.
Qed.

Lemma lit_drop n s : U16.drop n (U16.lit s) = U16.lit (drop n s).
Proof.
  revert s. induction n as [|n IH]; intros [|c s]; try reflexivity.
  rewrite lit_cons. cbn [U16.drop drop]. apply IH.
Qed.

Lemma lit_repeat c n : U16.repeat (N_of_ascii c) n = U16.lit (repeat c n).
Proof.
  induction n as [|n IH]; [reflexivity|].
  cbn [U16.repeat repeat]. now rewrite lit_cons, IH.
Qed.

Lemma lit_padStart n c s :
  U16.padStart n c (U16.lit s) = U16.lit (padStart n c s).
Proof.
  unfold U16.padStart, padStart. now rewrite lit_length, lit_repeat, lit_app.
Qed.

Lemma lit_narrow s : U16.narrow (U16.lit s) = Some s.
Proof.
  induction s as [|c s IH]; [reflexivity|].
  rewrite lit_cons. cbn [U16.narrow]. rewrite IH.
  assert (Hc : (N_of_ascii c < 256)%N) by apply N_ascii_bounded.
  apply N.ltb_lt in Hc. rewrite Hc. now rewrite ascii_N_embedding.
Qed.

Lemma trim_digits s : all_digits s = true -> JS.trim (U16.lit s) = U16.lit s.
Proof.
  intros Hs. unfold JS.trim.
  assert (E : JS.trim_start (U16.lit s) = U16.lit s).
  { destruct s as [|c r]; [reflexivity|]. simpl in Hs.
    apply andb_true_iff in Hs as [Hc _]. rewrite lit_cons.
    cbn [JS.trim_start]. now rewrite (is_digit_not_space c Hc). }
  rewrite E. clear E.
  induction s as [|c r IH]; [reflexivity|].
  simpl in Hs. apply andb_true_iff in Hs as [Hc Hr].
  rewrite lit_cons. cbn [JS.trim_end].
  rewrite (is_digit_not_space c Hc), (IH Hr). reflexivity.
Qed.

Lemma digit_in_decimal c :
  is_digit c = true -> JS.digit_in 10 (N_of_ascii c) = Some (digit_val c).
Proof.
  intros Hc. pose proof (is_digit_unit c Hc) as Hn.
  unfold JS.digit_in, JS.digit_of, digit_val.
  destruct (N.leb_spec 48 (N_of_ascii c)); [|lia].
  destruct (N.leb_spec (N_of_ascii c) 57); [|lia].
  cbn [andb].
  replace (Z.of_N (N_of_ascii c)) with (Z.of_nat (nat_of_ascii c))
    by (unfold nat_of_ascii; lia).
  destruct (Z.ltb_spec (Z.of_nat (nat_of_ascii c) - 48) 10);
    [reflexivity|]. unfold nat_of_ascii in *. lia.
Qed.

Lemma all_digits_in_decimal acc s :
  all_digits s = true ->
  JS.all_digits_in 10 acc (U16.lit s) = Some (dec_value_from acc s).
Proof.
  revert acc. induction s as [|c r IH]; intros acc Hs; [reflexivity|].
  simpl in Hs. apply andb_true_iff in Hs as [Hc Hr].
  rewrite lit_cons. cbn [JS.all_digits_in dec_value_from].
  rewrite (digit_in_decimal c Hc). now apply IH.
Qed.

Lemma unit_eqb_ascii a c :
  N.eqb (N_of_ascii a) (N_of_ascii c) = Ascii.eqb a c.
Proof.
  destruct (Ascii.eqb_spec a c) as [-> | Hne]; [apply N.eqb_refl|].
  apply N.eqb_neq. intros E. apply Hne.
  rewrite <- (ascii_N_embedding a), <- (ascii_N_embedding c). now rewrite E.
Qed.

Lemma starts_with_sign a s :
  is_digit a = false -> all_digits s = true ->
  JS.starts_with (String a "") s = false.
Proof.
  intros Ha Hs. destruct s as [|c r]; [reflexivity|].
  simpl in Hs. apply andb_true_iff in Hs as [Hc _].
  rewrite !lit_cons. cbn [JS.starts_with]. rewrite unit_eqb_ascii.
  destruct (Ascii.eqb_spec a c); [congruence | reflexivity].
Qed.

Lemma starts_with_radix a b s :
  is_digit b = false -> all_digits s = true ->
  JS.starts_with (String a (String b "")) s = false.
Proof.
  intros Hb Hs. destruct s as [|c [|c2 r]]; rewrite ?lit_cons;
    cbn [JS.starts_with].
  - reflexivity.
  - apply andb_false_r.
  - simpl in Hs. apply andb_true_iff in Hs as [_ Hs].
    apply andb_true_iff in Hs as [Hc2 _]. rewrite !unit_eqb_ascii.
    destruct (Ascii.eqb_spec b c2); [congruence |].
    now rewrite andb_false_r.
Qed.

(** [BigInt] reads a non-empty string of decimal digits as the number
    they write. *)
Lemma StringToBigInt_decimal s :
  all_digits s = true -> s <> "" -> JS.StringToBigInt s = Some (dec_value s).
Proof.
  intros Hs Hne. unfold JS.StringToBigInt. cbn zeta.
  rewrite (trim_digits s Hs), lit_nonempty.
  destruct s as [|c r]; [contradiction|]. cbn [nonempty String.eqb negb].
  change (nonempty (String c r)) with true. cbn [negb].
  rewrite !starts_with_radix, !starts_with_sign by (assumption || reflexivity).
  cbn [orb]. unfold JS.integer_in. rewrite lit_cons.
  rewrite <- lit_cons. now apply all_digits_in_decimal.
Qed.

End IntegerLiterals.

Section NativeBranch.

Variable H : host.
Variable TOKEN : token.

(** The native branch of the wrapper for any amount string that
    [BigInt] reads. *)
Lemma native_conversion_any (args data : value) (amount : utf16) (n : Z)
                            (txHash : value) (w : world) :
  authorizes H args data ->
  Adapter.IS_NATIVE TOKEN = true ->
  amount_of data = VStr amount ->
  JS.StringToBigInt amount = Some n ->
  provider H (requests w)
    (send_call (signer_of args) (JS.prop (message_of data) "to") n)
    = Ok txHash ->
  Adapter.request H TOKEN args w =
    (Ok txHash,
     with_requests
       (requests w ++ [send_call (signer_of args)
                         (JS.prop (message_of data) "to") n])
       (with_slots (eip2612_permit w) (eip2612_transfer w)
          (native_artifact txHash (signer_of args)
             (JS.prop (message_of data) "to") amount) w)).
Proof.
  intros Hauth Hn Hv Hb Hs.
  destruct (authorizes_inv H args data Hauth)
    as (Ha & Hm & Hp & Hj & Ht & Hd).
  pose proof (request_sign H TOKEN NativeAware args w Ha Hm) as E.
  unfold request_of, intercept_of in E. rewrite E. clear E.
  assert (Ei : Adapter.intercept H TOKEN args w =
               Adapter.native_payment H args data w).
  { unfold Adapter.intercept;
      unfold Page.bind, Page.get, Page.get_index, Page.parse;
      rewrite Ha; unfold Page.ret at 1; rewrite Hp; unfold Page.ret at 1;
      rewrite Hj; unfold Page.ret at 1; rewrite Ht, Hn; reflexivity. }
  rewrite Ei.
  rewrite (native_payment_run H args data amount n txHash w
             Ha Hp Hd Hv Hb Hs).
  reflexivity.
Qed.


End NativeBranch.

(* ================================================================== *)
(** * The network call interceptor *)
(* ================================================================== *)

Section PropertyLists.

Lemma u16_eqb_refl s : U16.eqb s s = true.
Proof.
  induction s as [|u r IH]; [reflexivity|].
  cbn [U16.eqb]. now rewrite N.eqb_refl, IH.
Qed.

Lemma u16_eqb_eq s t : U16.eqb s t = true -> s = t.
Proof.
  revert t. induction s as [|u r IH]; intros [|v q] E; try discriminate E.
  - reflexivity.
  - cbn [U16.eqb] in E. apply andb_true_iff in E as [Eu Er].
    apply N.eqb_eq in Eu. subst v. now rewrite (IH q Er).
Qed.

Lemma u16_eqb_spec s t : reflect (s = t) (U16.eqb s t).
Proof.
  destruct (U16.eqb s t) eqn:E; constructor.
  - now apply u16_eqb_eq.
  - intros ->. rewrite u16_eqb_refl in E. discriminate.
Qed.

Lemma assoc_set_same k v ps : JS.assoc k (JS.assoc_set k v ps) = v.
Proof.
  induction ps as [|[k' v'] ps IH]; simpl.
  - now rewrite u16_eqb_refl.
  - destruct (U16.eqb k' k) eqn:E; simpl.
    + now rewrite u16_eqb_refl.
    + now rewrite E.
Qed.

Lemma assoc_set_other k j v ps :
  j <> k -> JS.assoc j (JS.assoc_set k v ps) = JS.assoc j ps.
Proof.
  intros Hjk. induction ps as [|[k' v'] ps IH]; simpl.
  - destruct (u16_eqb_spec k j); [congruence | reflexivity].
  - destruct (u16_eqb_spec k' k) as [-> | Hk]; simpl.
    + destruct (u16_eqb_spec k j); [congruence | reflexivity].
    + destruct (U16.eqb k' j); [reflexivity | exact IH].
Qed.

Lemma assoc_set_names k v ps :
  JS.truthy (JS.assoc k ps) = true ->
  map fst (JS.assoc_set k v ps) = map fst ps.
Proof.
  induction ps as [|[k' v'] ps IH]; simpl; intros Hk; [discriminate|].
  destruct (u16_eqb_spec k' k) as [-> | Hne]; simpl.
  - reflexivity.
  - now rewrite IH.
Qed.

(** A placeholder under [X-PAYMENT] passes the scripts' test. *)
Lemma placeholder_slot h :
  JS.truthy (JS.prop h "X-PAYMENT") = true -> payment_slot h = true.
Proof.
  intros Hp. unfold payment_slot, JS.or. rewrite Hp, Hp.
  destruct h; try discriminate Hp. reflexivity.
Qed.

(** The headers pass the scripts' test only when they are a plain
    object, and then the request has an options object. *)
Lemma payment_slot_shape args :
  payment_slot (headers_of args) = true ->
  exists input init rest hs,
    args = input :: VObj init :: rest /\ JS.assoc "headers" init = VObj hs.
Proof.
  unfold payment_slot, headers_of. intros Hs.
  apply andb_true_iff in Hs as [_ Hs].
  destruct args as [|input [|o rest]]; simpl in Hs; try discriminate.
  destruct o as [| | | | | |init|]; simpl in Hs; try discriminate.
  unfold JS.opt_prop in Hs. simpl in Hs.
  destruct (JS.assoc "headers" init) as [| | | | | |hs|] eqn:E;
    simpl in Hs; try discriminate.
  now exists input, init, rest, hs.
Qed.

(** What [with_payment] changes and what it keeps. *)
Lemma with_payment_spec args encoded :
  payment_slot (headers_of args) = true ->
  let sent := with_payment args encoded in
  JS.prop (headers_of sent) "X-PAYMENT" = VStr encoded
  /\ (forall k : utf16, k <> "X-PAYMENT" ->
                JS.prop (headers_of sent) k = JS.prop (headers_of args) k)
  /\ (forall k : utf16, k <> "headers" ->
                JS.prop (nth 1 sent VUndef) k = JS.prop (nth 1 args VUndef) k)
  /\ (forall i, i <> 1%nat -> nth i sent VUndef = nth i args VUndef)
  /\ List.length sent = List.length args.
Proof.
  intros Hs.
  destruct (payment_slot_shape args Hs) as (input & init & rest & hs & -> & Hh).
  unfold with_payment, headers_of. rewrite Hh. cbn [nth JS.opt_prop JS.nullish JS.prop].
  rewrite assoc_set_same. cbn [JS.prop]. rewrite Hh.
  repeat split.
  - apply assoc_set_same.
  - intros k Hk. now apply assoc_set_other.
  - intros k Hk. now apply assoc_set_other.
  - intros [|[|i]] Hi; try reflexivity. congruence.
Qed.

End PropertyLists.

Section NetworkInterceptor.

Variable H : host.
Variable TOKEN : token.

(** The wrapper, case by case. *)
Lemma fetch_cases s args w :
  fetch_of s H TOKEN args w =
    if payment_slot (headers_of args) && artifact_pending s TOKEN w
    then match pending_header s TOKEN w with
         | Ok encoded =>
             Page.origFetch H (with_payment args encoded) (consume s TOKEN w)
         | Throw _ => Page.origFetch H args w
         end
    else Page.origFetch H args w.
Proof.
  destruct (payment_slot (headers_of args)) eqn:Hs.
  - destruct (payment_slot_shape args Hs)
      as (input & init & rest & hs & -> & Hh).
    unfold payment_slot, headers_of in Hs.
    cbn [nth JS.opt_prop JS.nullish JS.prop] in Hs. rewrite Hh in Hs.
    cbn [JS.truthy JS.prop andb] in Hs.
    destruct s; unfold fetch_of, artifact_pending, pending_header, consume,
      native_mode, native_pending, permit_pending, with_payment,
      native_header, exact_header, payment_payload, network_of,
      Adapter.fetch, Adapter.substitute, PaywallAdapter.fetch,
      PaywallAdapter.substitute, Adapter.active_network,
      PaywallAdapter.active_network;
      page_unfold; cbn [nth JS.opt_prop JS.nullish JS.prop];
      rewrite Hh; cbn [JS.truthy JS.prop andb]; rewrite ?Hs; page_simpl.
    + destruct (Adapter.IS_NATIVE TOKEN && JS.truthy (nativePaymentData w))
        eqn:En; page_simpl.
      { destruct (JS.btoa _) as [encoded | e]; page_simpl; reflexivity. }
      destruct (JS.truthy (eip2612_permit w)) eqn:Ep; page_simpl;
        [|reflexivity].
      destruct (JS.btoa _) as [encoded | e]; page_simpl; reflexivity.
    + destruct (JS.truthy (eip2612_permit w)) eqn:Ep; cbn [andb];
        page_simpl; [|reflexivity].
      destruct (JS.btoa _) as [encoded | e]; page_simpl; reflexivity.
  - cbn [andb].
    unfold payment_slot in Hs.
    destruct s; unfold fetch_of, Adapter.fetch, Adapter.substitute,
      PaywallAdapter.fetch, PaywallAdapter.substitute;
      fold (headers_of args); page_unfold; page_simpl.
    + destruct (JS.truthy (headers_of args)); [|reflexivity].
      cbn [andb] in Hs. rewrite Hs. reflexivity.
    + destruct (JS.truthy (headers_of args)); cbn [andb] in *.
      * rewrite Hs, andb_true_r.
        destruct (JS.truthy (eip2612_permit w)); reflexivity.
      * rewrite andb_false_r. reflexivity.
Qed.

(** ** The states the page can be in *)

(** Which slots a signing call can touch. *)
Lemma request_frame s args w :
  let w' := snd (request_of s H TOKEN args w) in
  (native_mode s TOKEN = false ->
   nativePaymentData w' = nativePaymentData w)
  /\ (native_mode s TOKEN = true ->
      eip2612_permit w' = eip2612_permit w
      /\ eip2612_transfer w' = eip2612_transfer w).
Proof.
  cbn zeta.
  destruct (JS.nullish args) eqn:Ha.
  { destruct s; unfold request_of, Adapter.request, PaywallAdapter.request;
      unfold Page.bind at 1; unfold Page.get; rewrite Ha;
      unfold Page.throw; cbn [snd]; auto. }
  destruct (JS.is_string (JS.prop args "method") sign_method) eqn:Hm.
  - rewrite (request_sign H TOKEN s args w Ha Hm).
    destruct (intercept_of s H TOKEN args w) as [r w1] eqn:Hi.
    destruct (intercept_frame H TOKEN s args w r w1 Hi)
      as (_ & _ & _ & _ & _ & Hn & Hp).
    destruct r as [[v|]|e]; unfold Page.origRequest; cbn [snd];
      page_simpl; auto.
  - unfold sign_method in Hm.
    destruct s; unfold request_of, Adapter.request, PaywallAdapter.request;
      unfold Page.bind, Page.get; rewrite Ha; unfold Page.ret;
      rewrite Hm; unfold Page.origRequest; cbn [snd]; page_simpl; auto.
Qed.

(** In every reachable state the slots that the script's mode does not
    use have never been written. *)
Lemma reachable_slots s w :
  reachable s H TOKEN w ->
  if native_mode s TOKEN
  then eip2612_permit w = VUndef /\ eip2612_transfer w = VUndef
  else nativePaymentData w = VUndef.
Proof.
  induction 1 as [w Hw | w args Hr IH | w args Hr IH | w d t Hr IH].
  - unfold pristine, slots in Hw. inversion Hw.
    destruct (native_mode s TOKEN); auto.
  - destruct (request_frame s args w) as [Hn Hp].
    destruct (native_mode s TOKEN).
    + destruct (Hp eq_refl) as [-> ->]. exact IH.
    + rewrite (Hn eq_refl). exact IH.
  - rewrite fetch_cases.
    destruct (payment_slot (headers_of args) && artifact_pending s TOKEN w);
      [|unfold Page.origFetch; cbn [snd]; page_simpl; exact IH].
    destruct (pending_header s TOKEN w) as [encoded | e];
      [|unfold Page.origFetch; cbn [snd]; page_simpl; exact IH].
    unfold consume, Page.origFetch.
    destruct (native_mode s TOKEN) eqn:En; cbn [andb];
      [destruct (native_pending w)|]; cbn [snd]; unfold with_slots;
      page_simpl; auto.
  - unfold with_page. page_simpl. exact IH.
Qed.


Lemma assoc_set_names_in k v ps :
  In k (map fst ps) -> map fst (JS.assoc_set k v ps) = map fst ps.
Proof.
  induction ps as [|[k' v'] ps IH]; cbn [map fst In JS.assoc_set];
    intros Hi; [contradiction|].
  destruct (u16_eqb_spec k' k) as [-> | Hne]; [reflexivity|].
  cbn [map fst]. f_equal. apply IH. destruct Hi; [contradiction | assumption].
Qed.

Lemma assoc_set_names_new k v ps :
  ~ In k (map fst ps) ->
  map fst (JS.assoc_set k v ps) = (map fst ps ++ [k])%list.
Proof.
  induction ps as [|[k' v'] ps IH]; cbn [map fst In JS.assoc_set app];
    intros Hi; [reflexivity|].
  destruct (u16_eqb_spec k' k) as [-> | Hne]; [exfalso; apply Hi; now left|].
  cbn [map fst]. f_equal. apply IH. intros Hk. apply Hi. now right.
Qed.

(** The header names after the write: the same when [X-PAYMENT] was
    among them, one more otherwise. *)
Lemma with_payment_names args encoded :
  payment_slot (headers_of args) = true ->
  (In (U16.lit "X-PAYMENT") (header_names (headers_of args)) ->
   header_names (headers_of (with_payment args encoded))
   = header_names (headers_of args))
  /\ (~ In (U16.lit "X-PAYMENT") (header_names (headers_of args)) ->
      header_names (headers_of (with_payment args encoded))
      = (header_names (headers_of args) ++ [U16.lit "X-PAYMENT"])%list).
Proof.
  intros Hs.
  destruct (payment_slot_shape args Hs) as (input & init & rest & hs & -> & Hh).
  unfold with_payment, headers_of.
  cbn [nth JS.opt_prop JS.nullish JS.prop]. rewrite Hh.
  cbn [nth JS.opt_prop JS.nullish JS.prop].
  rewrite assoc_set_same. cbn [header_names].
  split; [apply assoc_set_names_in | apply assoc_set_names_new].
Qed.


(** C6, as the scripts have it. An outgoing request whose headers are
    not a native [Headers] collection gets its payment header
    substituted, and the pending artifact consumed, exactly when a
    pending artifact is stored, the headers are a plain object with a
    truthy value under the key [X-PAYMENT] or under the key [x-payment],
    and [btoa] accepts the JSON text of the payload; every other such
    request is forwarded unchanged. *)
Theorem header_detection (s : script) (args : list value) (w : world) :
  (forall es, headers_of args <> VHeaders es) ->
  (forall encoded,
     payment_slot (headers_of args) = true ->
     artifact_pending s TOKEN w = true ->
     pending_header s TOKEN w = Ok encoded ->
     fetch_of s H TOKEN args w =
       Page.origFetch H (with_payment args encoded) (consume s TOKEN w)
     /\ slots (consume s TOKEN w) <> slots w
     /\ JS.prop (headers_of (with_payment args encoded)) "X-PAYMENT"
        = VStr encoded)
  /\ (payment_slot (headers_of args) = false
      \/ artifact_pending s TOKEN w = false
      \/ (exists e, pending_header s TOKEN w = Throw e) ->
      fetch_of s H TOKEN args w = Page.origFetch H args w).
Proof.
  intros _. split.
  - intros encoded Hs E He. rewrite fetch_cases, Hs, E, He.
    split; [reflexivity|].
    split; [|now apply with_payment_spec].
    unfold artifact_pending in E. unfold consume, slots, with_slots.
    destruct (native_mode s TOKEN && native_pending w) eqn:En; page_simpl.
    + apply andb_true_iff in En as [_ En]. unfold native_pending in En.
      intros C. inversion C as [C']. rewrite <- C' in En. discriminate.
    + cbn [orb] in E. unfold permit_pending in E.
      intros C. inversion C as [[C' C'']]. rewrite <- C' in E. discriminate.
  - rewrite fetch_cases. intros [Hs | [Ha | (e & He)]].
    + now rewrite Hs.
    + now rewrite Ha, andb_false_r.
    + rewrite He.
      destruct (payment_slot (headers_of args) && artifact_pending s TOKEN w);
        reflexivity.
Qed.

End NetworkInterceptor.

(* ================================================================== *)
(** * One slot, two scripts *)
(* ================================================================== *)

Section SingleSlot.

Variable H : host.
Variable TOKEN : token.

(** A conversion does not look at the slots: from a page that differs
    in them only, it runs the same and stores the same. *)
Lemma intercept_erase s args w p t n :
  intercept_of s H TOKEN args (with_slots p t n w) =
    let (r, w') := intercept_of s H TOKEN args w in
    (r, match r with
        | Ok (Some _) =>
            if native_mode s TOKEN
            then with_slots p t (nativePaymentData w') w'
            else with_slots (eip2612_permit w') (eip2612_transfer w') n w'
        | _ => with_slots p t n w'
        end).
Proof.
  destruct s; unfold intercept_of, native_mode, Adapter.intercept,
    PaywallAdapter.intercept, Adapter.permit_signature,
    PaywallAdapter.permit_signature, Adapter.native_payment,
    Adapter.address_word, PaywallAdapter.address_word, with_slots;
    page_unfold; page_break; reflexivity.
Qed.

(** What a successful conversion leaves in the slot is its own
    answer. *)
Lemma intercept_stored s args w answer w' :
  intercept_of s H TOKEN args w = (Ok (Some answer), w') ->
  if native_mode s TOKEN
  then JS.prop (nativePaymentData w') "txHash" = answer
  else JS.prop (eip2612_permit w') "signature" = answer.
Proof.
  destruct s; unfold intercept_of, native_mode, Adapter.intercept,
    PaywallAdapter.intercept, Adapter.permit_signature,
    PaywallAdapter.permit_signature, Adapter.native_payment,
    Adapter.address_word, PaywallAdapter.address_word;
    page_unfold; page_break; intros E; inversion E; subst; reflexivity.
Qed.

Lemma converts_request s args w answer w' :
  converts s H TOKEN args w answer w' ->
  request_of s H TOKEN args w = (Ok answer, w').
Proof.
  intros (Ha & Hm & Hi). rewrite (request_sign H TOKEN s args w Ha Hm), Hi.
  reflexivity.
Qed.

Lemma converts_reachable s args w answer w' :
  reachable s H TOKEN w -> converts s H TOKEN args w answer w' ->
  reachable s H TOKEN w'.
Proof.
  intros Hr Hc. apply converts_request in Hc.
  replace w' with (snd (request_of s H TOKEN args w))
    by (rewrite Hc; reflexivity).
  now apply reach_request.
Qed.

(** C9. In every state that signing calls and outgoing requests can
    bring the page to, the permit slot and the native slot are never
    both populated; and the slot is single: when a second signing call
    is converted before any request consumed the first artifact, the
    page is exactly what it would be had the first artifact never been
    stored, and what the slot holds is the second call's answer. *)
Theorem single_slot (s : script) (w : world) :
  reachable s H TOKEN w ->
  permit_pending w && native_pending w = false
  /\ forall args1 answer1 w1 args2 answer2 w2,
       converts s H TOKEN args1 w answer1 w1 ->
       converts s H TOKEN args2 w1 answer2 w2 ->
       converts s H TOKEN args2 (erase w1) answer2 w2
       /\ (if native_mode s TOKEN
           then JS.prop (nativePaymentData w2) "txHash" = answer2
           else JS.prop (eip2612_permit w2) "signature" = answer2).
Proof.
  intros Hr. split.
  - pose proof (reachable_slots H TOKEN s w Hr) as Hi.
    unfold permit_pending, native_pending.
    destruct (native_mode s TOKEN).
    + destruct Hi as [-> _]. reflexivity.
    + rewrite Hi. apply andb_false_r.
  - intros args1 answer1 w1 args2 answer2 w2 Hc1 Hc2.
    pose proof (converts_reachable s args1 w answer1 w1 Hr Hc1) as Hr1.
    pose proof (converts_reachable s args2 w1 answer2 w2 Hr1 Hc2) as Hr2.
    pose proof (reachable_slots H TOKEN s w2 Hr2) as Hi2.
    destruct Hc2 as (Ha & Hm & Hi).
    split; [|exact (intercept_stored s args2 w1 answer2 w2 Hi)].
    repeat split; try assumption.
    unfold erase. rewrite intercept_erase, Hi.
    f_equal. destruct w2 as [p t n x c r f]. unfold with_slots.
    cbn [eip2612_permit eip2612_transfer nativePaymentData x402 clock
         requests fetches] in *.
    destruct (native_mode s TOKEN).
    + destruct Hi2 as [-> ->]. reflexivity.
    + rewrite Hi2. reflexivity.
Qed.

End SingleSlot.

Section TwoScripts.

Variable H : host.

Lemma intercept_same TOKEN args w :
  Adapter.IS_NATIVE TOKEN = false ->
  Adapter.intercept H TOKEN args w = PaywallAdapter.intercept H TOKEN args w.
Proof.
  intros Hn. unfold Adapter.intercept, PaywallAdapter.intercept.
  rewrite Hn. reflexivity.
Qed.

Lemma request_same TOKEN args w :
  Adapter.IS_NATIVE TOKEN = false ->
  Adapter.request H TOKEN args w = PaywallAdapter.request H TOKEN args w.
Proof.
  intros Hn. unfold Adapter.request, PaywallAdapter.request.
  unfold Page.bind at 1 3.
  destruct (Page.get args "method" w) as [[m|e] w1]; [|reflexivity].
  destruct (JS.is_string m "eth_signTypedData_v4"); [|reflexivity].
  unfold Page.bind, Page.try_catch. now rewrite intercept_same.
Qed.

(** Both scripts copy everything but the name and the version from the
    page's configuration. *)
Lemma load_fields window_token window_x402 tA tB :
  Adapter.load window_token window_x402 = Some tA ->
  PaywallAdapter.load window_token window_x402 = Some tB ->
  symbol tA = symbol tB /\ address tA = address tB
  /\ decimals tA = decimals tB /\ native tA = native tB.
Proof.
  unfold Adapter.load, PaywallAdapter.load.
  repeat match goal with
         | |- context [if ?b then _ else _] => destruct b
         end;
    intros EA EB; inversion EA; inversion EB; subst; cbn;
    repeat split; reflexivity.
Qed.

(** Without an [extra] in the descriptor the two scripts read the same
    token. *)
Lemma load_without_extra window_token window_x402 tA tB :
  JS.truthy (JS.opt_prop (Page.requirement window_x402) "extra") = false ->
  Adapter.load window_token window_x402 = Some tA ->
  PaywallAdapter.load window_token window_x402 = Some tB ->
  tA = tB.
Proof.
  unfold Adapter.load, PaywallAdapter.load. intros ->.
  repeat match goal with
         | |- context [if ?b then _ else _] => destruct b
         end;
    intros EA EB; inversion EA; inversion EB; subst; reflexivity.
Qed.

(** C10, as the scripts have it. For a token that is not native, the
    provider wrappers of the two scripts answer every call alike (the
    same calls to the provider, the same reshaped Permit, the same
    stored permit artifact and transfer intent, the same result)
    whenever their two ways of merging the configured name and version
    with the descriptor's [extra] end in the same name and the same
    version; and they do end in the same token when the descriptor has
    no [extra]. *)
Theorem erc20_paths_agree (window_token window_x402 : value)
                          (tA tB : token) :
  Adapter.load window_token window_x402 = Some tA ->
  PaywallAdapter.load window_token window_x402 = Some tB ->
  Adapter.IS_NATIVE tA = false ->
  (name tA = name tB -> version tA = version tB ->
   forall args w,
     request_of NativeAware H tA args w = request_of Erc20Only H tB args w)
  /\ (JS.truthy (JS.opt_prop (Page.requirement window_x402) "extra") = false ->
      tA = tB).
Proof.
  intros LA LB Hn. split.
  - intros En Ev args w.
    destruct (load_fields _ _ _ _ LA LB) as (Es & Ea & Ed & Ent).
    assert (E : tA = tB).
    { destruct tA, tB. cbn in *. congruence. }
    subst tB. unfold request_of. now apply request_same.
  - intros Hx. exact (load_without_extra _ _ _ _ Hx LA LB).
Qed.

End TwoScripts.

(* ================================================================== *)
(** * The worked examples, run *)
(* ================================================================== *)

Section Examples.

Import Example.

(** The ERC-20 conversion example: the Permit that the wallet is asked
    to sign carries nonce 5, the value and the spender of the original
    message, the original domain name, and a deadline an hour after
    the clock. *)
Example erc20_conversion_example :
  let data := reshaped usdc usdc_transfer "0xOwner" nonce_5 (clock start) in
  JS.prop data "primaryType" = VStr "Permit"
  /\ JS.prop (JS.prop data "message") "nonce" = VInt 5
  /\ JS.prop (JS.prop data "message") "value" = VStr "1000000"
  /\ JS.prop (JS.prop data "message") "spender" = VStr "0xSpender"
  /\ JS.prop (JS.prop data "message") "deadline" = VStr "1700003600"
  /\ JS.prop (JS.prop data "domain") "name" = VStr "USDC"
  /\ JS.prop (JS.prop data "domain") "chainId" = VInt 84532.
Proof. vm_compute. repeat split. Qed.

(** The native conversion example: two native coins are
    [0x1bc16d674ec80000] wei. *)
Example native_conversion_example :
  send_call (VStr "0xOwner") (VStr "0xRecipient") 2000000000000000000 =
    call "eth_sendTransaction"
      [VObj [("from", VStr "0xOwner"); ("to", VStr "0xRecipient");
             ("value", VStr "0x1bc16d674ec80000")]].
Proof. reflexivity. Qed.

Lemma pass_through_witness :
  JS.nullish (call "eth_accounts" []) = false
  /\ transfer_authorization page (call "eth_accounts" []) = false
  /\ request_of NativeAware page usdc (call "eth_accounts" []) start =
       Page.origRequest page (call "eth_accounts" []) start.
Proof.
  split; [reflexivity | split; [reflexivity |]].
  apply (pass_through page usdc NativeAware (call "eth_accounts" []) start);
    reflexivity.
Defined.

(** C3 fails as stated. A call without an argument is not a transfer
    authorization; the provider would receive it, but the wrapper reads
    [args.method] first and throws a [TypeError] of its own: nothing is
    forwarded. *)
Lemma pass_through_counterexample :
  transfer_authorization page VUndef = false
  /\ fst (Page.origRequest page VUndef start) = Ok (VArr [VStr "0xOwner"])
  /\ requests (snd (Page.origRequest page VUndef start)) = [VUndef]
  /\ request_of NativeAware page usdc VUndef start = (Throw TypeError, start)
  /\ request_of Erc20Only page usdc VUndef start = (Throw TypeError, start)
  /\ request_of NativeAware page usdc VUndef start
     <> Page.origRequest page VUndef start.
Proof.
  split; [reflexivity |]. split; [reflexivity |]. split; [reflexivity |].
  split; [reflexivity |]. split; [reflexivity |]. discriminate.
Qed.

Lemma fail_open_witness :
  JS.nullish (sign_request "0xOwner" usdc_transfer) = false
  /\ JS.is_string (JS.prop (sign_request "0xOwner" usdc_transfer) "method")
       sign_method = true
  /\ intercept_of Erc20Only failing_page usdc
       (sign_request "0xOwner" usdc_transfer) start =
       (Throw (Rejected (VStr "execution reverted")),
        with_requests [nonce_call usdc "0xOwner"] start)
  /\ request_of Erc20Only failing_page usdc
       (sign_request "0xOwner" usdc_transfer) start =
       Page.origRequest failing_page (sign_request "0xOwner" usdc_transfer)
         (with_requests [nonce_call usdc "0xOwner"] start)
  /\ slots (with_requests [nonce_call usdc "0xOwner"] start) = slots start.
Proof.
  split; [reflexivity | split; [reflexivity | split; [vm_compute; reflexivity |]]].
  apply (fail_open failing_page usdc Erc20Only
           (sign_request "0xOwner" usdc_transfer) start
           (with_requests [nonce_call usdc "0xOwner"] start)
           (Rejected (VStr "execution reverted")));
    vm_compute; reflexivity.
Defined.

Lemma authorizes_usdc :
  authorizes page (sign_request "0xOwner" usdc_transfer) usdc_transfer.
Proof. unfold authorizes. repeat split; vm_compute; reflexivity. Defined.





(** The header substitution example: the payload that the server reads
    from the header of the forwarded request. *)
Example header_substitution_example :
  exact_header (signed Erc20Only) =
    JS.btoa
      (JS.JSON_stringify
         (VObj [("x402Version", VInt 1); ("scheme", VStr "exact");
                ("network", VStr "base");
                ("payload",
                  VObj [("permit",
                          VObj [("owner", VStr "0xOwner");
                                ("spender", VStr "0xSpender");
                                ("value", VStr "1000000");
                                ("nonce", VInt 5);
                                ("deadline", VStr "1700003600");
                                ("signature", VStr "0xSignature")]);
                        ("transfer",
                          VObj [("from", VStr "0xOwner");
                                ("to", VStr "0xSpender");
                                ("amount", VStr "1000000")])])])).
Proof. vm_compute. reflexivity. Qed.


(** A placeholder spelled [x-payment] is detected as well, but the
    encoded payload is written under [X-PAYMENT]: the forwarded header map
    holds both, the placeholder still in its place. *)
Example lowercase_placeholder_stays :
  exists encoded,
    exact_header (signed Erc20Only) = Ok encoded
    /\ let sent := with_payment (paid_request "x-payment") encoded in
       fetch_of Erc20Only page usdc (paid_request "x-payment")
         (signed Erc20Only) =
         Page.origFetch page sent (erase (signed Erc20Only))
       /\ header_names (headers_of sent) = ["Accept"; "x-payment"; "X-PAYMENT"]
       /\ JS.prop (headers_of sent) "x-payment" = VStr "placeholder".
Proof.
  eexists. split; [vm_compute; reflexivity |]. vm_compute. repeat split.
Qed.

Lemma plain_headers key es : headers_of (paid_request key) <> VHeaders es.
Proof. discriminate. Defined.

Lemma header_detection_witness :
  fetch_of NativeAware page usdc (paid_request "x-payment")
    (signed NativeAware)
  = Page.origFetch page
      (with_payment (paid_request "x-payment")
         (encoded_text (pending_header NativeAware usdc (signed NativeAware))))
      (consume NativeAware usdc (signed NativeAware)).
Proof.
  assert (Hs : payment_slot (headers_of (paid_request "x-payment")) = true)
    by (vm_compute; reflexivity).
  assert (Ha : artifact_pending NativeAware usdc (signed NativeAware) = true)
    by (vm_compute; reflexivity).
  assert (He : pending_header NativeAware usdc (signed NativeAware)
               = Ok (encoded_text
                       (pending_header NativeAware usdc (signed NativeAware))))
    by (vm_compute; reflexivity).
  exact (proj1 (proj1 (header_detection page usdc NativeAware
                         (paid_request "x-payment") (signed NativeAware)
                         (plain_headers "x-payment"))
                  _ Hs Ha He)).
Defined.

(** C6 fails as stated. The request below carries the payment header
    as [X-Payment] while a permit artifact is pending, and it is
    forwarded as it came, the artifact still pending; and a request that
    carries [X-PAYMENT] on a page with nothing pending is forwarded as it
    came too. *)
Lemma header_detection_counterexample :
  carries_payment_header (headers_of (paid_request "X-Payment")) = true
  /\ permit_pending (signed NativeAware) = true
  /\ fetch_of NativeAware page usdc (paid_request "X-Payment")
       (signed NativeAware) =
     Page.origFetch page (paid_request "X-Payment") (signed NativeAware)
  /\ carries_payment_header (headers_of (paid_request "X-PAYMENT")) = true
  /\ fetch_of NativeAware page usdc (paid_request "X-PAYMENT") start =
     Page.origFetch page (paid_request "X-PAYMENT") start.
Proof. repeat split; vm_compute; reflexivity. Qed.

(** The same happens to a native [Headers] collection, whatever the
    casing: reading a header as a property of the collection finds
    nothing. *)
Lemma native_headers_not_detected :
  carries_payment_header (headers_of paid_request_native_headers) = true
  /\ permit_pending (signed Erc20Only) = true
  /\ fetch_of Erc20Only page usdc paid_request_native_headers
       (signed Erc20Only) =
     Page.origFetch page paid_request_native_headers (signed Erc20Only).
Proof. repeat split; vm_compute; reflexivity. Qed.

Lemma converts_first :
  converts Erc20Only page usdc (sign_request "0xOwner" usdc_transfer) start
    (VStr "0xSignature") (signed Erc20Only).
Proof. unfold converts. repeat split; vm_compute; reflexivity. Defined.

Lemma converts_second :
  converts Erc20Only page usdc (sign_request "0xOther" usdc_transfer)
    (signed Erc20Only) (VStr "0xSignature") (signed_twice Erc20Only).
Proof. unfold converts. repeat split; vm_compute; reflexivity. Defined.

Lemma single_slot_witness :
  reachable Erc20Only page usdc start
  /\ permit_pending start && native_pending start = false
  /\ converts Erc20Only page usdc (sign_request "0xOther" usdc_transfer)
       (erase (signed Erc20Only)) (VStr "0xSignature")
       (signed_twice Erc20Only).
Proof.
  pose proof (single_slot page usdc Erc20Only start
                (reach_start Erc20Only page usdc start eq_refl)) as [E1 E2].
  split; [apply reach_start; reflexivity |].
  split; [exact E1 |].
  exact (proj1 (E2 _ _ _ _ _ _ converts_first converts_second)).
Defined.

(** Two conversions in a row on the example page: the permit slot holds
    the second signature only. *)
Example second_signature_wins :
  let first := sign_request "0xOwner" usdc_transfer in
  let second := sign_request "0xOther" usdc_transfer in
  let w1 := snd (request_of Erc20Only page usdc first start) in
  let w2 := snd (request_of Erc20Only page usdc second w1) in
  JS.prop (eip2612_permit w1) "owner" = VStr "0xOwner"
  /\ JS.prop (eip2612_permit w2) "owner" = VStr "0xOther"
  /\ slots w2 = slots (snd (request_of Erc20Only page usdc second (erase w1))).
Proof. vm_compute. repeat split. Qed.

Lemma erc20_paths_agree_witness :
  Adapter.load usdc_token descriptor = Some usdc
  /\ PaywallAdapter.load usdc_token descriptor = Some usdc
  /\ Adapter.IS_NATIVE usdc = false
  /\ request_of NativeAware page usdc
       (sign_request "0xOwner" usdc_transfer) start =
     request_of Erc20Only page usdc
       (sign_request "0xOwner" usdc_transfer) start.
Proof.
  split; [reflexivity |]. split; [reflexivity |]. split; [reflexivity |].
  exact (proj1 (erc20_paths_agree page usdc_token descriptor usdc usdc
                  eq_refl eq_refl eq_refl)
           eq_refl eq_refl (sign_request "0xOwner" usdc_transfer) start).
Defined.

(** C10 fails as stated. On a page whose configuration names the token
    [Configured], version 1, and whose descriptor advertises
    [Advertised], version 2, the first script signs a Permit for
    [Configured] and the second one for [Advertised]. *)
Lemma erc20_paths_counterexample :
  Adapter.load named_token named_descriptor = Some configured
  /\ PaywallAdapter.load named_token named_descriptor = Some advertised
  /\ Adapter.IS_NATIVE configured = false
  /\ authorizes page (sign_request "0xOwner" usdc_transfer) usdc_transfer
  /\ nth 1 (requests (snd (request_of NativeAware page configured
                             (sign_request "0xOwner" usdc_transfer) start)))
       VUndef
     = permit_call configured usdc_transfer "0xOwner" nonce_5 (clock start)
  /\ nth 1 (requests (snd (request_of Erc20Only page advertised
                             (sign_request "0xOwner" usdc_transfer) start)))
       VUndef
     = permit_call advertised usdc_transfer "0xOwner" nonce_5 (clock start)
  /\ permit_call configured usdc_transfer "0xOwner" nonce_5 (clock start)
     <> permit_call advertised usdc_transfer "0xOwner" nonce_5 (clock start)
  /\ request_of NativeAware page configured
       (sign_request "0xOwner" usdc_transfer) start
     <> request_of Erc20Only page advertised
          (sign_request "0xOwner" usdc_transfer) start.
Proof.
  split; [reflexivity |]. split; [reflexivity |]. split; [reflexivity |].
  split; [exact authorizes_usdc |].
  split; [vm_compute; reflexivity |]. split; [vm_compute; reflexivity |].
  split; intros E; vm_compute in E; discriminate E.
Qed.

End Examples.

(* ================================================================== *)
(** * More on the token amount formatter *)
(* ================================================================== *)

Section FormatterShape.

Import Str.

Lemma digit_char_nonzero d : 1 <= d < 10 -> digit_char d <> "0"%char.
Proof.
  intros Hd.
  assert (E : d = 1 \/ d = 2 \/ d = 3 \/ d = 4 \/ d = 5 \/ d = 6
              \/ d = 7 \/ d = 8 \/ d = 9) by lia.
  repeat (destruct E as [E | E]; [subst d; discriminate |]).
  subst d; discriminate.
Qed.

Lemma leading_zero_app s c :
  s <> "" -> leading_zero (s ++ String c "") =
             match s with String a _ => Ascii.eqb a "0" | "" => false end.
Proof.
  destruct s as [|a [|b r]]; intros Hs; [contradiction | reflexivity..].
Qed.

(** The digits of a number start with a zero only for zero itself. *)
Lemma digits_fuel_canonical fuel n :
  0 <= n -> Z.log2 n < Z.of_nat fuel ->
  exists c r, digits_fuel fuel 10 n = String c r
              /\ (0 < n -> c <> "0"%char).
Proof.
  revert n. induction fuel as [|fuel IH]; intros n Hn Hf.
  - pose proof (Z.log2_nonneg n). lia.
  - simpl. destruct (Z.ltb_spec n 10) as [Hlt | Hge].
    + exists (digit_char n), "". split; [reflexivity|].
      intros Hp. apply digit_char_nonzero. lia.
    + assert (Hq : 1 <= n / 10) by (apply Z.div_le_lower_bound; lia).
      pose proof (log2_div_lt n 10 ltac:(lia) Hge) as Hlog.
      destruct (IH (n / 10) ltac:(lia) ltac:(lia)) as (c & r & E & Hc).
      rewrite E. exists c, (r ++ String (digit_char (n mod 10)) "").
      split; [reflexivity|]. intros _. apply Hc. lia.
Qed.

Lemma digits_canonical n :
  0 <= n ->
  digits 10 n <> "" /\ leading_zero (digits 10 n) = false.
Proof.
  intros Hn. unfold digits.
  destruct (digits_fuel_canonical (S (Z.to_nat (Z.log2 n))) n Hn)
    as (c & r & E & Hc).
  { pose proof (Z.log2_nonneg n). lia. }
  rewrite E. split; [discriminate|].
  destruct r as [|b r]; [reflexivity|]. simpl.
  destruct (Z.eq_dec n 0) as [-> | Hnz].
  - discriminate E.
  - destruct (Ascii.eqb_spec c "0"); [|reflexivity].
    exfalso. apply Hc; [lia | assumption].
Qed.

Lemma strip_not_ends_in_zero s :
  ends_in_zero (strip_trailing_zeros s) = false.
Proof.
  induction s as [|c r IH]; [reflexivity|].
  simpl strip_trailing_zeros.
  destruct (Ascii.eqb c "0" && String.eqb (strip_trailing_zeros r) "")%bool
    eqn:E; [reflexivity|].
  destruct (strip_trailing_zeros r) as [|b r'] eqn:Er.
  - simpl. rewrite andb_true_r in E. exact E.
  - exact IH.
Qed.

Lemma digit_zero c : is_digit c = true -> digit_val c = 0 -> c = "0"%char.
Proof.
  intros Hc Hv. unfold digit_val in Hv.
  assert (E : nat_of_ascii c = 48%nat) by lia.
  rewrite <- (ascii_nat_embedding c), E. reflexivity.
Qed.

(** A non-empty digit string of value zero ends in a zero. *)
Lemma zero_value_ends_in_zero s :
  all_digits s = true -> dec_value s = 0 -> s <> "" ->
  ends_in_zero s = true.
Proof.
  induction s as [|c r IH]; intros Hs Hv Hne; [contradiction|].
  simpl in Hs. apply andb_true_iff in Hs as [Hc Hr].
  rewrite dec_value_cons in Hv.
  pose proof (is_digit_val c Hc) as Bc.
  pose proof (dec_value_bound r Hr) as Br.
  pose proof (pow10_pos (String.length r)) as P.
  assert (digit_val c = 0 /\ dec_value r = 0) as [Zc Zr] by nia.
  destruct r as [|b r'].
  - simpl. rewrite (digit_zero c Hc Zc). reflexivity.
  - change (ends_in_zero (String c (String b r')))
      with (ends_in_zero (String b r')).
    apply IH; [assumption | assumption | discriminate].
Qed.

(** The fractional digits that [formatAmount] prints. *)
Lemma fraction_digits d r :
  0 <= r < pow10 d ->
  let f := strip_trailing_zeros (take 4 (padStart d "0" (digits 10 r))) in
  all_digits f = true
  /\ (String.length f <= Nat.min 4 d)%nat
  /\ ends_in_zero f = false
  /\ (f = "" <-> r / pow10 (d - 4) = 0).
Proof.
  intros Hr f.
  destruct (fraction_scaled d r Hr) as (Hfd & Hfv). fold f in Hfd, Hfv.
  pose proof (strip_not_ends_in_zero
                (take 4 (padStart d "0" (digits 10 r)))) as Hz.
  fold f in Hz.
  pose proof (pow10_pos (d - 4)) as P4.
  pose proof (pow10_pos (d - String.length f)) as Pf.
  assert (Hlen : (String.length f <= Nat.min 4 d)%nat).
  { destruct d as [|d].
    - assert (r = 0) by (rewrite pow10_0 in Hr; lia). subst r.
      subst f. simpl. lia.
    - destruct (padStart_digits (S d) r Hr) as (Hd & _ & Hl).
      specialize (Hl ltac:(lia)).
      destruct (strip_trailing_zeros_spec
                  (take 4 (padStart (S d) "0" (digits 10 r)))
                  (all_digits_take 4 _ Hd)) as (_ & Hle & _).
      fold f in Hle. rewrite length_take, Hl in Hle. exact Hle. }
  repeat split; try assumption.
  - intros Ef. rewrite Ef in Hfv. change (dec_value "") with 0 in Hfv.
    pose proof (Z.div_mod r (pow10 (d - 4)) ltac:(lia)) as Hdm.
    pose proof (Z.mod_pos_bound r (pow10 (d - 4)) P4).
    assert (pow10 (d - 4) * (r / pow10 (d - 4)) = 0) by lia.
    nia.
  - intros Hq.
    assert (Hv0 : dec_value f = 0).
    { pose proof (Z.div_mod r (pow10 (d - 4)) ltac:(lia)) as Hdm.
      rewrite Hq in Hdm. nia. }
    destruct (string_dec f "") as [E | Hne]; [exact E|].
    pose proof (zero_value_ends_in_zero f Hfd Hv0 Hne). congruence.
Qed.

(** Digit strings of one length and one value are one string. *)
Lemma digits_unique s t :
  all_digits s = true -> all_digits t = true ->
  String.length s = String.length t -> dec_value s = dec_value t -> s = t.
Proof.
  revert t. induction s as [|c r IH]; intros [|c' r'] Hs Ht Hl Hv;
    simpl in Hl; try discriminate; [reflexivity|].
  simpl in Hs, Ht.
  apply andb_true_iff in Hs as [Hc Hr]. apply andb_true_iff in Ht as [Hc' Hr'].
  injection Hl as Hl. rewrite !dec_value_cons, Hl in Hv.
  pose proof (is_digit_val c Hc). pose proof (is_digit_val c' Hc').
  pose proof (dec_value_bound r Hr) as B. rewrite Hl in B.
  pose proof (dec_value_bound r' Hr') as B'.
  pose proof (pow10_pos (String.length r')) as P.
  set (p := pow10 (String.length r')) in *.
  assert (Ec : digit_val c = digit_val c').
  { destruct (Z.lt_trichotomy (digit_val c) (digit_val c')) as [L | [E | L]];
      [exfalso | exact E | exfalso].
    - assert ((digit_val c + 1) * p <= digit_val c' * p)
        by (apply Z.mul_le_mono_nonneg_r; lia).
      lia.
    - assert ((digit_val c' + 1) * p <= digit_val c * p)
        by (apply Z.mul_le_mono_nonneg_r; lia).
      lia. }
  assert (Er : dec_value r = dec_value r') by (rewrite Ec in Hv; lia).
  f_equal.
  - unfold digit_val in Ec.
    rewrite <- (ascii_nat_embedding c), <- (ascii_nat_embedding c').
    f_equal. lia.
  - now apply IH.
Qed.

End FormatterShape.

Section FormatterExtras.

Import Str.

Lemma formatAmount_split a d :
  0 <= a ->
  split_point (formatAmount a d) =
    (digits 10 (a / pow10 d),
     strip_trailing_zeros
       (take 4 (padStart d "0" (digits 10 (a mod pow10 d))))).
Proof.
  intros Ha. rewrite formatAmount_nonneg by assumption. cbn zeta.
  pose proof (pow10_pos d) as Pd.
  pose proof (Z.mod_pos_bound a (pow10 d) Pd) as Hr.
  destruct (fraction_scaled d (a mod pow10 d) Hr) as (Hfd & _).
  destruct (digits_dec (a / pow10 d) ltac:(apply Z.div_pos; lia))
    as (_ & Hid & _).
  pose proof (all_digits_no_point _ Hid) as Hip.
  destruct (nonempty _) eqn:E.
  - now apply split_point_app.
  - apply nonempty_false in E. rewrite E. now apply split_point_no_point.
Qed.

(** X1. What a printed amount looks like: digits, then possibly a point
    followed by one to four digits.  The integer part is never empty and
    has no leading zero, the fraction has at most [min 4 d] digits and
    never ends in a zero, and the output never ends in a point. *)
Theorem formatAmount_shape (a : Z) (d : nat) :
  0 <= a ->
  let i := fst (split_point (formatAmount a d)) in
  let f := snd (split_point (formatAmount a d)) in
  formatAmount a d = (if nonempty f then i ++ "." ++ f else i)
  /\ all_digits i = true /\ i <> "" /\ leading_zero i = false
  /\ all_digits f = true /\ (String.length f <= Nat.min 4 d)%nat
  /\ ends_in_zero f = false.
Proof.
  intros Ha. cbn zeta. rewrite (formatAmount_split a d Ha). cbn [fst snd].
  pose proof (pow10_pos d) as Pd.
  pose proof (Z.mod_pos_bound a (pow10 d) Pd) as Hr.
  destruct (fraction_digits d (a mod pow10 d) Hr) as (Hfd & Hfl & Hfz & _).
  assert (Hq : 0 <= a / pow10 d) by (apply Z.div_pos; lia).
  destruct (digits_dec (a / pow10 d) Hq) as (_ & Hid & _).
  destruct (digits_canonical (a / pow10 d) Hq) as (Hne & Hlz).
  repeat split; try assumption.
  now apply formatAmount_nonneg.
Qed.

Lemma formatAmount_shape_witness :
  0 <= 1050000 /\
  formatAmount 1050000 6 = "1.05"
  /\ ends_in_zero (snd (split_point (formatAmount 1050000 6))) = false.
Proof.
  split; [lia|]. split; [reflexivity|].
  exact (proj2 (proj2 (proj2 (proj2 (proj2 (proj2
           (formatAmount_shape 1050000 6 ltac:(lia)))))))).
Defined.

(** X2. The output has a decimal point exactly when one of the first
    four fractional digits of the amount is not zero; an amount below
    [10^(d-4)] and a whole number of tokens print as integers. *)
Theorem formatAmount_point (a : Z) (d : nat) :
  0 <= a ->
  has_point (formatAmount a d)
  = negb ((a mod pow10 d) / pow10 (d - 4) =? 0).
Proof.
  intros Ha. rewrite formatAmount_nonneg by assumption. cbn zeta.
  pose proof (pow10_pos d) as Pd.
  pose proof (Z.mod_pos_bound a (pow10 d) Pd) as Hr.
  destruct (fraction_digits d (a mod pow10 d) Hr) as (Hfd & _ & _ & Hfe).
  destruct (digits_dec (a / pow10 d) ltac:(apply Z.div_pos; lia))
    as (_ & Hid & _).
  set (f := strip_trailing_zeros _) in *.
  destruct (nonempty f) eqn:E.
  - rewrite !has_point_app. simpl. rewrite orb_true_r.
    destruct (Z.eqb_spec ((a mod pow10 d) / pow10 (d - 4)) 0) as [Hz|];
      [|reflexivity].
    apply Hfe in Hz. rewrite Hz in E. discriminate.
  - apply nonempty_false in E. rewrite (all_digits_no_point _ Hid).
    apply Hfe in E. rewrite E. reflexivity.
Qed.

Lemma formatAmount_point_witness :
  0 <= 99 /\ has_point (formatAmount 99 6) = false.
Proof.
  split; [lia|]. rewrite (formatAmount_point 99 6 ltac:(lia)). reflexivity.
Defined.

(** X3. A whole number of tokens prints as that number, without a
    point. *)
Theorem formatAmount_whole (k : Z) (d : nat) :
  0 <= k -> formatAmount (k * pow10 d) d = BigInt_toString 10 k.
Proof.
  intros Hk. pose proof (pow10_pos d) as Pd.
  assert (Ha : 0 <= k * pow10 d) by nia.
  rewrite formatAmount_nonneg by assumption. cbn zeta.
  rewrite Z.div_mul, Z.mod_mul by lia.
  destruct (fraction_digits d 0 ltac:(lia)) as (_ & _ & _ & Hfe).
  rewrite (proj2 Hfe) by (apply Z.div_0_l; pose proof (pow10_pos (d - 4)); lia).
  cbn [nonempty String.eqb negb].
  symmetry. now apply BigInt_toString_nonneg.
Qed.

Lemma formatAmount_whole_witness :
  0 <= 25 /\ formatAmount (25 * pow10 18) 18 = BigInt_toString 10 25.
Proof. split; [lia | apply (formatAmount_whole 25 18); lia]. Defined.

Lemma pow10_split d : pow10 d = pow10 (d - 4) * pow10 (Nat.min 4 d).
Proof. rewrite <- pow10_add. f_equal. lia. Qed.

(** X4. Two amounts print the same exactly when they agree down to the
    fourth fractional digit: the formatter cuts, it never rounds, and it
    keeps every digit it shows. *)
Theorem formatAmount_same (a b : Z) (d : nat) :
  0 <= a -> 0 <= b ->
  (formatAmount a d = formatAmount b d
   <-> a / pow10 (d - 4) = b / pow10 (d - 4)).
Proof.
  intros Ha Hb.
  pose proof (pow10_pos (d - 4)) as P4.
  pose proof (pow10_pos (Nat.min 4 d)) as Pm.
  pose proof (pow10_pos d) as Pd.
  split.
  - intros E.
    pose proof (parseAmount_formatAmount a d Ha) as Pa.
    pose proof (parseAmount_formatAmount b d Hb) as Pb.
    rewrite E, Pb in Pa.
    rewrite (Z.mod_eq a), (Z.mod_eq b) in Pa by lia.
    nia.
  - intros E.
    assert (Eq : a / pow10 d = b / pow10 d).
    { rewrite (pow10_split d), <- !Z.div_div by lia. now rewrite E. }
    assert (Er : (a mod pow10 d) / pow10 (d - 4)
                 = (b mod pow10 d) / pow10 (d - 4)).
    { assert (F : forall x,
                 (x mod pow10 (d - 4)
                  + pow10 (d - 4) * ((x / pow10 (d - 4)) mod pow10 (Nat.min 4 d)))
                 / pow10 (d - 4)
                 = (x / pow10 (d - 4)) mod pow10 (Nat.min 4 d)).
      { intros x.
        rewrite (Z.mul_comm (pow10 (d - 4))), Z.div_add by lia.
        rewrite Z.div_small by (apply Z.mod_pos_bound; lia). lia. }
      rewrite (pow10_split d), !Z.rem_mul_r by lia.
      now rewrite !F, E. }
    rewrite !formatAmount_nonneg by assumption. cbn zeta. rewrite Eq.
    destruct d as [|d].
    + rewrite pow10_0, !Z.mod_1_r. reflexivity.
    + pose proof (Z.mod_pos_bound a (pow10 (S d)) Pd) as Ra.
      pose proof (Z.mod_pos_bound b (pow10 (S d)) Pd) as Rb.
      destruct (padStart_digits (S d) _ Ra) as (Da & Va & La).
      destruct (padStart_digits (S d) _ Rb) as (Db & Vb & Lb).
      specialize (La ltac:(lia)). specialize (Lb ltac:(lia)).
      assert (Et : take 4 (padStart (S d) "0" (digits 10 (a mod pow10 (S d))))
                   = take 4 (padStart (S d) "0"
                               (digits 10 (b mod pow10 (S d))))).
      { apply digits_unique.
        - now apply all_digits_take.
        - now apply all_digits_take.
        - now rewrite !length_take, La, Lb.
        - rewrite !dec_value_take by assumption.
          now rewrite Va, Vb, La, Lb. }
      now rewrite Et.
Qed.

Lemma formatAmount_same_witness :
  0 <= 1234567 /\ 0 <= 1234599 /\
  formatAmount 1234567 6 = formatAmount 1234599 6.
Proof.
  split; [lia|]. split; [lia|].
  apply (proj2 (formatAmount_same 1234567 1234599 6 ltac:(lia) ltac:(lia))).
  reflexivity.
Defined.

End FormatterExtras.

(* ================================================================== *)
(** * The balance read *)
(* ================================================================== *)

Section BalanceRead.

Variable H : host.
Variable TOKEN : token.

(** The wrapper hands the three read methods to the provider as they
    are, so a balance read through it is a balance read without it. *)
Lemma getBalance_wrapped s w :
  getBalance_of s TOKEN (Some (request_of s H TOKEN)) w
  = getBalance_of s TOKEN (Some (Page.origRequest H)) w.
Proof. destruct s; reflexivity. Qed.

(** X5. Installing the provider wrapper changes nothing for [getBalance]:
    through the wrapper it makes the same provider calls, returns the
    same value and leaves the page the same as through the provider's
    own entry point. *)
Theorem getBalance_transparent (s : script) (w : world) :
  getBalance_of s TOKEN (Some (request_of s H TOKEN)) w
  = getBalance_of s TOKEN (Some (Page.origRequest H)) w.
Proof. destruct s; reflexivity. Qed.

(** X6. [getBalance] never throws and never does more than read: it
    returns [null] or a string, asks the provider for the accounts and
    then at most one balance ([eth_getBalance] or [eth_call]), sends
    nothing to the network and leaves every pending artifact alone. *)
Theorem getBalance_read_only (s : script) (w : world) :
  let r := fst (getBalance_of s TOKEN (Some (request_of s H TOKEN)) w) in
  let w' := snd (getBalance_of s TOKEN (Some (request_of s H TOKEN)) w) in
  (r = Ok VNull \/ exists text, r = Ok (VStr text))
  /\ slots w' = slots w /\ fetches w' = fetches w
  /\ x402 w' = x402 w /\ clock w' = clock w
  /\ exists reads,
       requests w' = (requests w ++ accounts_call :: reads)%list
       /\ (List.length reads <= 1)%nat
       /\ forallb read_only reads = true.
Proof.
  rewrite getBalance_wrapped.
  cbn zeta.
  destruct s; unfold getBalance_of, AdapterBalance.getBalance,
    PaywallBalance.getBalance, Adapter.address_word,
    PaywallAdapter.address_word, accounts_call, slots;
    page_unfold; page_break;
    (split; [first [left; reflexivity | right; eexists; reflexivity] |]);
    repeat split;
    first [ exists []; repeat split; cbn; auto; fail
          | eexists [_]; repeat split;
            [rewrite <- app_assoc; reflexivity | cbn; auto | reflexivity] ].
Qed.

(** X7. Without an account ([eth_accounts] fails, or answers something
    whose [length] is falsy, such as an empty array) [getBalance] returns
    [null] after that single call. *)
Theorem getBalance_no_account (s : script) (w : world) :
  no_account (provider H (requests w) accounts_call) = true ->
  getBalance_of s TOKEN (Some (request_of s H TOKEN)) w
  = (Ok VNull, with_requests (requests w ++ [accounts_call]) w).
Proof.
  intros Hn. rewrite getBalance_wrapped. unfold no_account in Hn.
  destruct s; unfold getBalance_of, AdapterBalance.getBalance,
    PaywallBalance.getBalance, accounts_call in *;
    page_unfold; page_simpl;
    destruct (provider H (requests w) _) as [accounts | e];
    page_simpl; rewrite ?Hn; reflexivity.
Qed.

(** X8. With an account, a balance that the node answers as an integer
    literal (a hexadecimal word, say) and a decimal count in [TOKEN],
    [getBalance] returns that balance as [formatAmount] prints it, after
    reading the accounts and the balance of the first one:
    [eth_getBalance] for a native token, [balanceOf] on the token contract
    otherwise. *)
Theorem getBalance_formats (s : script) (w : world)
                           (account : string) (others : list value)
                           (raw : string) (n : Z) (d : nat) :
  provider H (requests w) accounts_call = Ok (VArr (VStr account :: others)) ->
  provider H (requests w ++ [accounts_call]) (balance_call s TOKEN account)
    = Ok (VStr raw) ->
  JS.StringToBigInt raw = Some n ->
  decimals TOKEN = VInt (Z.of_nat d) ->
  getBalance_of s TOKEN (Some (request_of s H TOKEN)) w
  = (Ok (VStr (formatAmount n d)),
     with_requests
       (requests w ++ [accounts_call; balance_call s TOKEN account]) w).
Proof.
  intros Ha Hb Hn Hd. rewrite getBalance_wrapped.
  assert (Hf : Display.formatAmount_call (VStr raw) (decimals TOKEN)
               = Ok (formatAmount n d)).
  { unfold Display.formatAmount_call. rewrite Hd.
    cbn [JS.BigInt VInt]. destruct (Z.ltb_spec (Z.of_nat d) 0); [lia|].
    cbn [JS.ToString]. rewrite Hn, Nat2Z.id. reflexivity. }
  unfold balance_call, accounts_call, call in *.
  destruct s; unfold getBalance_of, native_mode, AdapterBalance.getBalance,
    PaywallBalance.getBalance, Adapter.address_word,
    PaywallAdapter.address_word, Display.balance_data in *;
    page_unfold; page_simpl; rewrite Ha; page_simpl;
    cbn [Display.length_of JS.truthy VInt List.length negb JS.nullish JS.index
         nth];
    replace (Z.of_nat (S (List.length others)) =? 0) with false
      by (symmetry; apply Z.eqb_neq; lia);
    cbn [negb]; revert Hb; try (destruct (Adapter.IS_NATIVE TOKEN));
    intros Hb; page_simpl; rewrite Hb; page_simpl; rewrite Hf; page_simpl;
    unfold with_requests; page_simpl; rewrite <- app_assoc; reflexivity.
Qed.

(** X9. A balance that is not an integer literal (the empty result
    [0x] of a call to an address without code, for one) makes
    [getBalance] return [null] rather than fail. *)
Theorem getBalance_unreadable (s : script) (w : world)
                              (account : string) (others : list value)
                              (raw : string) :
  provider H (requests w) accounts_call = Ok (VArr (VStr account :: others)) ->
  provider H (requests w ++ [accounts_call]) (balance_call s TOKEN account)
    = Ok (VStr raw) ->
  JS.StringToBigInt raw = None ->
  getBalance_of s TOKEN (Some (request_of s H TOKEN)) w
  = (Ok VNull,
     with_requests
       (requests w ++ [accounts_call; balance_call s TOKEN account]) w).
Proof.
  intros Ha Hb Hn. rewrite getBalance_wrapped.
  assert (Hf : exists e, Display.formatAmount_call (VStr raw) (decimals TOKEN)
                         = Throw e).
  { unfold Display.formatAmount_call.
    destruct (JS.BigInt (decimals TOKEN)) as [k | e]; [|now exists e].
    destruct (k <? 0); [now exists RangeError|].
    cbn [JS.BigInt JS.ToString]. rewrite Hn. now exists SyntaxError. }
  destruct Hf as [e Hf].
  unfold balance_call, accounts_call, call in *.
  destruct s; unfold getBalance_of, native_mode, AdapterBalance.getBalance,
    PaywallBalance.getBalance, Adapter.address_word,
    PaywallAdapter.address_word, Display.balance_data in *;
    page_unfold; page_simpl; rewrite Ha; page_simpl;
    cbn [Display.length_of JS.truthy VInt List.length negb JS.nullish JS.index
         nth];
    replace (Z.of_nat (S (List.length others)) =? 0) with false
      by (symmetry; apply Z.eqb_neq; lia);
    cbn [negb]; revert Hb; try (destruct (Adapter.IS_NATIVE TOKEN));
    intros Hb; page_simpl; rewrite Hb; page_simpl; rewrite Hf; page_simpl;
    unfold with_requests; page_simpl; rewrite <- app_assoc; reflexivity.
Qed.

End BalanceRead.

Lemma getBalance_no_account_witness :
  getBalance_of Erc20Only Example.usdc
    (Some (request_of Erc20Only Sample.locked_page Example.usdc))
    Example.start
  = (Ok VNull, with_requests [accounts_call] Example.start).
Proof.
  exact (getBalance_no_account Sample.locked_page Example.usdc Erc20Only
           Example.start eq_refl).
Defined.

Lemma getBalance_formats_witness :
  getBalance_of Erc20Only Example.usdc
    (Some (request_of Erc20Only Sample.holder_page Example.usdc))
    Example.start
  = (Ok (VStr "1.5"),
     with_requests
       [accounts_call; balance_call Erc20Only Example.usdc "0xOwner"]
       Example.start).
Proof.
  exact (getBalance_formats Sample.holder_page Example.usdc Erc20Only
           Example.start "0xOwner" [] "0x16e360" 1500000 6
           eq_refl eq_refl eq_refl eq_refl).
Defined.

(** The same account read by the native-aware script for a native coin. *)
Example getBalance_native_example :
  fst (getBalance_of NativeAware Example.eth
         (Some (request_of NativeAware Sample.holder_page Example.eth))
         Example.start)
  = Ok (VStr "1.5").
Proof. vm_compute. reflexivity. Qed.

Lemma getBalance_unreadable_witness :
  getBalance_of Erc20Only Example.usdc
    (Some (request_of Erc20Only Sample.codeless_page Example.usdc))
    Example.start
  = (Ok VNull,
     with_requests
       [accounts_call; balance_call Erc20Only Example.usdc "0xOwner"]
       Example.start).
Proof.
  exact (getBalance_unreadable Sample.codeless_page Example.usdc Erc20Only
           Example.start "0xOwner" [] "0x" eq_refl eq_refl eq_refl).
Defined.

(* ================================================================== *)
(** * The provider wrapper as a whole *)
(* ================================================================== *)

Ltac name_calls :=
  lazymatch goal with
  | |- exists before last, (((_ ++ [?a]) ++ [?b]) ++ [?c])%list = _ /\ _ =>
      exists [a; b], c
  | |- exists before last, ((_ ++ [?a]) ++ [?b])%list = _ /\ _ =>
      exists [a], b
  | |- exists before last, (_ ++ [?a])%list = _ /\ _ => exists [], a
  end.

Section ProviderWrapper.

Variable H : host.
Variable TOKEN : token.

(** X10. The wrapper never answers a call by itself.  Whatever the
    call, it passes one to three calls on to the provider (at most two
    before the last one), and what it returns is what the provider
    answered to the last of them; the descriptor, the clock and the
    network are left alone. *)
Theorem request_answer (s : script) (args : value) (w : world) :
  JS.nullish args = false ->
  let r := fst (request_of s H TOKEN args w) in
  let w' := snd (request_of s H TOKEN args w) in
  exists before last,
    requests w' = (requests w ++ before ++ [last])%list
    /\ r = provider H (requests w ++ before) last
    /\ (List.length before <= 2)%nat
    /\ x402 w' = x402 w /\ clock w' = clock w /\ fetches w' = fetches w.
Proof.
  intros Ha. cbn zeta.
  destruct s; unfold request_of, Adapter.request, PaywallAdapter.request,
    Adapter.intercept, PaywallAdapter.intercept, Adapter.permit_signature,
    PaywallAdapter.permit_signature, Adapter.native_payment,
    Adapter.address_word, PaywallAdapter.address_word;
    page_unfold; rewrite Ha; page_break; name_calls;
    cbn [List.length app]; rewrite <- ?app_assoc, ?app_nil_r; cbn [app];
    repeat split; auto.
Qed.

(** X11. A call without an argument object is rejected with a
    [TypeError] by the wrapper itself: nothing reaches the provider and
    the page stays as it is. *)
Theorem request_needs_argument (s : script) (args : value) (w : world) :
  JS.nullish args = true ->
  request_of s H TOKEN args w = (Throw TypeError, w).
Proof.
  intros Ha.
  destruct s; unfold request_of, Adapter.request, PaywallAdapter.request;
    page_unfold; rewrite Ha; reflexivity.
Qed.

End ProviderWrapper.

(* ================================================================== *)
(** * Hexadecimal words *)
(* ================================================================== *)

Section Hexadecimal.

Import Str.

Lemma digit_in_hex d :
  0 <= d < 16 -> JS.digit_in 16 (N_of_ascii (digit_char d)) = Some d.
Proof.
  intros Hd.
  assert (A : forall n, (n < 16)%nat ->
                JS.digit_in 16 (N_of_ascii (digit_char (Z.of_nat n)))
                = Some (Z.of_nat n)).
  { intros n Hn. do 16 (destruct n as [|n]; [reflexivity|]). lia. }
  rewrite <- (Z2Nat.id d) by lia. apply A. lia.
Qed.

Lemma hex_digit_not_space u :
  JS.digit_in 16 u <> None -> JS.is_space u = false.
Proof.
  unfold JS.digit_in, JS.digit_of, JS.is_space. intros Hu.
  repeat match goal with
         | H : context [(?x <=? ?y)%N] |- _ => destruct (N.leb_spec x y)
         end; cbn [andb] in Hu; try (exfalso; apply Hu; reflexivity);
  repeat match goal with
         | |- context [(?x <=? ?y)%N] => destruct (N.leb_spec x y); try lia
         | |- context [(?x =? ?y)%N] => destruct (N.eqb_spec x y); try lia
         end; reflexivity.
Qed.

Lemma all_digits_in_app radix acc s t :
  JS.all_digits_in radix acc (s +++ t)
  = match JS.all_digits_in radix acc s with
    | Some a => JS.all_digits_in radix a t
    | None => None
    end.
Proof.
  revert acc. induction s as [|u r IH]; intros acc; [reflexivity|].
  cbn [U16.app JS.all_digits_in].
  destruct (JS.digit_in radix u); [apply IH | reflexivity].
Qed.

Lemma hex_trim_end acc s v :
  JS.all_digits_in 16 acc s = Some v -> JS.trim_end s = s.
Proof.
  revert acc. induction s as [|u r IH]; intros acc Hs; [reflexivity|].
  cbn [JS.all_digits_in JS.trim_end] in *.
  destruct (JS.digit_in 16 u) as [d|] eqn:Hu; [|discriminate].
  rewrite (hex_digit_not_space u) by congruence.
  rewrite (IH _ Hs). reflexivity.
Qed.

Lemma digits_fuel_nonempty fuel radix n :
  digits_fuel (S fuel) radix n <> "".
Proof.
  cbn [digits_fuel]. destruct (n <? radix); [discriminate|].
  destruct (digits_fuel fuel radix (n / radix)); discriminate.
Qed.

Lemma digits_fuel_hex fuel n :
  0 <= n -> Z.log2 n < Z.of_nat fuel ->
  JS.all_digits_in 16 0 (U16.lit (digits_fuel fuel 16 n)) = Some n.
Proof.
  revert n. induction fuel as [|fuel IH]; intros n Hn Hf.
  - pose proof (Z.log2_nonneg n). lia.
  - cbn [digits_fuel]. destruct (Z.ltb_spec n 16) as [Hlt | Hge].
    + rewrite lit_cons. cbn [JS.all_digits_in]. rewrite digit_in_hex by lia.
      change (U16.lit "") with UEmpty. cbn [JS.all_digits_in]. f_equal; lia.
    + assert (Hq : 0 <= n / 16) by (apply Z.div_pos; lia).
      pose proof (log2_div_lt n 16 ltac:(lia) Hge) as Hlog.
      rewrite lit_app, all_digits_in_app, (IH (n / 16) Hq) by lia.
      rewrite lit_cons. cbn [JS.all_digits_in].
      rewrite digit_in_hex by (apply Z.mod_pos_bound; lia).
      change (U16.lit "") with UEmpty. cbn [JS.all_digits_in].
      pose proof (Z.div_mod n 16 ltac:(lia)); f_equal; lia.
Qed.

Lemma digits_hex n :
  0 <= n -> JS.all_digits_in 16 0 (U16.lit (digits 16 n)) = Some n.
Proof.
  intros Hn. unfold digits. apply digits_fuel_hex; [assumption|].
  pose proof (Z.log2_nonneg n). lia.
Qed.

Lemma hex_literal ds v :
  JS.all_digits_in 16 0 ds = Some v -> ds <> UEmpty ->
  JS.StringToBigInt ("0x" +++ ds) = Some v.
Proof.
  intros Hd Hne.
  assert (T : JS.trim ("0x" +++ ds) = "0x" +++ ds).
  { unfold JS.trim.
    change (JS.trim_start ("0x" +++ ds)) with ("0x" +++ ds).
    change (JS.trim_end ("0x" +++ ds))
      with (UCons 48 (UCons 120 (JS.trim_end ds))).
    now rewrite (hex_trim_end 0 ds v Hd). }
  unfold JS.StringToBigInt. cbn zeta. rewrite T.
  change (U16.nonempty ("0x" +++ ds)) with true.
  change (JS.starts_with "0x" ("0x" +++ ds)) with true.
  cbn [orb negb]. change (U16.drop 2 ("0x" +++ ds)) with ds.
  unfold JS.integer_in. destruct ds; [contradiction | exact Hd].
Qed.

Lemma lit_not_empty s : s <> "" -> U16.lit s <> UEmpty.
Proof. destruct s; [contradiction | discriminate]. Qed.

(** [BigInt] reads the hexadecimal literal of a non-negative integer
    as that integer. *)
Lemma StringToBigInt_hex n :
  0 <= n -> JS.StringToBigInt ("0x" ++ BigInt_toString 16 n) = Some n.
Proof.
  intros Hn. rewrite BigInt_toString_nonneg by assumption.
  rewrite lit_app.
  apply hex_literal; [now apply digits_hex |].
  apply lit_not_empty, digits_fuel_nonempty.
Qed.

(** [BigInt] reads the decimal text of a non-negative integer as that
    integer. *)
Lemma StringToBigInt_toString n :
  0 <= n -> JS.StringToBigInt (BigInt_toString 10 n) = Some n.
Proof.
  intros Hn. rewrite BigInt_toString_nonneg by assumption.
  destruct (digits_dec n Hn) as (Hv & Hd & _).
  rewrite StringToBigInt_decimal, Hv; [reflexivity | assumption |].
  apply digits_fuel_nonempty.
Qed.

Lemma zeros_hex k acc :
  JS.all_digits_in 16 acc (U16.lit (Str.repeat "0" k))
  = Some (acc * 16 ^ Z.of_nat k).
Proof.
  revert acc. induction k as [|k IH]; intros acc.
  - change (Some acc = Some (acc * 16 ^ 0)). f_equal; lia.
  - cbn [Str.repeat]. rewrite lit_cons. cbn [JS.all_digits_in].
    change (JS.digit_in 16 (N_of_ascii "0")) with (Some 0). cbn beta iota.
    rewrite IH, Nat2Z.inj_succ, Z.pow_succ_r by lia; f_equal; lia.
Qed.

Lemma digits_prefix_all radix acc seen s v :
  JS.all_digits_in radix acc s = Some v ->
  JS.digits_prefix radix acc seen s = (v, seen || U16.nonempty s).
Proof.
  revert acc seen. induction s as [|u r IH]; intros acc seen Hs.
  - cbn in *. rewrite orb_false_r. congruence.
  - cbn [JS.all_digits_in JS.digits_prefix] in *.
    destruct (JS.digit_in radix u); [|discriminate].
    rewrite (IH _ true Hs). cbn. now rewrite orb_true_r.
Qed.

Lemma to_number_exact n : 0 <= n < 2 ^ 53 -> JS.to_number n = NInt n.
Proof.
  intros Hn. unfold JS.to_number. cbn zeta.
  destruct (Z.leb_spec (Z.log2 n + 1) 53) as [_|Hl]; [reflexivity|].
  exfalso. destruct (Z.eq_dec n 0) as [->|Hz]; [cbn in Hl; lia|].
  assert (Z.log2 n < 53) by (apply Z.log2_lt_pow2; lia). lia.
Qed.

Lemma parseInt16_hex word v :
  JS.all_digits_in 16 0 word = Some v -> word <> UEmpty ->
  JS.parseInt16 (VStr ("0x" +++ word)) = JS.to_number v.
Proof.
  intros Hv Hne. unfold JS.parseInt16.
  change (JS.trim_start (JS.ToString (VStr ("0x" +++ word))))
    with (UCons 48 (UCons 120 word)).
  cbv zeta.
  change (JS.starts_with "-" (UCons 48 (UCons 120 word))) with false.
  change (JS.starts_with "+" (UCons 48 (UCons 120 word))) with false.
  cbn [orb].
  change (JS.starts_with "0x" (UCons 48 (UCons 120 word))) with true.
  cbn [orb]. change (U16.drop 2 (UCons 48 (UCons 120 word))) with word.
  rewrite (digits_prefix_all 16 0 false word v Hv).
  destruct word; [contradiction | reflexivity].
Qed.

(** [parseInt(word, 16)] of the 32-byte word that writes an integer:
    the Number nearest to it. *)
Lemma parseInt16_word n :
  0 <= n -> JS.parseInt16 (uint256_word n) = JS.to_number n.
Proof.
  intros Hn. unfold uint256_word. rewrite lit_app.
  rewrite (parseInt16_hex _ n).
  - reflexivity.
  - unfold Str.padStart. rewrite lit_app, all_digits_in_app, zeros_hex.
    cbn [Z.mul]. now apply digits_hex.
  - apply lit_not_empty. unfold Str.padStart, digits.
    destruct (digits_fuel _ 16 n) eqn:E.
    + exfalso. revert E. apply digits_fuel_nonempty.
    + destruct (Str.repeat "0" _); discriminate.
Qed.

End Hexadecimal.

(* ================================================================== *)
(** * What the conversions send and store *)
(* ================================================================== *)

Section ConversionDetails.

Variable H : host.
Variable TOKEN : token.

Lemma intercept_permit s args data w :
  authorizes H args data ->
  native_mode s TOKEN = false ->
  intercept_of s H TOKEN args w = Adapter.permit_signature H TOKEN args data w.
Proof.
  intros Hauth Hn.
  destruct (authorizes_inv H args data Hauth)
    as (Ha & Hm & Hp & Hj & Ht & Hd).
  destruct s; unfold intercept_of, native_mode in *;
    unfold Adapter.intercept, PaywallAdapter.intercept;
    rewrite <- ?permit_signature_same;
    unfold Page.bind, Page.get, Page.get_index, Page.parse;
    rewrite Ha; unfold Page.ret at 1; rewrite Hp; unfold Page.ret at 1;
    rewrite Hj; unfold Page.ret at 1; rewrite Ht, ?Hn; reflexivity.
Qed.

Lemma intercept_native args data w :
  authorizes H args data ->
  Adapter.IS_NATIVE TOKEN = true ->
  Adapter.intercept H TOKEN args w = Adapter.native_payment H args data w.
Proof.
  intros Hauth Hn.
  destruct (authorizes_inv H args data Hauth)
    as (Ha & Hm & Hp & Hj & Ht & Hd).
  unfold Adapter.intercept;
    unfold Page.bind, Page.get, Page.get_index, Page.parse;
    rewrite Ha; unfold Page.ret at 1; rewrite Hp; unfold Page.ret at 1;
    rewrite Hj; unfold Page.ret at 1; rewrite Ht, Hn; reflexivity.
Qed.

(** C1, as the scripts have it. A typed-data signing call whose
    parsed payload has primary type [TransferWithAuthorization], for a
    token that is not native, with a signer address, an answered nonce
    read and an answered signing call: after the nonce read the wrapper
    issues exactly one signing call, whose typed data is the Permit of
    the specification (domain name, version, chainId, verifyingContract;
    message owner, spender, value, nonce, deadline an hour after the
    current time, as a string); it returns that call's signature
    unchanged and stores the permit artifact with the same owner,
    spender, value, nonce, deadline and the signature, plus the transfer
    intent.  The nonce is what [parseInt(nonceHex, 16)] makes of the
    answer of the nonce read: for the 32-byte word of an integer the
    Number nearest to it, which is the integer itself below [2^53]. *)
Theorem permit_conversion (s : script) (args data : value) (owner : utf16)
                          (nonceHex sig : value) (w : world) :
  authorizes H args data ->
  native_mode s TOKEN = false ->
  signer_of args = VStr owner ->
  provider H (requests w) (nonce_call TOKEN owner) = Ok nonceHex ->
  provider H (requests w ++ [nonce_call TOKEN owner])
    (permit_call TOKEN data owner nonceHex (clock w)) = Ok sig ->
  request_of s H TOKEN args w =
    (Ok sig,
     with_requests
       (requests w ++ [nonce_call TOKEN owner;
                       permit_call TOKEN data owner nonceHex (clock w)])
       (with_slots (permit_artifact data owner nonceHex (clock w) sig)
          (transfer_intent data owner) (nativePaymentData w) w))
  /\ JS.prop (JS.prop (reshaped TOKEN data owner nonceHex (clock w))
                "message") "nonce"
     = VNum (JS.parseInt16 nonceHex)
  /\ JS.prop (permit_artifact data owner nonceHex (clock w) sig) "nonce"
     = VNum (JS.parseInt16 nonceHex)
  /\ (forall n, 0 <= n -> nonceHex = uint256_word n ->
        JS.parseInt16 nonceHex = JS.to_number n
        /\ (n < 2 ^ 53 -> JS.parseInt16 nonceHex = NInt n)).
Proof.
  intros Hauth Hn Ho Hr Hs.
  split; [now apply request_permit_run with (data := data) |].
  split; [reflexivity |]. split; [reflexivity |].
  intros n Hn0 ->. rewrite parseInt16_word by assumption.
  split; [reflexivity |]. intros Hb. apply to_number_exact. lia.
Qed.

(** X12. In the native branch the first thing the wrapper asks of the
    wallet, whatever the wallet then answers, is a transaction from the
    signer to the message's destination whose hexadecimal [value] reads
    back as the amount that was requested; only the caller's own call
    may follow, when the wallet refuses. *)
Theorem native_value_sent (args data : value) (amount : string) (n : Z)
                          (w : world) :
  authorizes H args data ->
  Adapter.IS_NATIVE TOKEN = true ->
  amount_of data = VStr amount ->
  JS.StringToBigInt amount = Some n ->
  0 <= n ->
  exists hex rest,
    requests (snd (Adapter.request H TOKEN args w))
    = (requests w
       ++ call "eth_sendTransaction"
            [VObj [("from", signer_of args);
                   ("to", JS.prop (message_of data) "to");
                   ("value", VStr hex)]] :: rest)%list
    /\ JS.StringToBigInt hex = Some n
    /\ (rest = [] \/ rest = [args]).
Proof.
  intros Hauth Hn Hv Hb Hpos.
  destruct (authorizes_inv H args data Hauth)
    as (Ha & Hm & Hp & Hj & Ht & Hd).
  pose proof (request_sign H TOKEN NativeAware args w Ha Hm) as E.
  unfold request_of, intercept_of in E. rewrite E. clear E.
  rewrite (intercept_native args data w Hauth Hn).
  exists ("0x" ++ BigInt_toString 16 n).
  unfold amount_of, message_of in Hv.
  unfold Adapter.native_payment. page_unfold.
  rewrite Ha. page_simpl. rewrite Hp. page_simpl. rewrite Hd. page_simpl.
  rewrite Hv. unfold JS.BigInt. cbn [JS.ToString]. rewrite Hb. page_simpl.
  unfold call, signer_of, message_of.
  destruct (provider H (requests w) _) as [txHash | e]; page_simpl.
  - exists []. repeat split; [now apply StringToBigInt_hex | now left].
  - exists [args]. rewrite <- app_assoc.
    repeat split; [now apply StringToBigInt_hex | now right].
Qed.

(** X13. A Permit that the wrapper got signed is stored with a
    deadline, in whole seconds, that lies at most an hour and more than
    an hour less a second after the moment of signing. *)
Theorem permit_deadline_window (s : script) (args sig : value)
                               (w w' : world) :
  0 <= clock w ->
  native_mode s TOKEN = false ->
  intercept_of s H TOKEN args w = (Ok (Some sig), w') ->
  exists text seconds,
    JS.prop (eip2612_permit w') "deadline" = VStr text
    /\ JS.StringToBigInt text = Some seconds
    /\ clock w + 3599000 < 1000 * seconds <= clock w + 3600000.
Proof.
  intros Hc Hn.
  assert (Hk : 0 <= clock w / 1000 + 3600).
  { pose proof (Z.div_pos (clock w) 1000 Hc ltac:(lia)). lia. }
  pose proof (StringToBigInt_toString _ Hk) as Hb.
  pose proof (Z.div_mod (clock w) 1000 ltac:(lia)) as Hdm.
  pose proof (Z.mod_pos_bound (clock w) 1000 ltac:(lia)) as Hmb.
  destruct s; unfold native_mode in Hn;
    unfold intercept_of, Adapter.intercept, PaywallAdapter.intercept,
      Adapter.permit_signature, PaywallAdapter.permit_signature,
      Adapter.address_word, PaywallAdapter.address_word,
      Adapter.PERMIT_DEADLINE, PaywallAdapter.PERMIT_DEADLINE;
    rewrite ?Hn; page_unfold; page_break; intros E; inversion E; subst;
    exists (BigInt_toString 10 (clock w / 1000 + 3600)),
           (clock w / 1000 + 3600);
    (split; [reflexivity | split; [exact Hb | lia]]).
Qed.

(** X14. A nonce below [2^53] that the token contract returns as a
    32-byte word is stored in the pending Permit as exactly that
    number. *)
Theorem nonce_exact (s : script) (args data : value) (owner : string)
                    (n : Z) (sig : value) (w : world) :
  authorizes H args data ->
  native_mode s TOKEN = false ->
  signer_of args = VStr owner ->
  0 <= n < 2 ^ 53 ->
  let word := VStr ("0x" ++ Str.padStart 64 "0" (Str.digits 16 n)) in
  provider H (requests w) (nonce_call TOKEN owner) = Ok word ->
  provider H (requests w ++ [nonce_call TOKEN owner])
    (permit_call TOKEN data owner word (clock w)) = Ok sig ->
  JS.prop (eip2612_permit (snd (request_of s H TOKEN args w))) "nonce"
  = VInt n.
Proof.
  intros Hauth Hn Ho Hb word Hr Hs.
  rewrite (request_permit_run H TOKEN s args data owner word sig w
             Hauth Hn Ho Hr Hs).
  change word with (uint256_word n).
  unfold with_requests, with_slots, permit_artifact.
  cbn [snd eip2612_permit JS.prop JS.assoc]. cbn.
  rewrite parseInt16_word by lia. now rewrite to_number_exact.
Qed.

End ConversionDetails.

Section ProviderExamples.

Import Example.

Lemma permit_conversion_witness :
  request_of NativeAware page usdc
    (sign_request "0xOwner" usdc_transfer) start =
    (Ok (VStr "0xSignature"),
     with_requests
       (requests start
        ++ [nonce_call usdc "0xOwner";
            permit_call usdc usdc_transfer "0xOwner" nonce_5
              (clock start)])
       (with_slots
          (permit_artifact usdc_transfer "0xOwner" nonce_5 (clock start)
             (VStr "0xSignature"))
          (transfer_intent usdc_transfer "0xOwner")
          (nativePaymentData start) start))
  /\ JS.parseInt16 nonce_5 = NInt 5.
Proof.
  assert (Ha : authorizes page (sign_request "0xOwner" usdc_transfer)
                 usdc_transfer)
    by (unfold authorizes; repeat split; vm_compute; reflexivity).
  assert (Hr : provider page (requests start) (nonce_call usdc "0xOwner")
               = Ok nonce_5) by (vm_compute; reflexivity).
  assert (Hs : provider page (requests start ++ [nonce_call usdc "0xOwner"])
                 (permit_call usdc usdc_transfer "0xOwner" nonce_5
                    (clock start))
               = Ok (VStr "0xSignature")) by (vm_compute; reflexivity).
  assert (Hb : 0 <= 5) by lia.
  assert (Hw : nonce_5 = uint256_word 5) by (vm_compute; reflexivity).
  assert (Hl : 5 < 2 ^ 53) by lia.
  pose proof (permit_conversion page usdc NativeAware
                (sign_request "0xOwner" usdc_transfer) usdc_transfer
                "0xOwner" nonce_5 (VStr "0xSignature") start
                Ha eq_refl eq_refl Hr Hs) as (E & _ & _ & N).
  split; [exact E |]. exact (proj2 (N 5 Hb Hw) Hl).
Defined.

(** C1 fails as stated. On a token whose nonce for the owner is
    [2^53 + 1] the nonce read returns that integer, and the Permit that
    the wallet is asked to sign, like the artifact that is stored,
    carries the nonce [2^53]. *)
Lemma permit_conversion_counterexample :
  provider large_nonce_page (requests start) (nonce_call usdc "0xOwner")
  = Ok (uint256_word 9007199254740993)
  /\ nth 1 (requests (snd (request_of Erc20Only large_nonce_page usdc
                             (sign_request "0xOwner" usdc_transfer) start)))
       VUndef
     = call sign_method
         [VStr "0xOwner";
          JS.JSON_stringify
            (permit_typed_data (VStr "USDC") (VStr "2") (VInt 84532)
               (VStr "0xToken") (VStr "0xOwner") (VStr "0xSpender")
               (VStr "1000000") (VInt 9007199254740992)
               (VStr "1700003600"))]
  /\ JS.prop (eip2612_permit
                (snd (request_of Erc20Only large_nonce_page usdc
                        (sign_request "0xOwner" usdc_transfer) start)))
       "nonce"
     = VInt 9007199254740992
  /\ VInt 9007199254740992 <> VInt 9007199254740993.
Proof.
  split; [vm_compute; reflexivity |]. split; [vm_compute; reflexivity |].
  split; [vm_compute; reflexivity |]. discriminate.
Qed.

(** A nonce read that answers without a digit ([0x], the answer for an
    address without code) does not stop the conversion: [parseInt]
    gives [NaN], which the Permit carries as [null]. *)
Example nonce_without_digits :
  JS.parseInt16 (VStr "0x") = NNaN
  /\ JS.json_text (VNum (JS.parseInt16 (VStr "0x"))) = Some (U16.lit "null").
Proof. split; reflexivity. Qed.

(** A Number is printed as JavaScript prints it: with the fewest
    digits that denote it, in exponent form from [10^21]. *)
Example number_text :
  JS.Number_toString (NInt (2 ^ 64)) = "18446744073709552000"
  /\ JS.Number_toString (NInt (2 ^ 53)) = "9007199254740992"
  /\ JS.Number_toString (NInt (10 ^ 21)) = "1e+21"
  /\ JS.Number_toString (NInt (2 ^ 70)) = "1.1805916207174113e+21"
  /\ JS.Number_toString (NInt (- 1200)) = "-1200"
  /\ JS.json_text (VNum (JS.parseInt16 (VStr "0x10000000000000000")))
     = Some (U16.lit "18446744073709552000").
Proof. repeat split; vm_compute; reflexivity. Qed.

Lemma request_answer_witness :
  exists before last,
    requests (snd (request_of Erc20Only page usdc
                     (sign_request "0xOwner" usdc_transfer) start))
    = (requests start ++ before ++ [last])%list
    /\ fst (request_of Erc20Only page usdc
              (sign_request "0xOwner" usdc_transfer) start)
       = provider page (requests start ++ before) last
    /\ (List.length before <= 2)%nat
    /\ x402 (snd (request_of Erc20Only page usdc
                    (sign_request "0xOwner" usdc_transfer) start))
       = x402 start
    /\ clock (snd (request_of Erc20Only page usdc
                     (sign_request "0xOwner" usdc_transfer) start))
       = clock start
    /\ fetches (snd (request_of Erc20Only page usdc
                       (sign_request "0xOwner" usdc_transfer) start))
       = fetches start.
Proof.
  exact (request_answer page usdc Erc20Only
           (sign_request "0xOwner" usdc_transfer) start eq_refl).
Defined.

Lemma request_needs_argument_witness :
  request_of NativeAware page usdc VUndef start = (Throw TypeError, start).
Proof.
  exact (request_needs_argument page usdc NativeAware VUndef start eq_refl).
Defined.

Lemma native_value_sent_witness :
  exists hex rest,
    requests (snd (Adapter.request page eth
                     (sign_request "0xOwner" eth_transfer) start))
    = (requests start
       ++ call "eth_sendTransaction"
            [VObj [("from", signer_of (sign_request "0xOwner" eth_transfer));
                   ("to", JS.prop (message_of eth_transfer) "to");
                   ("value", VStr hex)]] :: rest)%list
    /\ JS.StringToBigInt hex = Some 2000000000000000000
    /\ (rest = [] \/ rest = [sign_request "0xOwner" eth_transfer]).
Proof.
  assert (Ha : authorizes page (sign_request "0xOwner" eth_transfer)
                 eth_transfer)
    by (unfold authorizes; repeat split; vm_compute; reflexivity).
  assert (Hp : 0 <= 2000000000000000000) by lia.
  exact (native_value_sent page eth (sign_request "0xOwner" eth_transfer)
           eth_transfer "2000000000000000000" 2000000000000000000 start
           Ha eq_refl eq_refl eq_refl Hp).
Defined.

(** The value of the example's transaction, two coins in wei. *)
Example native_value_example :
  BigInt_toString 16 2000000000000000000 = "1bc16d674ec80000".
Proof. vm_compute. reflexivity. Qed.

Lemma permit_deadline_window_witness :
  exists text seconds,
    JS.prop (eip2612_permit (signed Erc20Only)) "deadline" = VStr text
    /\ JS.StringToBigInt text = Some seconds
    /\ clock start + 3599000 < 1000 * seconds <= clock start + 3600000.
Proof.
  assert (Hc : 0 <= clock start) by (vm_compute; discriminate).
  assert (Hi : intercept_of Erc20Only page usdc
                 (sign_request "0xOwner" usdc_transfer) start
               = (Ok (Some (VStr "0xSignature")), signed Erc20Only))
    by (vm_compute; reflexivity).
  exact (permit_deadline_window page usdc Erc20Only
           (sign_request "0xOwner" usdc_transfer) (VStr "0xSignature")
           start (signed Erc20Only) Hc eq_refl Hi).
Defined.

Lemma nonce_exact_witness :
  JS.prop (eip2612_permit
             (snd (request_of Erc20Only page usdc
                     (sign_request "0xOwner" usdc_transfer) start)))
    "nonce"
  = VInt 5.
Proof.
  assert (Ha : authorizes page (sign_request "0xOwner" usdc_transfer)
                 usdc_transfer)
    by (unfold authorizes; repeat split; vm_compute; reflexivity).
  assert (Hb : 0 <= 5 < 2 ^ 53) by lia.
  assert (Hr : provider page (requests start) (nonce_call usdc "0xOwner")
               = Ok (VStr ("0x" ++ Str.padStart 64 "0" (Str.digits 16 5))))
    by (vm_compute; reflexivity).
  assert (Hs : provider page (requests start ++ [nonce_call usdc "0xOwner"])
                 (permit_call usdc usdc_transfer "0xOwner"
                    (VStr ("0x" ++ Str.padStart 64 "0" (Str.digits 16 5)))
                    (clock start))
               = Ok (VStr "0xSignature"))
    by (vm_compute; reflexivity).
  exact (nonce_exact page usdc Erc20Only
           (sign_request "0xOwner" usdc_transfer) usdc_transfer "0xOwner"
           5 (VStr "0xSignature") start Ha eq_refl eq_refl Hb Hr Hs).
Defined.

End ProviderExamples.

(* ================================================================== *)
(** * The network wrapper as a whole *)
(* ================================================================== *)

Section NetworkWrapper.

Variable H : host.
Variable TOKEN : token.

Lemma consume_frame s w :
  fetches (consume s TOKEN w) = fetches w
  /\ requests (consume s TOKEN w) = requests w
  /\ x402 (consume s TOKEN w) = x402 w
  /\ clock (consume s TOKEN w) = clock w.
Proof.
  unfold consume.
  destruct (native_mode s TOKEN && native_pending w); repeat split.
Qed.

(** X15. The network wrapper never fails on its own and never holds a
    request back.  Every call makes exactly one call of the original
    [fetch], whose answer is the answer of the wrapper; the request keeps
    its length, every argument but the options object, every option but
    [headers] and every header but [X-PAYMENT]; the provider is not
    called. *)
Theorem fetch_forwards (s : script) (args : list value) (w : world) :
  let r := fst (fetch_of s H TOKEN args w) in
  let w' := snd (fetch_of s H TOKEN args w) in
  exists sent,
    fetches w' = (fetches w ++ [sent])%list
    /\ r = network H (fetches w) sent
    /\ List.length sent = List.length args
    /\ (forall i, i <> 1%nat -> nth i sent VUndef = nth i args VUndef)
    /\ (forall k : utf16, k <> "headers" ->
          JS.prop (nth 1 sent VUndef) k = JS.prop (nth 1 args VUndef) k)
    /\ (forall k : utf16, k <> "X-PAYMENT" ->
          JS.prop (headers_of sent) k = JS.prop (headers_of args) k)
    /\ requests w' = requests w /\ x402 w' = x402 w /\ clock w' = clock w.
Proof.
  cbn zeta. rewrite fetch_cases.
  destruct (payment_slot (headers_of args)) eqn:Hs; cbn [andb].
  - destruct (artifact_pending s TOKEN w).
    + destruct (pending_header s TOKEN w) as [encoded | e].
      * destruct (consume_frame s w) as (Ef & Er & Ex & Ec).
        destruct (with_payment_spec args encoded Hs)
          as (_ & Hk & Ho & Hi & Hl).
        exists (with_payment args encoded).
        unfold Page.origFetch. page_simpl. rewrite Ef.
        repeat split; assumption.
      * exists args. unfold Page.origFetch. page_simpl. repeat split.
    + exists args. unfold Page.origFetch. page_simpl. repeat split.
  - exists args. unfold Page.origFetch. page_simpl. repeat split.
Qed.

(** X16. Headers passed as a native [Headers] collection are never
    rewritten: whatever they hold and whatever artifact is pending, the
    request goes out as it came and the artifact stays. *)
Theorem headers_collection_untouched (s : script) (args : list value)
                                     (es : list (string * string))
                                     (w : world) :
  headers_of args = VHeaders es ->
  fetch_of s H TOKEN args w = Page.origFetch H args w.
Proof.
  intros Hh. rewrite fetch_cases. unfold payment_slot. rewrite Hh.
  reflexivity.
Qed.

(** X17. When the placeholder stands under the lower-case name
    [x-payment] only, an artifact is pending and [btoa] accepts the
    payload, the payment header is added under [X-PAYMENT] as a new,
    last header and the placeholder stays where it was: the request
    leaves with both. *)
Theorem lower_case_placeholder_kept (s : script) (args : list value)
                                    (w : world) (encoded : string) :
  ~ In (U16.lit "X-PAYMENT") (header_names (headers_of args)) ->
  JS.truthy (JS.prop (headers_of args) "x-payment") = true ->
  artifact_pending s TOKEN w = true ->
  pending_header s TOKEN w = Ok encoded ->
  exists sent,
    fetch_of s H TOKEN args w = Page.origFetch H sent (consume s TOKEN w)
    /\ header_names (headers_of sent)
       = (header_names (headers_of args) ++ [U16.lit "X-PAYMENT"])%list
    /\ JS.prop (headers_of sent) "x-payment"
       = JS.prop (headers_of args) "x-payment"
    /\ JS.prop (headers_of sent) "X-PAYMENT" = VStr encoded.
Proof.
  intros Hn Hl Hp He.
  assert (Hs : payment_slot (headers_of args) = true).
  { unfold payment_slot, JS.or.
    destruct (headers_of args); try discriminate Hl.
    cbn [JS.truthy andb].
    destruct (JS.truthy (JS.prop (VObj props) "X-PAYMENT")) eqn:E;
      [exact E | exact Hl]. }
  rewrite fetch_cases, Hs, Hp, He. cbn [andb].
  exists (with_payment args encoded).
  split; [reflexivity|].
  destruct (with_payment_spec args encoded Hs) as (Hx & Hk & _).
  split; [exact (proj2 (with_payment_names args encoded Hs) Hn)|].
  split; [apply Hk; discriminate | exact Hx].
Qed.

(** X18. The ERC-20 payment from end to end.  After a transfer
    authorization has been converted and signed, the next request with
    a payment header placeholder, when [btoa] accepts the payload,
    leaves with the base64 of the JSON text of the payload: version 1,
    scheme [exact], the network of the descriptor, the Permit as it was
    signed and the transfer intent.  Both globals are deleted, and
    whatever is requested after that goes out unchanged. *)
Theorem permit_payment (s : script) (args data : value) (owner : utf16)
                       (nonceHex sig : value) (out : list value)
                       (w : world) (header : string) :
  authorizes H args data ->
  native_mode s TOKEN = false ->
  signer_of args = VStr owner ->
  provider H (requests w) (nonce_call TOKEN owner) = Ok nonceHex ->
  provider H (requests w ++ [nonce_call TOKEN owner])
    (permit_call TOKEN data owner nonceHex (clock w)) = Ok sig ->
  payment_slot (headers_of out) = true ->
  JS.btoa
    (JS.JSON_stringify
       (payment_payload "exact" (network_of (x402 w))
          (VObj [("permit", permit_artifact data owner nonceHex (clock w) sig);
                 ("transfer", transfer_intent data owner)])))
  = Ok header ->
  let w1 := snd (request_of s H TOKEN args w) in
  let sent := with_payment out header in
  let w2 := snd (fetch_of s H TOKEN out w1) in
  fetch_of s H TOKEN out w1
  = Page.origFetch H sent (with_slots VUndef VUndef (nativePaymentData w) w1)
  /\ JS.prop (headers_of sent) "X-PAYMENT" = VStr header
  /\ forall next, fetch_of s H TOKEN next w2 = Page.origFetch H next w2.
Proof.
  intros Hauth Hn Ho Hr Hg Hs Hb. cbn zeta.
  rewrite (request_permit_run H TOKEN s args data owner nonceHex sig w
             Hauth Hn Ho Hr Hg).
  cbn [snd].
  set (w1 := with_requests _ _).
  assert (E : fetch_of s H TOKEN out w1
              = Page.origFetch H (with_payment out header)
                  (with_slots VUndef VUndef (nativePaymentData w) w1)).
  { rewrite fetch_cases, Hs.
    unfold artifact_pending, pending_header, consume. rewrite Hn.
    cbn [andb orb].
    change (permit_pending w1) with true.
    change (exact_header w1)
      with (JS.btoa
              (JS.JSON_stringify
                 (payment_payload "exact" (network_of (x402 w))
                    (VObj [("permit",
                            permit_artifact data owner nonceHex (clock w) sig);
                           ("transfer", transfer_intent data owner)])))).
    rewrite Hb. reflexivity. }
  split; [exact E|].
  split; [apply with_payment_spec; exact Hs|].
  intros next. rewrite E. rewrite fetch_cases.
  unfold artifact_pending. rewrite Hn. cbn [andb orb].
  replace (permit_pending _) with false by reflexivity.
  now rewrite andb_false_r.
Qed.

(** X19. The native payment from end to end.  After a transfer
    authorization has been paid by a transaction, the next request with
    a payment header placeholder, when [btoa] accepts the payload,
    leaves with the base64 of the JSON text of the payload: version 1,
    scheme [native], the network of the descriptor, the transaction hash
    that the wallet returned, the signer, the destination and the amount
    as the decimal string that was requested.  The global is set to
    [null], and with no Permit pending whatever is requested after that
    goes out unchanged. *)
Theorem native_payment_sent (args data : value) (amount : utf16) (n : Z)
                            (txHash : value) (out : list value)
                            (w : world) (header : string) :
  authorizes H args data ->
  Adapter.IS_NATIVE TOKEN = true ->
  amount_of data = VStr amount ->
  JS.StringToBigInt amount = Some n ->
  provider H (requests w)
    (send_call (signer_of args) (JS.prop (message_of data) "to") n)
    = Ok txHash ->
  payment_slot (headers_of out) = true ->
  permit_pending w = false ->
  JS.btoa
    (JS.JSON_stringify
       (payment_payload "native" (network_of (x402 w))
          (VObj [("txHash", txHash); ("from", signer_of args);
                 ("to", JS.prop (message_of data) "to");
                 ("amountWei", VStr amount)])))
  = Ok header ->
  let w1 := snd (Adapter.request H TOKEN args w) in
  let sent := with_payment out header in
  let w2 := snd (Adapter.fetch H TOKEN out w1) in
  Adapter.fetch H TOKEN out w1
  = Page.origFetch H sent
      (with_slots (eip2612_permit w) (eip2612_transfer w) VNull w1)
  /\ JS.prop (headers_of sent) "X-PAYMENT" = VStr header
  /\ forall next, Adapter.fetch H TOKEN next w2 = Page.origFetch H next w2.
Proof.
  intros Hauth Hn Hv Hb Hr Hs Hp He. cbn zeta.
  rewrite (native_conversion_any H TOKEN args data amount n txHash w
             Hauth Hn Hv Hb Hr).
  cbn [snd].
  set (w1 := with_requests _ _).
  pose proof (fetch_cases H TOKEN NativeAware) as F.
  unfold fetch_of in F.
  assert (E : Adapter.fetch H TOKEN out w1
              = Page.origFetch H (with_payment out header)
                  (with_slots (eip2612_permit w) (eip2612_transfer w) VNull
                     w1)).
  { rewrite F, Hs.
    unfold artifact_pending, pending_header, consume, native_mode. rewrite Hn.
    change (native_pending w1) with true. cbn [andb orb].
    change (native_header w1)
      with (JS.btoa
              (JS.JSON_stringify
                 (payment_payload "native" (network_of (x402 w))
                    (VObj [("txHash", txHash); ("from", signer_of args);
                           ("to", JS.prop (message_of data) "to");
                           ("amountWei", VStr amount)])))).
    rewrite He. reflexivity. }
  split; [exact E|].
  split; [apply with_payment_spec; exact Hs|].
  intros next. rewrite E. rewrite F.
  unfold artifact_pending, native_mode. rewrite Hn. cbn [andb orb].
  replace (native_pending _) with false by reflexivity.
  replace (permit_pending _) with false by (symmetry; exact Hp).
  now rewrite andb_false_r.
Qed.

End NetworkWrapper.

Section NetworkExamples.

Import Example.

Lemma headers_collection_untouched_witness :
  fetch_of Erc20Only page usdc paid_request_native_headers (signed Erc20Only)
  = Page.origFetch page paid_request_native_headers (signed Erc20Only).
Proof.
  exact (headers_collection_untouched page usdc Erc20Only
           paid_request_native_headers [("x-payment", "placeholder")]
           (signed Erc20Only) eq_refl).
Defined.

Lemma lower_case_placeholder_kept_witness :
  exists sent,
    fetch_of Erc20Only page usdc (paid_request "x-payment") (signed Erc20Only)
    = Page.origFetch page sent (consume Erc20Only usdc (signed Erc20Only))
    /\ header_names (headers_of sent)
       = (header_names (headers_of (paid_request "x-payment"))
          ++ [U16.lit "X-PAYMENT"])%list
    /\ JS.prop (headers_of sent) "x-payment"
       = JS.prop (headers_of (paid_request "x-payment")) "x-payment"
    /\ JS.prop (headers_of sent) "X-PAYMENT"
       = VStr (encoded_text (pending_header Erc20Only usdc (signed Erc20Only))).
Proof.
  assert (Hn : ~ In (U16.lit "X-PAYMENT")
                 (header_names (headers_of (paid_request "x-payment")))).
  { simpl. intros [E | [E | []]]; discriminate E. }
  assert (Hp : artifact_pending Erc20Only usdc (signed Erc20Only) = true)
    by (vm_compute; reflexivity).
  assert (He : pending_header Erc20Only usdc (signed Erc20Only)
               = Ok (encoded_text
                       (pending_header Erc20Only usdc (signed Erc20Only))))
    by (vm_compute; reflexivity).
  exact (lower_case_placeholder_kept page usdc Erc20Only
           (paid_request "x-payment") (signed Erc20Only) _ Hn eq_refl Hp He).
Defined.

(** The three header names with which the example's request leaves. *)
Example lower_case_placeholder_example :
  header_names
    (headers_of
       (with_payment (paid_request "x-payment")
          (encoded_text (pending_header Erc20Only usdc (signed Erc20Only)))))
  = [U16.lit "Accept"; U16.lit "x-payment"; U16.lit "X-PAYMENT"].
Proof. vm_compute. reflexivity. Qed.

Lemma permit_payment_witness :
  fetch_of Erc20Only page usdc (paid_request "X-PAYMENT")
    (snd (fetch_of Erc20Only page usdc (paid_request "X-PAYMENT")
            (snd (request_of Erc20Only page usdc
                    (sign_request "0xOwner" usdc_transfer) start))))
  = Page.origFetch page (paid_request "X-PAYMENT")
      (snd (fetch_of Erc20Only page usdc (paid_request "X-PAYMENT")
              (snd (request_of Erc20Only page usdc
                      (sign_request "0xOwner" usdc_transfer) start)))).
Proof.
  assert (Ha : authorizes page (sign_request "0xOwner" usdc_transfer)
                 usdc_transfer)
    by (unfold authorizes; repeat split; vm_compute; reflexivity).
  assert (Hr : provider page (requests start) (nonce_call usdc "0xOwner")
               = Ok nonce_5) by (vm_compute; reflexivity).
  assert (Hs : provider page (requests start ++ [nonce_call usdc "0xOwner"])
                 (permit_call usdc usdc_transfer "0xOwner" nonce_5
                    (clock start))
               = Ok (VStr "0xSignature")) by (vm_compute; reflexivity).
  assert (Hh : payment_slot (headers_of (paid_request "X-PAYMENT")) = true)
    by (vm_compute; reflexivity).
  assert (Hb : JS.btoa
                 (JS.JSON_stringify
                    (payment_payload "exact" (network_of (x402 start))
                       (VObj [("permit",
                               permit_artifact usdc_transfer "0xOwner" nonce_5
                                 (clock start) (VStr "0xSignature"));
                              ("transfer",
                               transfer_intent usdc_transfer "0xOwner")])))
               = Ok (encoded_text (exact_header (signed Erc20Only))))
    by (vm_compute; reflexivity).
  exact (proj2 (proj2 (permit_payment page usdc Erc20Only
                         (sign_request "0xOwner" usdc_transfer) usdc_transfer
                         "0xOwner" nonce_5 (VStr "0xSignature")
                         (paid_request "X-PAYMENT") start _
                         Ha eq_refl eq_refl Hr Hs Hh Hb))
           (paid_request "X-PAYMENT")).
Defined.

Lemma native_payment_sent_witness :
  Adapter.fetch page eth (paid_request "X-PAYMENT")
    (snd (Adapter.fetch page eth (paid_request "X-PAYMENT")
            (snd (Adapter.request page eth
                    (sign_request "0xOwner" eth_transfer) start))))
  = Page.origFetch page (paid_request "X-PAYMENT")
      (snd (Adapter.fetch page eth (paid_request "X-PAYMENT")
              (snd (Adapter.request page eth
                      (sign_request "0xOwner" eth_transfer) start)))).
Proof.
  assert (Ha : authorizes page (sign_request "0xOwner" eth_transfer)
                 eth_transfer)
    by (unfold authorizes; repeat split; vm_compute; reflexivity).
  assert (Hr : provider page (requests start)
                 (send_call (signer_of (sign_request "0xOwner" eth_transfer))
                    (JS.prop (message_of eth_transfer) "to")
                    2000000000000000000)
               = Ok (VStr "0xTxHash")) by (vm_compute; reflexivity).
  assert (Hh : payment_slot (headers_of (paid_request "X-PAYMENT")) = true)
    by (vm_compute; reflexivity).
  assert (Hb : JS.btoa
                 (JS.JSON_stringify
                    (payment_payload "native" (network_of (x402 start))
                       (VObj [("txHash", VStr "0xTxHash");
                              ("from",
                               signer_of
                                 (sign_request "0xOwner" eth_transfer));
                              ("to", JS.prop (message_of eth_transfer) "to");
                              ("amountWei", VStr "2000000000000000000")])))
               = Ok (encoded_text
                       (native_header
                          (snd (Adapter.request page eth
                                  (sign_request "0xOwner" eth_transfer)
                                  start)))))
    by (vm_compute; reflexivity).
  exact (proj2 (proj2 (native_payment_sent page eth
                         (sign_request "0xOwner" eth_transfer) eth_transfer
                         "2000000000000000000" 2000000000000000000
                         (VStr "0xTxHash") (paid_request "X-PAYMENT") start _
                         Ha eq_refl eq_refl eq_refl Hr Hh eq_refl Hb))
           (paid_request "X-PAYMENT")).
Defined.

(** The payload that the server reads from the header of the native
    example. *)
Example native_payment_example :
  Ok (JS.prop
        (headers_of
           (nth 0 (fetches
                     (snd (Adapter.fetch page eth (paid_request "X-PAYMENT")
                             (snd (Adapter.request page eth
                                     (sign_request "0xOwner" eth_transfer)
                                     start)))))
              []))
        "X-PAYMENT")
  = match JS.btoa
            (JS.JSON_stringify
               (payment_payload "native" (VStr "base")
                  (VObj [("txHash", VStr "0xTxHash");
                         ("from", VStr "0xOwner");
                         ("to", VStr "0xRecipient");
                         ("amountWei", VStr "2000000000000000000")])))
    with
    | Ok encoded => Ok (VStr encoded)
    | Throw e => Throw e
    end.
Proof. vm_compute. reflexivity. Qed.

End NetworkExamples.

(* ================================================================== *)
(** * The start of the scripts *)
(* ================================================================== *)

Section Loading.

(** X20. Wherever the ERC-20-only script starts, the native-aware
    script starts too, with the same symbol, contract address, decimals
    and [native] mark. *)
Theorem load_covered (window_token window_x402 : value) (tB : token) :
  PaywallAdapter.load window_token window_x402 = Some tB ->
  exists tA,
    Adapter.load window_token window_x402 = Some tA
    /\ symbol tA = symbol tB /\ address tA = address tB
    /\ decimals tA = decimals tB /\ native tA = native tB.
Proof.
  unfold PaywallAdapter.load, Adapter.load,
    PaywallAdapter.token_of, Adapter.token_of,
    PaywallAdapter.default_token, Adapter.default_token.
  cbn zeta. cbn [address symbol decimals native name version].
  destruct (JS.truthy (JS.prop (JS.or window_token _) "address"));
    [|discriminate].
  rewrite andb_false_r. cbn [negb].
  destruct (JS.truthy (JS.opt_prop (Page.requirement window_x402) "extra"));
    intros E; inversion E; subst; eexists; repeat split.
Qed.

(** X21. A script that has started and pays by Permit has a contract
    to name: the token address, which is the configured one, is not
    empty. *)
Theorem load_contract (s : script) (window_token window_x402 : value)
                      (t : token) :
  load_of s window_token window_x402 = Some t ->
  native_mode s t = false ->
  JS.truthy (address t) = true
  /\ address t = JS.prop (JS.or window_token Adapter.default_token) "address".
Proof.
  assert (E : PaywallAdapter.default_token = Adapter.default_token)
    by reflexivity.
  destruct s; unfold load_of, native_mode, PaywallAdapter.load, Adapter.load,
    PaywallAdapter.token_of, Adapter.token_of, Adapter.IS_NATIVE;
    rewrite ?E; cbn zeta; cbn [address native];
    set (configured := JS.or window_token Adapter.default_token).
  - destruct (JS.truthy (JS.prop configured "address")) eqn:Ea.
    + rewrite andb_false_r.
      destruct (JS.truthy (JS.opt_prop _ "extra"));
        intros L _; inversion L; subst; cbn [address]; now split.
    + rewrite andb_true_r.
      destruct (JS.is_true (JS.prop configured "native")) eqn:En;
        cbn [negb]; [|discriminate].
      destruct (JS.truthy (JS.opt_prop _ "extra"));
        intros L Hn; inversion L; subst; cbn [native] in Hn; congruence.
  - destruct (JS.truthy (JS.prop configured "address")) eqn:Ea;
      cbn [negb]; [|discriminate].
    destruct (JS.truthy (JS.opt_prop _ "extra"));
      intros L _; inversion L; subst; cbn [address]; now split.
Qed.

(** X22. With a name both in the token configuration and in the
    descriptor's [extra], the two scripts settle on different ones: the
    native-aware script keeps the configured name, the ERC-20-only
    script takes the advertised one. *)
Theorem name_precedence (window_token window_x402 : value) (tA tB : token) :
  Adapter.load window_token window_x402 = Some tA ->
  PaywallAdapter.load window_token window_x402 = Some tB ->
  let configured := JS.prop (JS.or window_token Adapter.default_token) "name" in
  let advertised :=
    JS.prop (JS.opt_prop (Page.requirement window_x402) "extra") "name" in
  JS.truthy configured = true ->
  JS.truthy advertised = true ->
  name tA = configured /\ name tB = advertised.
Proof.
  assert (E : PaywallAdapter.default_token = Adapter.default_token)
    by reflexivity.
  unfold PaywallAdapter.load, Adapter.load,
    PaywallAdapter.token_of, Adapter.token_of.
  rewrite ?E. cbn zeta. cbn [address symbol decimals native name version].
  set (token := JS.or window_token Adapter.default_token).
  intros EA EB Hc Ha.
  destruct (JS.truthy (JS.prop token "address")); [|discriminate].
  rewrite andb_false_r in EA. cbn [negb] in *.
  destruct (JS.opt_prop (Page.requirement window_x402) "extra") eqn:Ex;
    try discriminate Ha.
  cbn [JS.truthy] in *. rewrite Ha in EB.
  injection EA as <-. injection EB as <-. cbn [name].
  split; [|reflexivity].
  unfold JS.or at 1 2. now rewrite Hc, Hc.
Qed.

End Loading.

Section LoadingExamples.

Import Example.

Lemma load_covered_witness :
  exists tA,
    Adapter.load usdc_token descriptor = Some tA
    /\ symbol tA = symbol usdc /\ address tA = address usdc
    /\ decimals tA = decimals usdc /\ native tA = native usdc.
Proof.
  exact (load_covered usdc_token descriptor usdc eq_refl).
Defined.

Lemma load_contract_witness :
  JS.truthy (address usdc) = true
  /\ address usdc = JS.prop (JS.or usdc_token Adapter.default_token) "address".
Proof.
  exact (load_contract Erc20Only usdc_token descriptor usdc eq_refl eq_refl).
Defined.

Lemma name_precedence_witness :
  name configured = VStr "Configured" /\ name advertised = VStr "Advertised".
Proof.
  exact (name_precedence named_token named_descriptor configured advertised
           eq_refl eq_refl eq_refl eq_refl).
Defined.

End LoadingExamples.

(* ================================================================== *)
(** * The refresh loop *)
(* ================================================================== *)

Section Lists.

Context {A B : Type}.

Lemma NoDup_map_filter (g : A -> B) (f : A -> bool) l :
  NoDup (map g l) -> NoDup (map g (filter f l)).
Proof.
  induction l as [|a l IH]; cbn; intros Hn; [constructor|].
  inversion Hn as [|x xs Hx Hl]; subst.
  destruct (f a); cbn; [constructor|]; auto.
  intros Hi. apply Hx. apply in_map_iff in Hi as (y & <- & Hy).
  apply filter_In in Hy as [Hy _]. now apply in_map.
Qed.

Lemma length_filter_filter (p f : A -> bool) (l : list A) :
  (List.length (filter p (filter f l)) <= List.length (filter p l))%nat.
Proof.
  induction l as [|a l IH]; cbn; [lia|].
  destruct (f a), (p a) eqn:E; cbn; rewrite ?E; cbn; lia.
Qed.

Lemma NoDup_snoc (l : list A) (x : A) :
  NoDup l -> ~ In x l -> NoDup (l ++ [x]).
Proof.
  induction l as [|a l IH]; cbn; intros Hn Hx.
  - constructor; [intros [] | constructor].
  - inversion Hn as [|y ys Hy Hl]; subst. constructor.
    + intros Hi. apply in_app_or in Hi as [Hi | [<- | []]]; tauto.
    + apply IH; tauto.
Qed.

Lemma filter_none (p : A -> bool) (l : list A) :
  (forall a, In a l -> p a = false) -> filter p l = [].
Proof.
  induction l as [|a l IH]; cbn; intros Hp; [reflexivity|].
  rewrite (Hp a) by now left. apply IH. intros b Hb. apply Hp. now right.
Qed.

Lemma find_snoc (p : A -> bool) (l : list A) (x : A) :
  (forall a, In a l -> p a = false) -> p x = true ->
  find p (l ++ [x]) = Some x.
Proof.
  induction l as [|a l IH]; cbn; intros Hp Hx.
  - now rewrite Hx.
  - rewrite (Hp a) by now left. apply IH; [|exact Hx].
    intros b Hb. apply Hp. now right.
Qed.

End Lists.

Section RefreshLoop.

Import Refresh.

Variable document : Type.
Variable replaceText : document -> outcome unit * document.

Lemma steady_ext (st st' : state document) :
  processing st' = processing st -> debounce st' = debounce st ->
  ready st' = ready st -> timers st' = timers st ->
  next_id st' = next_id st -> listening st' = listening st ->
  steady st -> steady st'.
Proof.
  destruct st, st'; cbn. intros -> -> -> -> -> ->. exact (fun Hs => Hs).
Qed.

Lemma steady_filter (st : state document) f :
  steady st -> steady (set_timers (filter f (timers st)) st).
Proof.
  intros (S1 & S2 & S3 & S4 & S5 & S6 & S7 & S8).
  unfold steady, ids, pending, set_timers; cbn.
  split; [exact S1|]. split; [intros Hr; now rewrite (S2 Hr)|].
  split; [exact S3|].
  split; [intros t Ht; apply filter_In in Ht as [Ht _]; exact (S4 t Ht)|].
  split; [exact S5|]. split; [now apply NoDup_map_filter|].
  split; [intros t Ht; apply filter_In in Ht as [Ht _]; exact (S7 t Ht)|].
  eapply Nat.le_trans; [apply length_filter_filter | exact S8].
Qed.

Lemma steady_clear (st : state document) h : steady st -> steady (clearTimeout h st).
Proof.
  intros Hs. destruct h as [i|]; [|exact Hs]. now apply steady_filter.
Qed.

Lemma update_idle (st : state document) :
  processing st = false ->
  update replaceText st
  = (fst (replaceText (page st)),
     set_page (snd (replaceText (page st))) st).
Proof.
  intros Hp. unfold update. rewrite Hp.
  destruct st as [p db r ts n l o d]. cbn in *. subst p.
  destruct (replaceText d) as [[u|e] d']; [destruct u|]; reflexivity.
Qed.

Lemma steady_update (st : state document) : steady st -> steady (snd (update replaceText st)).
Proof.
  intros Hs. rewrite update_idle by apply Hs.
  now apply (steady_ext st).
Qed.

Lemma steady_init (st : state document) :
  steady st -> timers st = [] ->
  steady (snd (init replaceText (set_listening false st))).
Proof.
  intros (S1 & S2 & S3 & S4 & S5 & S6 & S7 & S8) Ht.
  unfold init. rewrite update_idle by exact S1.
  destruct st as [p db r ts n l o d]. cbn in *. subst p ts.
  destruct (replaceText d) as [[u|e] d']; cbn;
    unfold steady, ids, pending; cbn.
  - split; [reflexivity|]. split; [discriminate|]. split; [discriminate|].
    split.
    { intros t [<- | []]. cbn. split; [discriminate|].
      intros E. apply S5 in E. lia. }
    split; [intros i E; apply S5 in E; lia|].
    split; [constructor; [intros [] | constructor]|].
    split; [intros t [<- | []]; cbn; lia | lia].
  - split; [reflexivity|]. split; [reflexivity|]. split; [discriminate|].
    split; [intros t []|]. split; [exact S5|].
    split; [constructor|]. split; [intros t [] | lia].
Qed.

Lemma calls_other t :
  calls UpdateBalance t = negb (calls Update t).
Proof. unfold calls. destruct (timer_callback t); reflexivity. Qed.

Lemma calls_update t :
  calls Update t = true <-> timer_callback t = Update.
Proof.
  unfold calls. destruct (timer_callback t); split; congruence.
Qed.

(** Under the invariant, [clearTimeout(debounce)] removes the pending
    [update] timers and nothing else. *)
Lemma clear_debounce (st : state document) :
  steady st ->
  timers (clearTimeout (debounce st) st) = pending UpdateBalance st.
Proof.
  intros (S1 & S2 & S3 & S4 & S5 & S6 & S7 & S8).
  unfold clearTimeout, pending.
  destruct (debounce st) as [j|] eqn:Ed; cbn.
  - apply filter_ext_in. intros t Ht. rewrite calls_other.
    f_equal. destruct (S4 t Ht) as [F G].
    destruct (calls Update t) eqn:Ec.
    + apply calls_update in Ec. specialize (F Ec).
      injection F as ->. apply Nat.eqb_refl.
    + destruct (Nat.eqb_spec (timer_id t) j) as [<- | Hne]; [|reflexivity].
      specialize (G eq_refl). apply calls_update in G. congruence.
  - symmetry. rewrite <- (filter_ext_in (fun _ => true)).
    + clear. induction (timers st) as [|t l IH]; cbn; congruence.
    + intros t Ht. rewrite calls_other.
      destruct (calls Update t) eqn:Ec; [|reflexivity].
      apply calls_update in Ec. apply (S4 t Ht) in Ec. discriminate.
Qed.

(** A batch that adds nodes, on a page that is ready. *)
Lemma observer_step (st : state document) m :
  steady st -> ready st = true -> adds_nodes m = true ->
  observer m st
  = mkState false (Some (next_id st)) true
      (pending UpdateBalance st ++ [mkTimer (next_id st) Update 150])
      (S (next_id st)) (listening st) (observing st) (page st).
Proof.
  intros Hs Hr Hm. pose proof (clear_debounce st Hs) as Hc.
  destruct Hs as (S1 & _).
  unfold observer. rewrite Hr, S1, Hm. cbn [negb orb].
  unfold setTimeout, set_debounce. cbn.
  rewrite Hc.
  destruct st as [p db r ts n l o d]; destruct db; cbn in *; congruence.
Qed.

Lemma pending_balance_in (st : state document) t :
  In t (pending UpdateBalance st) ->
  In t (timers st) /\ timer_callback t = UpdateBalance.
Proof.
  unfold pending. intros Ht. apply filter_In in Ht as [Ht Hc].
  split; [exact Ht|]. unfold calls in Hc.
  destruct (timer_callback t); [discriminate | reflexivity].
Qed.

Lemma steady_scheduled (st : state document) :
  steady st -> ready st = true ->
  steady (mkState false (Some (next_id st)) true
            (pending UpdateBalance st ++ [mkTimer (next_id st) Update 150])
            (S (next_id st)) (listening st) (observing st) (page st)).
Proof.
  intros Hs Hr. pose proof Hs as (S1 & S2 & S3 & S4 & S5 & S6 & S7 & S8).
  unfold steady, ids; cbn.
  split; [reflexivity|]. split; [discriminate|].
  split; [intros Hl; apply S3 in Hl; congruence|].
  split.
  { intros t Ht. apply in_app_or in Ht as [Ht | [<- | []]].
    - apply pending_balance_in in Ht as [Ht Hc].
      split; [congruence|]. intros E. injection E as E.
      specialize (S7 t Ht). lia.
    - cbn. split; reflexivity. }
  split; [intros i E; injection E as <-; lia|].
  split.
  { rewrite map_app. cbn. apply NoDup_snoc.
    - now apply NoDup_map_filter.
    - intros Hi. apply in_map_iff in Hi as (t & Et & Ht).
      apply pending_balance_in in Ht as [Ht _].
      specialize (S7 t Ht). lia. }
  split.
  { intros t Ht. apply in_app_or in Ht as [Ht | [<- | []]].
    - apply pending_balance_in in Ht as [Ht _]. specialize (S7 t Ht). lia.
    - cbn. lia. }
  unfold pending at 1. cbn. rewrite filter_app. cbn.
  rewrite app_nil_r. unfold pending.
  eapply Nat.le_trans; [apply length_filter_filter | exact S8].
Qed.

Lemma steady_observer (st : state document) m : steady st -> steady (observer m st).
Proof.
  intros Hs. destruct (ready st) eqn:Hr.
  - destruct (adds_nodes m) eqn:Hm.
    + rewrite observer_step by assumption. now apply steady_scheduled.
    + unfold observer. rewrite Hm.
      destruct (negb (ready st) || processing st); exact Hs.
  - unfold observer. rewrite Hr. exact Hs.
Qed.

Lemma steady_handle ev (st : state document) : steady st -> steady (handle replaceText ev st).
Proof.
  intros Hs. destruct ev as [|m|i|d]; cbn [handle].
  - destruct (listening st) eqn:Hl; [|exact Hs].
    apply steady_init; [exact Hs|].
    destruct Hs as (_ & S2 & S3 & _). auto.
  - destruct (observing st); [now apply steady_observer | exact Hs].
  - destruct (find _ (timers st)) as [t|]; [|exact Hs].
    destruct (timer_callback t).
    + apply steady_update. now apply steady_clear.
    + now apply steady_clear.
  - now apply (steady_ext st).
Qed.

Lemma steady_run evs (st : state document) : steady st -> steady (run replaceText evs st).
Proof.
  unfold run. revert st. induction evs as [|ev evs IH]; intros st Hs.
  - exact Hs.
  - cbn. apply IH. now apply steady_handle.
Qed.

Lemma steady_initial (d : document) : steady (initial d).
Proof.
  unfold steady, initial, ids, pending; cbn.
  split; [reflexivity|]. split; [reflexivity|]. split; [discriminate|].
  split; [intros t []|]. split; [discriminate|].
  split; [constructor|]. split; [intros t [] | lia].
Qed.

Lemma steady_start (d : document) loading body :
  steady (snd (start replaceText loading body (initial d))).
Proof.
  unfold start. destruct loading.
  - destruct body; cbn [snd];
      apply (steady_ext (set_listening true (initial d)));
      try reflexivity;
      unfold steady, initial, ids, pending; cbn;
      (split; [reflexivity|]; split; [reflexivity|];
       split; [reflexivity|]; split; [intros t []|];
       split; [discriminate|]; split; [constructor|];
       split; [intros t [] | lia]).
  - pose proof (steady_init (initial d) (steady_initial d) eq_refl) as Hi.
    change (set_listening false (initial d)) with (initial d) in Hi.
    destruct (init replaceText (initial d)) as [[u|e] st1]; cbn [snd] in *.
    + destruct body; cbn [snd]; [|exact Hi].
      now apply (steady_ext st1).
    + exact Hi.
Qed.

Lemma one_update (l : list timer) (db : option nat) :
  (forall t, In t l -> timer_callback t = Update -> db = Some (timer_id t)) ->
  NoDup (map timer_id l) ->
  (List.length (filter (calls Update) l) <= 1)%nat.
Proof.
  induction l as [|a l IH]; cbn; intros Hd Hn; [lia|].
  inversion Hn as [|x xs Hx Hl]; subst.
  destruct (calls Update a) eqn:Ea.
  - rewrite (filter_none (calls Update) l); [cbn; lia|].
    intros t Ht. destruct (calls Update t) eqn:Et; [|reflexivity].
    exfalso. apply Hx.
    apply calls_update in Ea. apply calls_update in Et.
    pose proof (Hd a (or_introl eq_refl) Ea) as E1.
    pose proof (Hd t (or_intror Ht) Et) as E2.
    assert (E : timer_id a = timer_id t) by congruence.
    rewrite E. now apply in_map.
  - apply IH; [|exact Hl]. intros t Ht. apply Hd. now right.
Qed.

(** X23. Between any two events, whatever has happened since the
    script ran: [replaceText] is not running, at most one [update] timer
    and at most one balance timer are pending, nothing is scheduled
    before [init] has run, and no two pending timers share an id. *)
Theorem refresh_steady (d : document) (loading body : bool)
                       (evs : list (event document)) :
  let st := run replaceText evs
              (snd (start replaceText loading body (initial d))) in
  processing st = false
  /\ (List.length (pending Update st) <= 1)%nat
  /\ (List.length (pending UpdateBalance st) <= 1)%nat
  /\ (ready st = false -> timers st = [])
  /\ NoDup (ids st).
Proof.
  cbn zeta.
  pose proof (steady_run evs _ (steady_start d loading body))
    as (S1 & S2 & S3 & S4 & S5 & S6 & S7 & S8).
  split; [exact S1|]. split; [|split; [exact S8 | split; [exact S2 | exact S6]]].
  unfold pending. eapply one_update; [|exact S6].
  intros t Ht Hc. exact (proj1 (S4 t Ht) Hc).
Qed.

Lemma filter_same (l : list timer) (p : timer -> bool) :
  (forall t, In t l -> p t = true) -> filter p l = l.
Proof.
  induction l as [|a l IH]; cbn; intros Hp; [reflexivity|].
  rewrite (Hp a) by now left. f_equal. apply IH.
  intros t Ht. apply Hp. now right.
Qed.

Lemma pending_balance_again (st : state document) :
  filter (calls UpdateBalance) (pending UpdateBalance st)
  = pending UpdateBalance st.
Proof.
  apply filter_same. intros t Ht. unfold pending in Ht.
  now apply filter_In in Ht as [_ Ht].
Qed.

Lemma pending_balance_no_update (st : state document) :
  filter (calls Update) (pending UpdateBalance st) = [].
Proof.
  apply filter_none. intros t Ht. apply pending_balance_in in Ht as [_ Ht].
  unfold calls. now rewrite Ht.
Qed.

(** A burst of batches that add nodes, on a page that is ready and
    observed. *)
Lemma burst_run ms :
  forall m (st : state document),
    steady st -> ready st = true -> observing st = true ->
    adds_nodes m = true -> forallb adds_nodes ms = true ->
    run replaceText (map Mutations (m :: ms)) st
    = mkState false (Some (next_id st + List.length ms)%nat) true
        (pending UpdateBalance st
         ++ [mkTimer (next_id st + List.length ms) Update 150])
        (S (next_id st + List.length ms)) (listening st) true (page st).
Proof.
  induction ms as [|m' ms IH]; intros m st Hs Hr Ho Hm Hms.
  - unfold run. cbn [map fold_left handle]. rewrite Ho.
    rewrite observer_step by assumption.
    cbn [List.length]. rewrite Nat.add_0_r, Ho. reflexivity.
  - cbn [forallb] in Hms. apply andb_true_iff in Hms as [Hm' Hms].
    change (run replaceText (map Mutations (m :: m' :: ms)) st)
      with (run replaceText (map Mutations (m' :: ms))
              (handle replaceText (Mutations m) st)).
    cbn [handle]. rewrite Ho, observer_step by assumption.
    rewrite IH; try assumption; try reflexivity;
      [|now apply steady_scheduled].
    unfold pending at 1 2. cbn [timers next_id listening page].
    rewrite filter_app. cbn [filter calls timer_callback].
    rewrite app_nil_r, pending_balance_again.
    cbn [List.length]. rewrite <- !Nat.add_succ_comm. reflexivity.
Qed.

(** X24. However many batches that add nodes the observer receives in
    a row on a page that is ready, exactly one [update] timer is pending
    afterwards, the one of the last batch, 150 ms out; the balance timer
    is never cancelled by it and the document is not touched yet. *)
Theorem mutation_burst (d : document) (loading body : bool)
                       (evs : list (event document))
                       (m : list mutation) (ms : list (list mutation)) :
  let st := run replaceText evs
              (snd (start replaceText loading body (initial d))) in
  ready st = true -> observing st = true ->
  forallb adds_nodes (m :: ms) = true ->
  let st' := run replaceText (map Mutations (m :: ms)) st in
  let last := (next_id st + List.length ms)%nat in
  pending Update st' = [mkTimer last Update 150]
  /\ pending UpdateBalance st' = pending UpdateBalance st
  /\ debounce st' = Some last
  /\ page st' = page st.
Proof.
  cbn zeta. intros Hr Ho Hm.
  cbn [forallb] in Hm. apply andb_true_iff in Hm as [Hm Hms].
  rewrite burst_run; try assumption;
    [|apply steady_run, steady_start].
  unfold pending at 1 3. cbn [timers debounce page].
  rewrite !filter_app, pending_balance_again, pending_balance_no_update.
  cbn. rewrite app_nil_r. repeat split.
Qed.

(** X25. When the timer of such a burst fires, [replaceText] runs
    once on the document as it is, and no [update] timer is left; the
    balance timer stays. *)
Theorem debounced_update (d : document) (loading body : bool)
                         (evs : list (event document))
                         (m : list mutation) (ms : list (list mutation)) :
  let st := run replaceText evs
              (snd (start replaceText loading body (initial d))) in
  ready st = true -> observing st = true ->
  forallb adds_nodes (m :: ms) = true ->
  let fired :=
    handle replaceText (Timeout (next_id st + List.length ms))
      (run replaceText (map Mutations (m :: ms)) st) in
  page fired = snd (replaceText (page st))
  /\ timers fired = pending UpdateBalance st
  /\ processing fired = false.
Proof.
  cbn zeta. intros Hr Ho Hm.
  cbn [forallb] in Hm. apply andb_true_iff in Hm as [Hm Hms].
  pose proof (steady_run evs _ (steady_start d loading body)) as Hs.
  rewrite burst_run by assumption.
  set (st := run replaceText evs _) in *.
  set (last := (next_id st + List.length ms)%nat).
  assert (Hold : forall t, In t (pending UpdateBalance st) ->
                           Nat.eqb (timer_id t) last = false).
  { intros t Ht. apply pending_balance_in in Ht as [Ht _].
    destruct Hs as (_ & _ & _ & _ & _ & _ & S7 & _).
    specialize (S7 t Ht). apply Nat.eqb_neq. unfold last. lia. }
  cbn [handle timers].
  rewrite (find_snoc _ _ (mkTimer last Update 150)) by
    (try exact Hold; apply Nat.eqb_refl).
  cbn [timer_callback]. rewrite update_idle by reflexivity.
  unfold clearTimeout, set_timers, set_page. cbn.
  rewrite filter_app. cbn. rewrite Nat.eqb_refl. cbn.
  rewrite app_nil_r, filter_same; [repeat split|].
  intros t Ht. now rewrite (Hold t Ht).
Qed.

(** X26. The fetch wrapper is installed exactly when the token
    loaded, the document has a body, the first text replacement, if it
    runs at once, does not throw, and the provider block of lines 98-100
    does not throw either: there is no provider, or its [request] can be
    bound and the assignment to it is not refused.  The provider wrapper
    is in place exactly when, besides, there is such a provider and the
    assignment took effect. *)
Theorem installation_conditions (loaded : option token)
                                (loading body : bool)
                                (ethereum : provider_object)
                                (d : document) :
  let done := fst (main replaceText loaded loading body ethereum (initial d)) in
  (fetch_wrapped done = true
   <-> loaded <> None /\ body = true
       /\ (loading = true \/ exists d', replaceText d = (Ok tt, d'))
       /\ exists wrapped, wrap_request ethereum = Ok wrapped)
  /\ (request_wrapped done = true
      <-> fetch_wrapped done = true /\ wrap_request ethereum = Ok true).
Proof.
  cbn zeta. unfold main, start, init, update. cbn [processing initial].
  destruct loaded as [t|]; cbn [fst].
  2:{ cbn. repeat split; try discriminate.
      - intros (Hn & _). congruence.
      - intros [E _]. discriminate E. }
  assert (L : loading = true \/ (exists d', replaceText d = (Ok tt, d'))
              <-> loading = true \/ fst (replaceText d) = Ok tt).
  { split; intros [Hl | Hr]; auto; right.
    - destruct Hr as [d' ->]. reflexivity.
    - destruct (replaceText d) as [r d']. cbn in Hr. subst r. now exists d'. }
  rewrite L. clear L.
  change (page (set_processing true (initial d))) with d.
  destruct (replaceText d) as [[[]|e] d']; cbn [fst];
    destruct loading, body, ethereum as [|[|] [| |]]; cbn;
    (split; split;
     [ intros E; try discriminate E; repeat split;
       try discriminate; eauto
     | intros (_ & Hb & Hl & [x Hw]); try reflexivity;
       try discriminate Hb; try discriminate Hw;
       destruct Hl as [Hl | Hl]; discriminate Hl
     | intros E; try discriminate E; now split
     | intros [E Hw]; try reflexivity; try discriminate E;
       discriminate Hw ]).
Qed.

Lemma quiet_handle ev (st : state document) :
  observing st = false -> pending Update st = [] ->
  observing (handle replaceText ev st) = false
  /\ pending Update (handle replaceText ev st) = [].
Proof.
  assert (F : forall f ts, filter (calls Update) ts = [] ->
                filter (calls Update) (filter f ts) = []).
  { intros f ts Hp.
    pose proof (length_filter_filter (calls Update) f ts) as Hl.
    rewrite Hp in Hl.
    destruct (filter (calls Update) (filter f ts)); [reflexivity|].
    cbn in Hl. lia. }
  destruct st as [p db r ts n l o d]. unfold pending. cbn.
  intros -> Hp. destruct ev as [|m|i|d0]; cbn.
  - destruct l; cbn; [|now split].
    unfold init, update. cbn.
    destruct p; cbn; [|destruct (replaceText d) as [[u|e] d']; cbn];
      rewrite ?filter_app, ?Hp; now split.
  - now split.
  - destruct (find _ ts) as [t|]; cbn; [|now split].
    destruct (timer_callback t); unfold update; cbn;
      [destruct p; cbn; [|destruct (replaceText d) as [[u|e] d']; cbn]|];
      (split; [reflexivity | now apply F]).
  - now split.
Qed.

(** X27. A script that runs before the document has a body installs
    no wrapper, and its observer is never registered: whatever happens
    afterwards, no [update] is ever scheduled. *)
Theorem no_body_no_observer (loaded : option token) (loading : bool)
                            (ethereum : provider_object) (d : document)
                            (evs : list (event document)) :
  let r := main replaceText loaded loading false ethereum (initial d) in
  fst r = mkInstallation false false
  /\ observing (run replaceText evs (snd r)) = false
  /\ pending Update (run replaceText evs (snd r)) = [].
Proof.
  cbn zeta.
  assert (Hq : observing
                 (snd (main replaceText loaded loading false ethereum
                         (initial d))) = false
               /\ pending Update
                    (snd (main replaceText loaded loading false ethereum
                            (initial d))) = []).
  { unfold main, start, init, update, pending.
    destruct loaded; cbn; [|now split].
    destruct loading; cbn; [now split|].
    destruct (replaceText d) as [[u|e] d']; cbn; now split. }
  split.
  { unfold main, start, init, update.
    destruct loaded; cbn; [|reflexivity].
    destruct loading; cbn; [reflexivity|].
    destruct (replaceText d) as [[u|e] d']; reflexivity. }
  revert Hq. generalize (snd (main replaceText loaded loading false ethereum
                                (initial d))).
  unfold run. induction evs as [|ev evs IH]; intros st [Ho Hp].
  - now split.
  - cbn [fold_left]. apply IH. now apply quiet_handle.
Qed.

(** X28. On a page without a token configuration either script
    returns at once: no wrapper, no listener, no timer. *)
Theorem unconfigured (s : script) (window_token window_x402 : value)
                     (loading body : bool) (ethereum : provider_object)
                     (st : state document) :
  JS.truthy window_token = false ->
  main replaceText (load_of s window_token window_x402) loading body
    ethereum st
  = (mkInstallation false false, st).
Proof.
  intros Hw.
  assert (E : load_of s window_token window_x402 = None).
  { destruct s; unfold load_of, Adapter.load, PaywallAdapter.load, JS.or;
      rewrite Hw; reflexivity. }
  now rewrite E.
Qed.

End RefreshLoop.

Section RefreshExamples.

Import Refresh.

Lemma mutation_burst_witness :
  pending Update
    (run Pages.counting
       (map Mutations [Pages.added; Pages.added; Pages.added]) Pages.loaded)
  = [mkTimer 4 Update 150]
  /\ pending UpdateBalance
       (run Pages.counting
          (map Mutations [Pages.added; Pages.added; Pages.added])
          Pages.loaded)
     = pending UpdateBalance Pages.loaded
  /\ debounce
       (run Pages.counting
          (map Mutations [Pages.added; Pages.added; Pages.added])
          Pages.loaded)
     = Some 4%nat
  /\ page
       (run Pages.counting
          (map Mutations [Pages.added; Pages.added; Pages.added])
          Pages.loaded)
     = page Pages.loaded.
Proof.
  exact (mutation_burst nat Pages.counting 0%nat false true []
           Pages.added [Pages.added; Pages.added] eq_refl eq_refl eq_refl).
Defined.

Lemma debounced_update_witness :
  page (handle Pages.counting (Timeout 4)
          (run Pages.counting
             (map Mutations [Pages.added; Pages.added; Pages.added])
             Pages.loaded))
  = 2%nat
  /\ timers (handle Pages.counting (Timeout 4)
               (run Pages.counting
                  (map Mutations [Pages.added; Pages.added; Pages.added])
                  Pages.loaded))
     = pending UpdateBalance Pages.loaded
  /\ processing (handle Pages.counting (Timeout 4)
                   (run Pages.counting
                      (map Mutations [Pages.added; Pages.added; Pages.added])
                      Pages.loaded))
     = false.
Proof.
  exact (debounced_update nat Pages.counting 0%nat false true []
           Pages.added [Pages.added; Pages.added] eq_refl eq_refl eq_refl).
Defined.

Lemma unconfigured_witness :
  main Pages.counting (load_of Erc20Only VUndef Example.descriptor)
    false true (Provider true Stored) (initial 0%nat)
  = (mkInstallation false false, initial 0%nat).
Proof.
  exact (unconfigured nat Pages.counting Erc20Only VUndef Example.descriptor
           false true (Provider true Stored) (initial 0%nat) eq_refl).
Defined.

End RefreshExamples.
